(** * irecovery: the host-side iBoot/DFU library, embedded in Rocq

    A shallow embedding of [src/irecovery.c] (with the types of
    [src/irecovery.h]): the CRC-32 of the DFU trailer, the device zone of the
    client, the USB event handler, the identity parser, finalization, the
    command channel and the upload engine, followed by the theorems that
    settle the properties stated for them.

    Conventions.
    - C integers are [Z] (sizes and byte counts, which are [size_t], are
      non-negative); every place where the source narrows or masks a value is
      written out.  Lengths handled by this code are bounded by the 16-bit
      [wLength] of a control transfer or by the size of a memory buffer of the
      device, so no other conversion of the source wraps.
    - The source builds against the toolchain of the TI-84 Plus CE
      ([usbdrvce.h], [sys/timers.h]), an eZ80: [int] and [unsigned int] are
      24 bits wide ([UINT_BITS]), [uint64_t] is 64.
    - Bytes are [Byte.byte]; C strings are [string] (the characters before the
      terminating NUL).
    - A pointer that may be NULL is an [option].
    - The client structure, the USB stack and the log of USB operations are
      threaded through a state monad. *)

From Stdlib Require Import ZArith NArith List Bool Lia.
From Stdlib Require Import Strings.String Strings.Ascii Strings.Byte.
Import ListNotations.
Local Open Scope Z_scope.


(** ** CRC-32 (irecovery.c, lines 366-435) *)

Module Crc.

(** [crc32_lookup_t1]: the 256-entry table of the source. *)
Definition crc32_lookup_t1 : list Z := [
  0x00000000; 0x77073096; 0xEE0E612C; 0x990951BA;
  0x076DC419; 0x706AF48F; 0xE963A535; 0x9E6495A3;
  0x0EDB8832; 0x79DCB8A4; 0xE0D5E91E; 0x97D2D988;
  0x09B64C2B; 0x7EB17CBD; 0xE7B82D07; 0x90BF1D91;
  0x1DB71064; 0x6AB020F2; 0xF3B97148; 0x84BE41DE;
  0x1ADAD47D; 0x6DDDE4EB; 0xF4D4B551; 0x83D385C7;
  0x136C9856; 0x646BA8C0; 0xFD62F97A; 0x8A65C9EC;
  0x14015C4F; 0x63066CD9; 0xFA0F3D63; 0x8D080DF5;
  0x3B6E20C8; 0x4C69105E; 0xD56041E4; 0xA2677172;
  0x3C03E4D1; 0x4B04D447; 0xD20D85FD; 0xA50AB56B;
  0x35B5A8FA; 0x42B2986C; 0xDBBBC9D6; 0xACBCF940;
  0x32D86CE3; 0x45DF5C75; 0xDCD60DCF; 0xABD13D59;
  0x26D930AC; 0x51DE003A; 0xC8D75180; 0xBFD06116;
  0x21B4F4B5; 0x56B3C423; 0xCFBA9599; 0xB8BDA50F;
  0x2802B89E; 0x5F058808; 0xC60CD9B2; 0xB10BE924;
  0x2F6F7C87; 0x58684C11; 0xC1611DAB; 0xB6662D3D;
  0x76DC4190; 0x01DB7106; 0x98D220BC; 0xEFD5102A;
  0x71B18589; 0x06B6B51F; 0x9FBFE4A5; 0xE8B8D433;
  0x7807C9A2; 0x0F00F934; 0x9609A88E; 0xE10E9818;
  0x7F6A0DBB; 0x086D3D2D; 0x91646C97; 0xE6635C01;
  0x6B6B51F4; 0x1C6C6162; 0x856530D8; 0xF262004E;
  0x6C0695ED; 0x1B01A57B; 0x8208F4C1; 0xF50FC457;
  0x65B0D9C6; 0x12B7E950; 0x8BBEB8EA; 0xFCB9887C;
  0x62DD1DDF; 0x15DA2D49; 0x8CD37CF3; 0xFBD44C65;
  0x4DB26158; 0x3AB551CE; 0xA3BC0074; 0xD4BB30E2;
  0x4ADFA541; 0x3DD895D7; 0xA4D1C46D; 0xD3D6F4FB;
  0x4369E96A; 0x346ED9FC; 0xAD678846; 0xDA60B8D0;
  0x44042D73; 0x33031DE5; 0xAA0A4C5F; 0xDD0D7CC9;
  0x5005713C; 0x270241AA; 0xBE0B1010; 0xC90C2086;
  0x5768B525; 0x206F85B3; 0xB966D409; 0xCE61E49F;
  0x5EDEF90E; 0x29D9C998; 0xB0D09822; 0xC7D7A8B4;
  0x59B33D17; 0x2EB40D81; 0xB7BD5C3B; 0xC0BA6CAD;
  0xEDB88320; 0x9ABFB3B6; 0x03B6E20C; 0x74B1D29A;
  0xEAD54739; 0x9DD277AF; 0x04DB2615; 0x73DC1683;
  0xE3630B12; 0x94643B84; 0x0D6D6A3E; 0x7A6A5AA8;
  0xE40ECF0B; 0x9309FF9D; 0x0A00AE27; 0x7D079EB1;
  0xF00F9344; 0x8708A3D2; 0x1E01F268; 0x6906C2FE;
  0xF762575D; 0x806567CB; 0x196C3671; 0x6E6B06E7;
  0xFED41B76; 0x89D32BE0; 0x10DA7A5A; 0x67DD4ACC;
  0xF9B9DF6F; 0x8EBEEFF9; 0x17B7BE43; 0x60B08ED5;
  0xD6D6A3E8; 0xA1D1937E; 0x38D8C2C4; 0x4FDFF252;
  0xD1BB67F1; 0xA6BC5767; 0x3FB506DD; 0x48B2364B;
  0xD80D2BDA; 0xAF0A1B4C; 0x36034AF6; 0x41047A60;
  0xDF60EFC3; 0xA867DF55; 0x316E8EEF; 0x4669BE79;
  0xCB61B38C; 0xBC66831A; 0x256FD2A0; 0x5268E236;
  0xCC0C7795; 0xBB0B4703; 0x220216B9; 0x5505262F;
  0xC5BA3BBE; 0xB2BD0B28; 0x2BB45A92; 0x5CB36A04;
  0xC2D7FFA7; 0xB5D0CF31; 0x2CD99E8B; 0x5BDEAE1D;
  0x9B64C2B0; 0xEC63F226; 0x756AA39C; 0x026D930A;
  0x9C0906A9; 0xEB0E363F; 0x72076785; 0x05005713;
  0x95BF4A82; 0xE2B87A14; 0x7BB12BAE; 0x0CB61B38;
  0x92D28E9B; 0xE5D5BE0D; 0x7CDCEFB7; 0x0BDBDF21;
  0x86D3D2D4; 0xF1D4E242; 0x68DDB3F8; 0x1FDA836E;
  0x81BE16CD; 0xF6B9265B; 0x6FB077E1; 0x18B74777;
  0x88085AE6; 0xFF0F6A70; 0x66063BCA; 0x11010B5C;
  0x8F659EFF; 0xF862AE69; 0x616BFFD3; 0x166CCF45;
  0xA00AE278; 0xD70DD2EE; 0x4E048354; 0x3903B3C2;
  0xA7672661; 0xD06016F7; 0x4969474D; 0x3E6E77DB;
  0xAED16A4A; 0xD9D65ADC; 0x40DF0B66; 0x37D83BF0;
  0xA9BCAE53; 0xDEBB9EC5; 0x47B2CF7F; 0x30B5FFE9;
  0xBDBDF21C; 0xCABAC28A; 0x53B39330; 0x24B4A3A6;
  0xBAD03605; 0xCDD70693; 0x54DE5729; 0x23D967BF;
  0xB3667A2E; 0xC4614AB8; 0x5D681B02; 0x2A6F2B94;
  0xB40BBE37; 0xC30C8EA1; 0x5A05DF1B; 0x2D02EF8D
].

(** The value of a byte as an unsigned char. *)
Definition byte_val (b : byte) : Z := Z.of_N (Byte.to_N b).

(** [crc32_step(a,b)]:
    [a = (crc32_lookup_t1[(a & 0xFF) ^ ((unsigned char)b)] ^ (a >> 8))]. *)
Definition crc32_step (a : Z) (b : byte) : Z :=
  Z.lxor (nth (Z.to_nat (Z.lxor (Z.land a 0xFF) (byte_val b))) crc32_lookup_t1 0)
         (Z.shiftr a 8).

(** The loop [for (j = 0; j < size; j++) crc32_step(h1, buffer[...])]. *)
Definition crc32_steps (h1 : Z) (data : list byte) : Z :=
  fold_left crc32_step data h1.

(** The reference the table is compared with: the bit-at-a-time CRC-32 in
    its reflected form, for a reversed polynomial [poly], an initial value and
    no final XOR.  One shift of the register: *)
Definition crc_shift (poly c : Z) : Z :=
  Z.lxor (Z.shiftr c 1) (if Z.testbit c 0 then poly else 0).

(** One byte: XOR it into the low bits, then shift eight times. *)
Definition crc_byte (poly c : Z) (b : byte) : Z :=
  Nat.iter 8 (crc_shift poly) (Z.lxor c (byte_val b)).

Definition crc32_reference (poly init : Z) (data : list byte) : Z :=
  fold_left (crc_byte poly) data init.

(** The four bytes [h1 & 0xFF], [(h1 >> 8) & 0xFF], [(h1 >> 16) & 0xFF],
    [(h1 >> 24) & 0xFF] stored at the end of the trailer. *)
Definition byte_of_Z (z : Z) : byte :=
  match Byte.of_N (Z.to_N (Z.land z 0xFF)) with
  | Some b => b
  | None => x00
  end.

Definition le32 (h1 : Z) : list byte :=
  [ byte_of_Z (Z.land h1 0xFF);
    byte_of_Z (Z.land (Z.shiftr h1 8) 0xFF);
    byte_of_Z (Z.land (Z.shiftr h1 16) 0xFF);
    byte_of_Z (Z.land (Z.shiftr h1 24) 0xFF) ].

End Crc.


(** ** Types (irecovery.h, and the USB types the source takes from usbdrvce.h) *)

(** [irecovery_error_t].  The source returns these codes through [int]s that
    also carry byte counts, so they are kept as integers. *)
Definition IRECOVERY_E_SUCCESS : Z := 0.
Definition IRECOVERY_E_BAD_PTR : Z := -1.
Definition IRECOVERY_E_CLIENT_ALREADY_ACTIVE : Z := -2.
Definition IRECOVERY_E_NO_MEMORY : Z := -3.
Definition IRECOVERY_E_USB_INIT_FAILED : Z := -4.
Definition IRECOVERY_E_NO_DEVICE : Z := -5.
Definition IRECOVERY_E_DST_BUF_SIZE_ZERO : Z := -6.
Definition IRECOVERY_E_DESCRIPTOR_FETCH_FAILED : Z := -7.
Definition IRECOVERY_E_ECID_MISMATCH : Z := -8.
Definition IRECOVERY_E_DESCRIPTOR_SET_FAILED : Z := -9.
Definition IRECOVERY_E_INTERFACE_SET_FAILED : Z := -10.
Definition IRECOVERY_E_FINALIZATION_BLOCKED : Z := -11.
Definition IRECOVERY_E_USB_UPLOAD_FAILED : Z := -12.
Definition IRECOVERY_E_INVALID_USB_STATUS : Z := -13.
Definition IRECOVERY_E_COMMAND_TOO_LONG : Z := -14.
Definition IRECOVERY_E_NO_COMMAND : Z := -15.
Definition IRECOVERY_E_SERVICE_NOT_AVAILABLE : Z := -16.
Definition IRECOVERY_E_USB_RESET_FAILED : Z := -17.
Definition IRECOVERY_E_UNKNOWN_EVENT_TYPE : Z := -18.

(** [enum irecovery_mode]. *)
Definition IRECOVERY_K_RECOVERY_MODE_1 : Z := 0x1280.
Definition IRECOVERY_K_RECOVERY_MODE_2 : Z := 0x1281.
Definition IRECOVERY_K_RECOVERY_MODE_3 : Z := 0x1282.
Definition IRECOVERY_K_RECOVERY_MODE_4 : Z := 0x1283.
Definition IRECOVERY_K_WTF_MODE : Z := 0x1222.
Definition IRECOVERY_K_DFU_MODE : Z := 0x1227.
Definition IRECOVERY_K_PWNDFU_MODE : Z := 0xffff.

(** Send options. *)
Definition IRECOVERY_SEND_OPT_NONE : Z := 0.
Definition IRECOVERY_SEND_OPT_DFU_NOTIFY_FINISH : Z := 1.
Definition IRECOVERY_SEND_OPT_DFU_FORCE_ZLP : Z := 2.
Definition IRECOVERY_SEND_OPT_DFU_SMALL_PKT : Z := 4.

Definition APPLE_VENDOR_ID : Z := 0x05AC.

Inductive irecovery_connection_policy_t :=
| IRECOVERY_CLIENT_DEVICE_POLICY_ACCEPT_ALL
| IRECOVERY_CLIENT_DEVICE_POLICY_ACCEPT_ONLY_WHEN_NO_CURRENT_CONNECTION
| IRECOVERY_CLIENT_DEVICE_POLICY_ONE_CONNECTION_LIMIT.

Inductive irecovery_event_type := IRECOVERY_PROGRESS.

(** [irecovery_event_t].  [progress] is the double
    [((double)count / (double)length) * 100.0]; it is kept as the exact
    fraction [100 * progress_num / progress_den]. *)
Record irecovery_event_t := {
  ev_size : Z;
  ev_data : string;
  progress_num : Z;
  progress_den : Z;
  ev_type : irecovery_event_type
}.

(** [irecovery_event_cb_t]: the callback returns an [int]. *)
Definition irecovery_event_cb_t := irecovery_event_t -> Z.

(** [usb_device_t] is a pointer: 0 is NULL. *)
Definition usb_device_t := N.

(** [usb_error_t]: [USB_SUCCESS] is 0, every other value is an error. *)
Definition usb_error_t := Z.
Definition USB_SUCCESS : usb_error_t := 0.

(** [usb_role_t], as far as the source reads it: the tests are all
    [(role & USB_ROLE_DEVICE) == USB_ROLE_DEVICE]. *)
Inductive usb_role_t := USB_ROLE_HOST | USB_ROLE_DEVICE.

Definition role_is_device (r : usb_role_t) : bool :=
  match r with USB_ROLE_DEVICE => true | USB_ROLE_HOST => false end.

(** The standard 18-byte USB device descriptor. *)
Record usb_device_descriptor_t := {
  bLength : Z;
  bDescriptorType : Z;
  bcdUSB : Z;
  bDeviceClass : Z;
  bDeviceSubClass : Z;
  bDeviceProtocol : Z;
  bMaxPacketSize0 : Z;
  idVendor : Z;
  idProduct : Z;
  bcdDevice : Z;
  iManufacturer : Z;
  iProduct : Z;
  iSerialNumber : Z;
  bNumConfigurations : Z
}.

Definition sizeof_device_descriptor : N := 18.

Definition zero_descriptor : usb_device_descriptor_t :=
  Build_usb_device_descriptor_t 0 0 0 0 0 0 0 0 0 0 0 0 0 0.

Definition descriptor_is_zero (d : usb_device_descriptor_t) : bool :=
  (bLength d =? 0) && (bDescriptorType d =? 0) && (bcdUSB d =? 0)
  && (bDeviceClass d =? 0) && (bDeviceSubClass d =? 0)
  && (bDeviceProtocol d =? 0) && (bMaxPacketSize0 d =? 0)
  && (idVendor d =? 0) && (idProduct d =? 0) && (bcdDevice d =? 0)
  && (iManufacturer d =? 0) && (iProduct d =? 0) && (iSerialNumber d =? 0)
  && (bNumConfigurations d =? 0).

(** A string descriptor as it lies in the buffer handed to the USB stack:
    [bLength], [bDescriptorType] and the UTF-16 code units of [bString]. *)
Record usb_string_descriptor_t := {
  sd_bLength : Z;
  sd_bDescriptorType : Z;
  sd_bString : list Z
}.

Record usb_control_setup_t := {
  bmRequestType : Z;
  bRequest : Z;
  wValue : Z;
  wIndex : Z;
  wLength : Z
}.

(** The events the source's callback distinguishes, with their event data. *)
Inductive usb_event_t :=
| USB_ROLE_CHANGED_EVENT (new_role : usb_role_t)
| USB_DEVICE_DISCONNECTED_EVENT (device : usb_device_t)
| USB_DEVICE_CONNECTED_EVENT (device : usb_device_t)
| USB_DEVICE_DISABLED_EVENT (device : usb_device_t)
| USB_DEVICE_ENABLED_EVENT (device : usb_device_t)
| USB_OTHER_EVENT (code : Z).

(** [struct irecovery_device_info]. *)
Record irecovery_device_info := {
  cpid : Z;
  cprv : Z;
  cpfm : Z;
  scep : Z;
  bdid : Z;
  ecid : Z;
  ibfl : Z;
  srnm : option string;
  imei : option string;
  srtg : option string;
  serial_string : option string;
  pwnd : option string;
  ap_nonce : option (list byte);
  ap_nonce_size : Z;
  sep_nonce : option (list byte);
  sep_nonce_size : Z;
  pid : Z
}.

Definition zero_device_info : irecovery_device_info :=
  Build_irecovery_device_info 0 0 0 0 0 0 0 None None None None None None 0 None 0 0.

Definition is_null {A} (p : option A) : bool :=
  match p with None => true | Some _ => false end.

Definition device_info_is_zero (i : irecovery_device_info) : bool :=
  (cpid i =? 0) && (cprv i =? 0) && (cpfm i =? 0) && (scep i =? 0)
  && (bdid i =? 0) && (ecid i =? 0) && (ibfl i =? 0)
  && is_null (srnm i) && is_null (imei i) && is_null (srtg i)
  && is_null (serial_string i) && is_null (pwnd i)
  && is_null (ap_nonce i) && (ap_nonce_size i =? 0)
  && is_null (sep_nonce i) && (sep_nonce_size i =? 0) && (pid i =? 0).

(** [struct irecovery_client].  The first three fields are the static zone
    (the log function pointer, which only receives characters, is left out);
    the fields from [handle] on are the device zone
    ([DEVICE_ZONE_OFFSET = offsetof(struct irecovery_client, handle)]). *)
Record irecovery_client := {
  connection_policy : irecovery_connection_policy_t;
  ecid_restriction : Z;
  num_connections : Z;
  handle : usb_device_t;
  device_descriptor : usb_device_descriptor_t;
  device_info : irecovery_device_info;
  mode : Z;
  finalized : Z;
  progress_callback : option irecovery_event_cb_t
}.

(** The USB operations a run performs, in order. *)
Inductive usb_op :=
| OpReset (device : usb_device_t)
| OpGetDescriptor (device : usb_device_t)
| OpGetStringDescriptor (device : usb_device_t) (index : Z) (length : Z)
| OpGetConfigurationDescriptor (device : usb_device_t) (index : Z)
| OpSetConfiguration (device : usb_device_t)
| OpControl (device : usb_device_t) (setup : usb_control_setup_t) (data : list byte)
| OpBulk (device : usb_device_t) (endpoint : Z) (data : list byte)
| OpProgress (event : irecovery_event_t) (returned : Z)
| OpSleep (seconds : Z).

(** ** The environment *)

(** The USB stack of the calculator (usbdrvce) and the allocator, as state
    transformers on a world [W].  [usb_WaitingEvents] gives the events that
    one call of [usb_HandleEvents] hands to the registered callback. *)
Class UsbStack (W : Type) := {
  usb_GetRole : W -> usb_role_t;
  usb_WaitingEvents : W -> list usb_event_t * W;
  usb_ResetDevice : usb_device_t -> W -> usb_error_t * W;
  usb_GetDescriptor : usb_device_t -> W -> (usb_error_t * N * usb_device_descriptor_t) * W;
  usb_GetStringDescriptor :
    usb_device_t -> Z -> Z -> W -> (usb_error_t * N * usb_string_descriptor_t) * W;
  usb_GetConfigurationDescriptorTotalLength : usb_device_t -> Z -> W -> N;
  usb_GetConfigurationDescriptor :
    usb_device_t -> Z -> N -> W -> (usb_error_t * N * list byte) * W;
  usb_SetConfiguration : usb_device_t -> list byte -> N -> W -> usb_error_t * W;
  usb_ControlTransfer :
    usb_device_t -> usb_control_setup_t -> list byte -> W -> (usb_error_t * N * list byte) * W;
  usb_Transfer : usb_device_t -> Z -> list byte -> Z -> W -> (usb_error_t * N) * W;
  usb_Init : W -> usb_error_t * W;
  usb_Cleanup : W -> W;
  (* whether the next [malloc], [calloc] or [realloc] gives memory *)
  malloc : W -> bool * W
}.

(** The conversions of [nsscanf] the source uses.  Each gives the converted
    value when the conversion matches at the start of its input. *)
Class Nsscanf := {
  nsscanf_x : string -> option Z;
  nsscanf_x64 : string -> option Z;
  nsscanf_2x : string -> option Z;
  nsscanf_s : string -> option string
}.

(** ** C string helpers *)

Local Open Scope string_scope.
Local Open Scope Z_scope.

(** [p + n] on a string. *)
Fixpoint string_drop (n : nat) (s : string) : string :=
  match n, s with
  | O, _ => s
  | S n', String _ s' => string_drop n' s'
  | S _, EmptyString => EmptyString
  end.

(** [strstr(s, pat)]: the suffix of [s] at the first occurrence of [pat]. *)
Fixpoint strstr (s pat : string) : option string :=
  if String.prefix pat s then Some s
  else match s with
       | EmptyString => None
       | String _ s' => strstr s' pat
       end.

(** [strchr(s, c)], as the offset of the first [c]. *)
Fixpoint strchr (s : string) (c : ascii) : option nat :=
  match s with
  | EmptyString => None
  | String a s' => if Ascii.eqb a c then Some O else option_map S (strchr s' c)
  end.

(** [ptr = strrchr(tmp, c); if (ptr != NULL) *ptr = '\0';]: [tmp] cut at the
    last [c], when it has one. *)
Fixpoint cut_at_last (c : ascii) (tmp : string) : option string :=
  match tmp with
  | EmptyString => None
  | String a s' =>
      match cut_at_last c s' with
      | Some t => Some (String a t)
      | None => if Ascii.eqb a c then Some EmptyString else None
      end
  end.

Definition strrchr_terminate (c : ascii) (tmp : string) : string :=
  match cut_at_last c tmp with
  | Some t => t
  | None => tmp
  end.

(** The bytes of a buffer read as a C string: up to the first NUL. *)
Fixpoint c_string (chars : list Z) : string :=
  match chars with
  | [] => EmptyString
  | c :: rest =>
      if c =? 0 then EmptyString
      else String (ascii_of_N (Z.to_N c)) (c_string rest)
  end.

(** ** The identity parser (irecovery.c, lines 567-660) *)

(** The width of [unsigned int] on the target, the eZ80 of the TI-84 Plus
    CE: three bytes. *)
Definition UINT_BITS : Z := 24.

Section Parser.
Context {SCAN : Nsscanf}.

(** [ptr = strstr(iboot_string, "TAG:"); if (ptr != NULL) nsscanf(ptr, "TAG:%x", &field);]
    on a field that [memset] left at 0.  [width] is the width of the
    destination. *)
Definition scan_hex_tag (tag : string) (conv : string -> option Z) (width : Z)
    (iboot_string : string) : Z :=
  match strstr iboot_string tag with
  | Some ptr =>
      match conv (string_drop (String.length tag) ptr) with
      | Some v => v mod 2 ^ width
      | None => 0
      end
  | None => 0
  end.

(** [tmp[0] = '\0'; ptr = strstr(iboot_string, "TAG:[");
    if (ptr != NULL) { nsscanf(ptr, "TAG:[%s]", tmp); ptr = strrchr(tmp, ']');
    if (ptr != NULL) *ptr = '\0'; field = strdup(tmp); }] *)
Definition scan_bracket_tag (tag : string) (iboot_string : string) : option string :=
  match strstr iboot_string tag with
  | Some ptr =>
      let tmp := match nsscanf_s (string_drop (String.length tag) ptr) with
                 | Some token => token
                 | None => EmptyString
                 end in
      Some (strrchr_terminate "]" tmp)
  | None => None
  end.

(** The device info after [memset(&client->device_info, 0, ...)] and the
    eleven tag blocks; every field is written at most once, in the order of
    the source. *)
Definition parse_device_info (iboot_string : string) (idProduct : Z)
    : irecovery_device_info :=
  {| serial_string := Some iboot_string;
     cpid := scan_hex_tag "CPID:" nsscanf_x UINT_BITS iboot_string;
     cprv := scan_hex_tag "CPRV:" nsscanf_x UINT_BITS iboot_string;
     cpfm := scan_hex_tag "CPFM:" nsscanf_x UINT_BITS iboot_string;
     scep := scan_hex_tag "SCEP:" nsscanf_x UINT_BITS iboot_string;
     (* uint64_t bdid = 0; nsscanf(...); device_info.bdid = (unsigned int)bdid; *)
     bdid := (scan_hex_tag "BDID:" nsscanf_x64 64 iboot_string) mod 2 ^ UINT_BITS;
     ecid := scan_hex_tag "ECID:" nsscanf_x64 64 iboot_string;
     ibfl := scan_hex_tag "IBFL:" nsscanf_x UINT_BITS iboot_string;
     srnm := scan_bracket_tag "SRNM:[" iboot_string;
     imei := scan_bracket_tag "IMEI:[" iboot_string;
     srtg := scan_bracket_tag "SRTG:[" iboot_string;
     pwnd := scan_bracket_tag "PWND:[" iboot_string;
     ap_nonce := None;
     ap_nonce_size := 0;
     sep_nonce := None;
     sep_nonce_size := 0;
     pid := idProduct |}.

(** [irecovery_load_device_info_from_iboot_string]. *)
Definition irecovery_load_device_info_from_iboot_string
    (c : irecovery_client) (iboot_string : string) : irecovery_client :=
  {| connection_policy := connection_policy c;
     ecid_restriction := ecid_restriction c;
     num_connections := num_connections c;
     handle := handle c;
     device_descriptor := device_descriptor c;
     device_info := parse_device_info iboot_string (idProduct (device_descriptor c));
     mode := idProduct (device_descriptor c);
     finalized := finalized c;
     progress_callback := progress_callback c |}.

(** *** Nonces (irecovery.c, lines 721-784) *)

(** The [do ... while (colon)] loop that looks for [tag] in front of a colon:
    it yields [nonce_string] and [nlen] (already halved) when the tag is
    found, and nothing when the loop breaks first.  Every round moves [p]
    forward, so the length of the buffer bounds the rounds. *)
Fixpoint find_nonce_string (rounds : nat) (tag : string) (p : string)
    : option (string * Z) :=
  match rounds with
  | O => None
  | S rounds' =>
      let taglen := String.length tag in
      match strchr p ":" with
      | None => None
      | Some colon =>
          if (colon <? taglen)%nat then None
          else
            let space := strchr (string_drop colon p) " " in
            if String.eqb (substring (colon - taglen) taglen p) tag then
              let p' := string_drop (S colon) p in
              let nlen := match space with
                          | None => Z.of_nat (String.length p')
                          | Some sp => Z.of_nat sp - 1
                          end in
              Some (p', Z.quot nlen 2)
            else
              match space with
              | None => None
              | Some sp => find_nonce_string rounds' tag (string_drop (colon + sp + 1) p)
              end
      end
  end.

(** The loop [for (i = 0; i < nlen; i++)] over the pairs of hex digits; it
    fails as a whole when one pair does not convert. *)
Fixpoint scan_nonce_bytes (nlen : nat) (nonce_string : string) : option (list byte) :=
  match nlen with
  | O => Some []
  | S n =>
      match nsscanf_2x nonce_string with
      | Some val =>
          option_map (cons (Crc.byte_of_Z val))
                     (scan_nonce_bytes n (string_drop 2 nonce_string))
      | None => None
      end
  end.

End Parser.

(** ** The device zone (irecovery.c, lines 470-499) *)

(** [device_zone_nonzero]: some byte of the device zone is not 0. *)
Definition device_zone_nonzero (c : irecovery_client) : bool :=
  negb (handle c =? 0)%N
  || negb (descriptor_is_zero (device_descriptor c))
  || negb (device_info_is_zero (device_info c))
  || negb (mode c =? 0)
  || negb (finalized c =? 0)
  || negb (is_null (progress_callback c)).

(** [irecovery_client_clear_device_zone]: the owned strings are freed and the
    zone is zeroed; the static zone stays. *)
Definition irecovery_client_clear_device_zone (c : irecovery_client) : irecovery_client :=
  if negb (device_zone_nonzero c) then c
  else
    {| connection_policy := connection_policy c;
       ecid_restriction := ecid_restriction c;
       num_connections := num_connections c;
       handle := 0%N;
       device_descriptor := zero_descriptor;
       device_info := zero_device_info;
       mode := 0;
       finalized := 0;
       progress_callback := None |}.

Definition set_handle (h : usb_device_t) (c : irecovery_client) : irecovery_client :=
  {| connection_policy := connection_policy c;
     ecid_restriction := ecid_restriction c;
     num_connections := num_connections c;
     handle := h;
     device_descriptor := device_descriptor c;
     device_info := device_info c;
     mode := mode c;
     finalized := finalized c;
     progress_callback := progress_callback c |}.

Definition set_device_descriptor (d : usb_device_descriptor_t) (c : irecovery_client)
    : irecovery_client :=
  {| connection_policy := connection_policy c;
     ecid_restriction := ecid_restriction c;
     num_connections := num_connections c;
     handle := handle c;
     device_descriptor := d;
     device_info := device_info c;
     mode := mode c;
     finalized := finalized c;
     progress_callback := progress_callback c |}.

Definition set_device_info (i : irecovery_device_info) (c : irecovery_client)
    : irecovery_client :=
  {| connection_policy := connection_policy c;
     ecid_restriction := ecid_restriction c;
     num_connections := num_connections c;
     handle := handle c;
     device_descriptor := device_descriptor c;
     device_info := i;
     mode := mode c;
     finalized := finalized c;
     progress_callback := progress_callback c |}.

Definition set_finalized (f : Z) (c : irecovery_client) : irecovery_client :=
  {| connection_policy := connection_policy c;
     ecid_restriction := ecid_restriction c;
     num_connections := num_connections c;
     handle := handle c;
     device_descriptor := device_descriptor c;
     device_info := device_info c;
     mode := mode c;
     finalized := f;
     progress_callback := progress_callback c |}.

Definition set_progress_callback (cb : option irecovery_event_cb_t) (c : irecovery_client)
    : irecovery_client :=
  {| connection_policy := connection_policy c;
     ecid_restriction := ecid_restriction c;
     num_connections := num_connections c;
     handle := handle c;
     device_descriptor := device_descriptor c;
     device_info := device_info c;
     mode := mode c;
     finalized := finalized c;
     progress_callback := cb |}.

Definition set_ap_nonce (n : list byte) (size : Z) (i : irecovery_device_info)
    : irecovery_device_info :=
  {| cpid := cpid i; cprv := cprv i; cpfm := cpfm i; scep := scep i;
     bdid := bdid i; ecid := ecid i; ibfl := ibfl i;
     srnm := srnm i; imei := imei i; srtg := srtg i;
     serial_string := serial_string i; pwnd := pwnd i;
     ap_nonce := Some n; ap_nonce_size := size;
     sep_nonce := sep_nonce i; sep_nonce_size := sep_nonce_size i;
     pid := pid i |}.

Definition set_sep_nonce (n : list byte) (size : Z) (i : irecovery_device_info)
    : irecovery_device_info :=
  {| cpid := cpid i; cprv := cprv i; cpfm := cpfm i; scep := scep i;
     bdid := bdid i; ecid := ecid i; ibfl := ibfl i;
     srnm := srnm i; imei := imei i; srtg := srtg i;
     serial_string := serial_string i; pwnd := pwnd i;
     ap_nonce := ap_nonce i; ap_nonce_size := ap_nonce_size i;
     sep_nonce := Some n; sep_nonce_size := size;
     pid := pid i |}.

(** ** The state monad *)

Section Irecovery.
Context {W : Type} {USB : UsbStack W} {SCAN : Nsscanf}.

(** The client structure, the world behind the USB stack, and the USB
    operations performed so far (latest last). *)
Record State := {
  client : irecovery_client;
  world : W;
  trace : list usb_op
}.

Definition M (A : Type) : Type := State -> A * State.

Definition ret {A} (a : A) : M A := fun s => (a, s).

Definition bind {A B} (m : M A) (k : A -> M B) : M B :=
  fun s => let (a, s') := m s in k a s'.

Notation "x <- m ;; k" := (bind m (fun x => k))
  (at level 61, m at next level, right associativity).
Notation "' pat <- m ;; k" := (bind m (fun x => match x with pat => k end))
  (at level 61, pat pattern, m at next level, right associativity).
Notation "m ;;; k" := (bind m (fun _ => k))
  (at level 61, right associativity).

Definition get_client : M irecovery_client := fun s => (client s, s).

Definition modify_client (f : irecovery_client -> irecovery_client) : M unit :=
  fun s => (tt, {| client := f (client s); world := world s; trace := trace s |}).

Definition log_op (op : usb_op) : M unit :=
  fun s => (tt, {| client := client s; world := world s; trace := trace s ++ [op] |}).

(** A call into the USB stack. *)
Definition call {A} (f : W -> A * W) : M A :=
  fun s => let (a, w) := f (world s) in
           (a, {| client := client s; world := w; trace := trace s |}).

Definition get_role : M usb_role_t := fun s => (usb_GetRole (world s), s).

Definition get_world : M W := fun s => (world s, s).

(** ** Adoption (irecovery.c, lines 502-530 and 851-950) *)

Definition is_supported_descriptor (d : usb_device_descriptor_t) : bool :=
  (idVendor d =? APPLE_VENDOR_ID)
  && ((idProduct d =? IRECOVERY_K_RECOVERY_MODE_1)
      || (idProduct d =? IRECOVERY_K_RECOVERY_MODE_2)
      || (idProduct d =? IRECOVERY_K_RECOVERY_MODE_3)
      || (idProduct d =? IRECOVERY_K_RECOVERY_MODE_4)
      || (idProduct d =? IRECOVERY_K_WTF_MODE)
      || (idProduct d =? IRECOVERY_K_DFU_MODE)).

(** [irecovery_device_is_supported(device, &client->device_descriptor)]: the
    descriptor is stored whenever it was fetched, supported or not. *)
Definition irecovery_device_is_supported (device : usb_device_t) : M bool :=
  if (device =? 0)%N then ret false
  else
    log_op (OpGetDescriptor device) ;;;
    '(error, transferred, device_descriptor) <- call (usb_GetDescriptor device) ;;
    if negb (error =? USB_SUCCESS) || negb (transferred =? sizeof_device_descriptor)%N
    then ret false
    else
      modify_client (set_device_descriptor device_descriptor) ;;;
      ret (is_supported_descriptor device_descriptor).

(** The test of [irecovery_client_is_usable] once events are handled. *)
Definition is_usable_now : M bool :=
  c <- get_client ;;
  role <- get_role ;;
  ret (negb (handle c =? 0)%N && negb (role_is_device role) && device_zone_nonzero c).

Definition usb_reset_device (device : usb_device_t) : M usb_error_t :=
  log_op (OpReset device) ;;;
  call (usb_ResetDevice device).

(** [usb_event_handler]. *)
Definition usb_event_handler (event : usb_event_t) : M usb_error_t :=
  match event with
  | USB_ROLE_CHANGED_EVENT new_role =>
      (if role_is_device new_role
       then modify_client irecovery_client_clear_device_zone
       else ret tt) ;;;
      ret USB_SUCCESS
  | USB_DEVICE_DISCONNECTED_EVENT disconnected_device =>
      c <- get_client ;;
      (if (disconnected_device =? handle c)%N
       then modify_client irecovery_client_clear_device_zone
       else ret tt) ;;;
      ret USB_SUCCESS
  | USB_DEVICE_CONNECTED_EVENT connected_device =>
      role <- get_role ;;
      if role_is_device role then ret USB_SUCCESS
      else usb_reset_device connected_device
  | USB_DEVICE_DISABLED_EVENT _ => ret USB_SUCCESS
  | USB_DEVICE_ENABLED_EVENT enabled_device =>
      role <- get_role ;;
      if role_is_device role then ret USB_SUCCESS
      else
        c <- get_client ;;
        if (enabled_device =? handle c)%N then ret USB_SUCCESS
        else
          (* the policy decides whether the switch is left by [break] *)
          accept <- match connection_policy c with
                    | IRECOVERY_CLIENT_DEVICE_POLICY_ACCEPT_ALL =>
                        modify_client irecovery_client_clear_device_zone ;;;
                        ret true
                    | IRECOVERY_CLIENT_DEVICE_POLICY_ACCEPT_ONLY_WHEN_NO_CURRENT_CONNECTION =>
                        usable <- is_usable_now ;;
                        ret (negb usable)
                    | IRECOVERY_CLIENT_DEVICE_POLICY_ONE_CONNECTION_LIMIT =>
                        ret (negb (num_connections c =? 1))
                    end ;;
          if negb accept then ret USB_SUCCESS
          else
            supported <- irecovery_device_is_supported enabled_device ;;
            (if supported
             then modify_client (set_handle enabled_device)
             else modify_client irecovery_client_clear_device_zone) ;;;
            ret USB_SUCCESS
  | USB_OTHER_EVENT _ => ret USB_SUCCESS
  end.

(** [usb_HandleEvents]: the stack calls the callback for each waiting event. *)
Fixpoint dispatch_events (events : list usb_event_t) : M unit :=
  match events with
  | [] => ret tt
  | event :: rest => usb_event_handler event ;;; dispatch_events rest
  end.

Definition usb_HandleEvents : M unit :=
  events <- call usb_WaitingEvents ;;
  dispatch_events events.

(** [irecovery_client_is_usable(client, run_event_handler)]. *)
Definition irecovery_client_is_usable (run_event_handler : bool) : M bool :=
  (if run_event_handler then usb_HandleEvents else ret tt) ;;;
  is_usable_now.

(** [irecovery_client_new], called with a valid out-pointer that holds NULL:
    [calloc] zeroes the whole structure, the static zone is set
    ([num_connections] stays 0) and the USB stack is initialised with
    [usb_event_handler] as its callback.  On failure no client is left. *)
Definition new_client (connection_policy : irecovery_connection_policy_t) (ecid : Z)
    : irecovery_client :=
  {| connection_policy := connection_policy;
     ecid_restriction := ecid mod 2 ^ 64;
     num_connections := 0;
     handle := 0%N;
     device_descriptor := zero_descriptor;
     device_info := zero_device_info;
     mode := 0;
     finalized := 0;
     progress_callback := None |}.

Definition irecovery_client_new (connection_policy : irecovery_connection_policy_t)
    (ecid : Z) (w : W) : Z * option State :=
  let (allocated, w1) := malloc w in
  if negb allocated then (IRECOVERY_E_NO_MEMORY, None)
  else
    let (error, w2) := usb_Init w1 in
    if negb (error =? USB_SUCCESS) then (IRECOVERY_E_USB_INIT_FAILED, None)
    else (IRECOVERY_E_SUCCESS,
          Some {| client := new_client connection_policy ecid;
                  world := w2; trace := [] |}).

(** ** Descriptors and control transfers (irecovery.c, lines 532-564, 664-718) *)

(** The characters the decoding loop writes: [bound] code units, each kept
    when it is at most 0x7F and replaced by ['?'] otherwise. *)
Definition ascii_of_unit (wc : Z) : Z := if wc <=? 0x7F then wc else 63.

Definition decode_units (bound : Z) (bString : list Z) : list Z :=
  map (fun i => ascii_of_unit (nth i bString 0)) (seq 0 (Z.to_nat bound)).

(** [irecovery_get_string_descriptor_ascii(client, desc_index, buffer, size)]
    for a non-NULL [buffer]: the return value, and the buffer as a C string
    when it was written. *)
Definition irecovery_get_string_descriptor_ascii (desc_index : Z) (size : Z)
    : M (Z * option string) :=
  usable <- irecovery_client_is_usable true ;;
  if negb usable then ret (IRECOVERY_E_NO_DEVICE, None)
  else if size =? 0 then ret (IRECOVERY_E_DST_BUF_SIZE_ZERO, None)
  else
    let string_descriptor_len := 2 + size * 2 in
    allocated <- call malloc ;;
    if negb allocated then ret (IRECOVERY_E_NO_MEMORY, None)
    else
      c <- get_client ;;
      log_op (OpGetStringDescriptor (handle c) desc_index string_descriptor_len) ;;;
      '(error, transferred, string_descriptor) <-
        call (usb_GetStringDescriptor (handle c) desc_index string_descriptor_len) ;;
      if negb (error =? USB_SUCCESS) || (transferred =? 0)%N
      then ret (IRECOVERY_E_DESCRIPTOR_FETCH_FAILED, None)
      else
        (* (bLength - 2) / 2 is computed in int and converted to size_t: a
           negative quotient becomes a value above every buffer size *)
        let string_desc_str_len := Z.quot (sd_bLength string_descriptor - 2) 2 in
        let i := if string_desc_str_len <? 0 then size - 1
                 else Z.min string_desc_str_len (size - 1) in
        ret (i, Some (c_string (decode_units i (sd_bString string_descriptor)))).

(** [irecovery_usb_control_transfer]: the return value and the bytes the
    device wrote to [data] (none for an OUT transfer).  The setup fields are
    narrowed to their widths. *)
Definition irecovery_usb_control_transfer (bm_request_type b_request w_value w_index : Z)
    (data : list byte) (w_length : Z) : M (Z * list byte) :=
  usable <- irecovery_client_is_usable true ;;
  if negb usable then ret (IRECOVERY_E_NO_DEVICE, [])
  else
    let setup := {| bmRequestType := bm_request_type mod 2 ^ 8;
                    bRequest := b_request mod 2 ^ 8;
                    wValue := w_value mod 2 ^ 16;
                    wIndex := w_index mod 2 ^ 16;
                    wLength := w_length mod 2 ^ 16 |} in
    c <- get_client ;;
    let sent := firstn (Z.to_nat (wLength setup)) data in
    log_op (OpControl (handle c) setup sent) ;;;
    '(error, transferred, received) <- call (usb_ControlTransfer (handle c) setup sent) ;;
    if negb (error =? USB_SUCCESS) then ret (IRECOVERY_E_USB_UPLOAD_FAILED, [])
    else ret (Z.of_N transferred, firstn (Z.to_nat (wLength setup)) received).

(** [irecovery_get_total_configuration_descriptor], called as the source
    does with a NULL descriptor pointer: the error, the descriptor and its
    length. *)
Definition irecovery_get_total_configuration_descriptor (index : Z)
    : M (Z * list byte * N) :=
  c <- get_client ;;
  w <- get_world ;;
  let length := usb_GetConfigurationDescriptorTotalLength (handle c) index w in
  if (length =? 0)%N then ret (IRECOVERY_E_DESCRIPTOR_FETCH_FAILED, [], 0%N)
  else
    allocated <- call malloc ;;
    if negb allocated then ret (IRECOVERY_E_NO_MEMORY, [], length)
    else
      log_op (OpGetConfigurationDescriptor (handle c) index) ;;;
      '(error, transferred, configuration_descriptor) <-
        call (usb_GetConfigurationDescriptor (handle c) index length) ;;
      if negb (error =? USB_SUCCESS) || (transferred =? 0)%N
      then ret (IRECOVERY_E_DESCRIPTOR_FETCH_FAILED, [], 0%N)
      else ret (IRECOVERY_E_SUCCESS, configuration_descriptor, length).

(** [irecovery_usb_set_configuration]. *)
Definition irecovery_usb_set_configuration (configuration : Z) : M Z :=
  usable <- irecovery_client_is_usable true ;;
  if negb usable then ret IRECOVERY_E_NO_DEVICE
  else
    '(irecovery_error, configuration_descriptor, length) <-
      irecovery_get_total_configuration_descriptor configuration ;;
    if negb (irecovery_error =? IRECOVERY_E_SUCCESS) then ret irecovery_error
    else
      c <- get_client ;;
      log_op (OpSetConfiguration (handle c)) ;;;
      error <- call (usb_SetConfiguration (handle c) configuration_descriptor length) ;;
      if error =? USB_SUCCESS then ret IRECOVERY_E_SUCCESS
      else ret IRECOVERY_E_DESCRIPTOR_SET_FAILED.

(** ** Finalization (irecovery.c, lines 721-849 and 1027-1032) *)

(** [irecovery_copy_nonce_with_tag_from_buffer]: the nonce and its size when
    they are stored, nothing when the function returns before. *)
Definition irecovery_copy_nonce_with_tag_from_buffer (tag : string) (buf : string)
    : M (option (list byte * Z)) :=
  match find_nonce_string (S (String.length buf)) tag buf with
  | None => ret None
  | Some (nonce_string, nlen) =>
      if nlen =? 0 then ret None
      else
        allocated <- call malloc ;;
        if negb allocated then ret None
        else
          match scan_nonce_bytes (Z.to_nat nlen) nonce_string with
          | None => ret None
          | Some nn => ret (Some (nn, nlen))
          end
  end.

(** [irecovery_copy_nonce_with_tag(client, tag, nonce, nonce_size)], where
    [nonce] and [nonce_size] point into the device info: [current] reads
    [*nonce] and [store] writes both. *)
Definition irecovery_copy_nonce_with_tag (tag : string)
    (current : irecovery_device_info -> option (list byte))
    (store : list byte -> Z -> irecovery_device_info -> irecovery_device_info)
    : M unit :=
  usable <- irecovery_client_is_usable false ;;
  c <- get_client ;;
  if negb usable || negb (is_null (current (device_info c))) then ret tt
  else
    '(len, buf) <- irecovery_get_string_descriptor_ascii 1 (256 - 1) ;;
    if len <? 0 then ret tt
    else
      found <- irecovery_copy_nonce_with_tag_from_buffer tag
                 (match buf with Some b => b | None => EmptyString end) ;;
      match found with
      | Some (nn, nlen) =>
          modify_client (fun c => set_device_info (store nn nlen (device_info c)) c)
      | None => ret tt
      end.

(** [irecovery_finalize_client] up to the selection of the configuration
    (steps 1 to 4): [Some e] is a [return e] of the source, [None] means
    that control reaches the nonces. *)
Definition finalize_until_configured : M (option Z) :=
  usable <- irecovery_client_is_usable false ;;
  if negb usable then ret (Some IRECOVERY_E_NO_DEVICE)
  else
    c <- get_client ;;
    if finalized c >? 0 then ret (Some IRECOVERY_E_SUCCESS)
    else if finalized c <? 0 then ret (Some IRECOVERY_E_FINALIZATION_BLOCKED)
    else
      '(r, serial_str) <-
        irecovery_get_string_descriptor_ascii (iSerialNumber (device_descriptor c)) (256 - 1) ;;
      if r <? 0 then ret (Some r)
      else
        modify_client (fun c =>
          irecovery_load_device_info_from_iboot_string c
            (match serial_str with Some s => s | None => EmptyString end)) ;;;
        c <- get_client ;;
        if negb (ecid_restriction c =? 0)
           && negb (ecid_restriction c =? ecid (device_info c))
        then
          modify_client (set_finalized (-1)) ;;;
          ret (Some IRECOVERY_E_ECID_MISMATCH)
        else
          error <- irecovery_usb_set_configuration 1 ;;
          if negb (error =? IRECOVERY_E_SUCCESS) then
            modify_client (set_finalized (-1)) ;;;
            ret (Some error)
          else ret None.

(** The rest of [irecovery_finalize_client] (steps 5 and 6); [error] is
    [IRECOVERY_E_SUCCESS] here. *)
Definition finalize_nonces : M Z :=
  irecovery_copy_nonce_with_tag "NONC" ap_nonce set_ap_nonce ;;;
  irecovery_copy_nonce_with_tag "SNON" sep_nonce set_sep_nonce ;;;
  modify_client (set_finalized 1) ;;;
  ret IRECOVERY_E_SUCCESS.

Definition irecovery_finalize_client : M Z :=
  returned <- finalize_until_configured ;;
  match returned with
  | Some e => ret e
  | None => finalize_nonces
  end.

(** [irecovery_poll_for_device], for a non-NULL client. *)
Definition irecovery_poll_for_device : M Z :=
  usb_HandleEvents ;;;
  irecovery_finalize_client.

(** ** Transfers and the command channel (irecovery.c, lines 1056-1249) *)

(** [irecovery_usb_bulk_transfer]: the return value, and what is stored to
    [*transferred] when something is. *)
Definition irecovery_usb_bulk_transfer (endpoint : Z) (data : list byte) (length : Z)
    : M (Z * option Z) :=
  usable <- irecovery_client_is_usable true ;;
  if negb usable then ret (IRECOVERY_E_NO_DEVICE, None)
  else
    c <- get_client ;;
    let sent := firstn (Z.to_nat length) data in
    log_op (OpBulk (handle c) (endpoint mod 2 ^ 8) sent) ;;;
    '(error, _transferred) <- call (usb_Transfer (handle c) (endpoint mod 2 ^ 8) sent length) ;;
    if negb (error =? USB_SUCCESS) then ret (IRECOVERY_E_USB_UPLOAD_FAILED, None)
    else ret (Z.of_N _transferred, Some (Z.of_N _transferred)).

Definition zeros (n : nat) : list byte := repeat x00 n.

(** [irecovery_get_status]: the error and [*status]. *)
Definition irecovery_get_status : M (Z * Z) :=
  usable <- irecovery_client_is_usable true ;;
  if negb usable then ret (IRECOVERY_E_NO_DEVICE, 0)
  else
    '(r, buffer) <- irecovery_usb_control_transfer 0xA1 3 0 0 (zeros 6) 6 ;;
    if negb (r =? 6) then ret (IRECOVERY_E_INVALID_USB_STATUS, 0)
    else ret (IRECOVERY_E_SUCCESS, Crc.byte_val (nth 4 buffer x00)).

Definition is_recovery_mode_value (m : Z) : bool :=
  (m =? IRECOVERY_K_RECOVERY_MODE_1) || (m =? IRECOVERY_K_RECOVERY_MODE_2)
  || (m =? IRECOVERY_K_RECOVERY_MODE_3) || (m =? IRECOVERY_K_RECOVERY_MODE_4).

(** The bytes at a [const char*]: the characters and the terminating NUL. *)
Definition c_bytes (s : string) : list byte := (list_byte_of_string s ++ [x00])%list.

Definition strlen (s : string) : Z := Z.of_nat (String.length s).

(** [irecovery_send_command_raw], for a non-NULL command. *)
Definition irecovery_send_command_raw (command : string) (b_request : Z) : M Z :=
  usable <- irecovery_client_is_usable true ;;
  if negb usable then ret IRECOVERY_E_NO_DEVICE
  else
    c <- get_client ;;
    if negb (is_recovery_mode_value (mode c)) then ret IRECOVERY_E_SERVICE_NOT_AVAILABLE
    else
      let length := strlen command in
      if length >=? 256 then ret IRECOVERY_E_COMMAND_TOO_LONG
      else if length >? 0 then
        '(r, _) <- irecovery_usb_control_transfer 0x40 b_request 0 0
                     (c_bytes command) (length + 1) ;;
        if r <? 0 then ret r else ret IRECOVERY_E_SUCCESS
      else ret IRECOVERY_E_NO_COMMAND.

(** [irecovery_send_command_breq], for a non-NULL command. *)
Definition irecovery_send_command_breq (command : string) (b_request : Z) : M Z :=
  usable <- irecovery_client_is_usable true ;;
  if negb usable then ret IRECOVERY_E_NO_DEVICE
  else
    c <- get_client ;;
    if negb (is_recovery_mode_value (mode c)) then ret IRECOVERY_E_SERVICE_NOT_AVAILABLE
    else
      let length := strlen command in
      if length >=? 256 then ret IRECOVERY_E_COMMAND_TOO_LONG
      else irecovery_send_command_raw command b_request.

(** [irecovery_is_breq_command]. *)
Definition irecovery_is_breq_command (cmd : string) : bool :=
  String.eqb cmd "go" || String.eqb cmd "bootx"
  || String.eqb cmd "reboot" || String.eqb cmd "memboot".

(** [irecovery_send_command]; [None] is a NULL command. *)
Definition irecovery_send_command (command : option string) : M Z :=
  match command with
  | None => ret IRECOVERY_E_BAD_PTR
  | Some command =>
      irecovery_send_command_breq command
        (if irecovery_is_breq_command command then 1 else 0)
  end.

(** [irecovery_getenv].  [variable] is [None] for a NULL pointer; [value] is
    [None] for a NULL out-parameter, [Some None] when it points to NULL and
    [Some (Some b)] when it points to a buffer.  The result is the error
    and [*value] after the call. *)
Definition irecovery_getenv (variable : option string)
    (value : option (option (list byte))) : M (Z * option (option (list byte))) :=
  match variable, value with
  | Some variable, Some None =>
      (* snprintf(command, sizeof(command)-1, "getenv %s", variable) keeps at
         most 254 characters *)
      let command := substring 0 254 ("getenv " ++ variable) in
      error <- irecovery_send_command_raw command 0 ;;
      if negb (error =? IRECOVERY_E_SUCCESS) then ret (error, value)
      else
        let response_size := 256 in
        allocated <- call malloc ;;
        if negb allocated then ret (IRECOVERY_E_NO_MEMORY, value)
        else
          '(r, received) <- irecovery_usb_control_transfer 0xC0 0 0 0
                              (zeros 256) (response_size - 1) ;;
          if r <? 0 then ret (r, value)
          else
            (* the calloc'ed buffer with the received bytes at its start *)
            ret (IRECOVERY_E_SUCCESS,
                 Some (Some (received ++ zeros (256 - List.length received))%list))
  | _, _ => ret (IRECOVERY_E_BAD_PTR, value)
  end.

(** ** The upload engine (irecovery.c, lines 1252-1408) *)

Definition dfu_xbuf : list byte :=
  [xff; xff; xff; xff; xac; x05; x00; x01; x55; x46; x44; x10].

(** [&buffer[offset]] read over [size] bytes. *)
Definition slice (buffer : list byte) (offset size : Z) : list byte :=
  firstn (Z.to_nat size) (skipn (Z.to_nat offset) buffer).

(** The variables of [irecovery_send_buffer] that live across packets. *)
Record upload_vars := {
  h1 : Z;
  count : Z;
  status : Z;
  bytes : Z;
  error : Z
}.

(** The trailer frame of the last DFU packet: what is left of the chunk
    ([size] bytes of it), the 12 bytes of [dfu_xbuf] and the CRC. *)
Definition trailer_frame (chunk : list byte) (size : Z) (h1 : Z) : list byte :=
  ((if size >? 0 then firstn (Z.to_nat size) chunk else []) ++ dfu_xbuf ++ Crc.le32 h1)%list.

(** The transfer of packet [i] (lines 1311-1351).  [inl e] is a [return e]
    of the source; otherwise the variables and the value of [size] after the
    transfer.  A negative return assigned to the unsigned [bytes] is kept
    negative: it differs from every [size] either way. *)
Definition transfer_packet (recovery_mode : bool) (buffer : list byte)
    (packet_size packets : Z) (i : Z) (size : Z) (v : upload_vars)
    : M (Z + upload_vars * Z) :=
  let chunk := slice buffer (i * packet_size) size in
  if recovery_mode then
    '(r, transferred) <- irecovery_usb_bulk_transfer 0x04 chunk size ;;
    ret (inr ({| h1 := h1 v; count := count v; status := status v;
                 bytes := match transferred with Some t => t | None => bytes v end;
                 error := r |}, size))
  else
    let h := Crc.crc32_steps (h1 v) chunk in
    if i + 1 =? packets then
      split <- (if size + 16 >? packet_size then
                  '(b, _) <- irecovery_usb_control_transfer 0x21 1 i 0 chunk size ;;
                  if negb (b =? size) then ret (inl IRECOVERY_E_USB_UPLOAD_FAILED)
                  else ret (inr (count v + size, 0))
                else ret (inr (count v, size))) ;;
      match split with
      | inl e => ret (inl e)
      | inr (count', size') =>
          let h := Crc.crc32_steps h dfu_xbuf in
          allocated <- call malloc ;;
          if negb allocated then ret (inl IRECOVERY_E_NO_MEMORY)
          else
            let newbuf := trailer_frame chunk size' h in
            let size'' := size' + 16 in
            '(b, _) <- irecovery_usb_control_transfer 0x21 1 i 0 newbuf size'' ;;
            ret (inr ({| h1 := h; count := count'; status := status v;
                         bytes := b; error := error v |}, size''))
      end
    else
      '(b, _) <- irecovery_usb_control_transfer 0x21 1 i 0 chunk size ;;
      ret (inr ({| h1 := h; count := count v; status := status v;
                   bytes := b; error := error v |}, size)).

(** [while (retry++ < 20) { irecovery_get_status(client, &status);
    if (status == 5) break; sleep(1); }] with [retries] rounds left. *)
Fixpoint poll_status (retries : nat) (status : Z) : M Z :=
  match retries with
  | O => ret status
  | S retries' =>
      '(_, status') <- irecovery_get_status ;;
      if status' =? 5 then ret status'
      else log_op (OpSleep 1) ;;; poll_status retries' status'
  end.

(** The progress emission; what the callback returns is not read. *)
Definition emit_progress (count length : Z) : M unit :=
  c <- get_client ;;
  match progress_callback c with
  | Some callback =>
      let event := {| ev_size := count; ev_data := "Uploading";
                      progress_num := count; progress_den := length;
                      ev_type := IRECOVERY_PROGRESS |} in
      log_op (OpProgress event (callback event))
  | None => ret tt
  end.

(** One round of the packet loop (lines 1307-1383). *)
Definition send_packet (recovery_mode : bool) (buffer : list byte)
    (length packet_size last packets : Z) (i : Z) (v : upload_vars)
    : M (Z + upload_vars) :=
  let size := if i + 1 <? packets then packet_size else last in
  transferred <- transfer_packet recovery_mode buffer packet_size packets i size v ;;
  match transferred with
  | inl e => ret (inl e)
  | inr (v, size) =>
      if negb (bytes v =? size) then ret (inl IRECOVERY_E_USB_UPLOAD_FAILED)
      else
        '(error', status') <- (if negb recovery_mode then irecovery_get_status
                               else ret (error v, status v)) ;;
        if negb (error' =? IRECOVERY_E_SUCCESS) then ret (inl error')
        else
          polled <- (if negb recovery_mode && negb (status' =? 5)
                     then poll_status 20 status'
                     else ret status') ;;
          if negb recovery_mode && negb (polled =? 5)
          then ret (inl IRECOVERY_E_USB_UPLOAD_FAILED)
          else
            let count' := count v + size in
            emit_progress count' length ;;;
            ret (inr {| h1 := h1 v; count := count'; status := polled;
                        bytes := bytes v; error := error' |})
  end.

(** [for (int i = 0; i < packets; i++)], with [rounds] packets to go. *)
Fixpoint send_packets (recovery_mode : bool) (buffer : list byte)
    (length packet_size last packets : Z) (rounds : nat) (i : Z) (v : upload_vars)
    : M (Z + upload_vars) :=
  match rounds with
  | O => ret (inr v)
  | S rounds' =>
      sent <- send_packet recovery_mode buffer length packet_size last packets i v ;;
      match sent with
      | inl e => ret (inl e)
      | inr v' =>
          send_packets recovery_mode buffer length packet_size last packets
                       rounds' (i + 1) v'
      end
  end.

(** The start of the transfer (lines 1275-1300): the value of [error], or
    [inl] for the [return]. *)
Definition initiate_transfer (recovery_mode : bool) : M (Z + Z) :=
  if recovery_mode then
    '(r, _) <- irecovery_usb_control_transfer 0x41 0 0 0 [] 0 ;;
    ret (inr r)
  else
    '(r, state) <- irecovery_usb_control_transfer 0xa1 5 0 0 (zeros 1) 1 ;;
    if negb (r =? 1) then ret (inl IRECOVERY_E_USB_UPLOAD_FAILED)
    else
      let state := Crc.byte_val (nth 0 state x00) in
      if state =? 2 then ret (inr IRECOVERY_E_SUCCESS)
      else if state =? 10 then
        irecovery_usb_control_transfer 0x21 4 0 0 [] 0 ;;;
        ret (inr IRECOVERY_E_USB_UPLOAD_FAILED)
      else
        irecovery_usb_control_transfer 0x21 6 0 0 [] 0 ;;;
        ret (inr IRECOVERY_E_USB_UPLOAD_FAILED).

(** The two [irecovery_get_status] calls after the finish notification. *)
Fixpoint finish_status (rounds : nat) : M (option Z) :=
  match rounds with
  | O => ret None
  | S rounds' =>
      '(e, _) <- irecovery_get_status ;;
      if negb (e =? IRECOVERY_E_SUCCESS) then ret (Some e)
      else finish_status rounds'
  end.

(** [irecovery_send_buffer], for a non-NULL buffer holding [length] bytes. *)
Definition irecovery_send_buffer (buffer : list byte) (length : Z) (options : Z) : M Z :=
  usable <- irecovery_client_is_usable true ;;
  if negb usable then ret IRECOVERY_E_NO_DEVICE
  else
    c <- get_client ;;
    let recovery_mode :=
      negb (mode c =? IRECOVERY_K_DFU_MODE) && negb (mode c =? IRECOVERY_K_WTF_MODE) in
    let packet_size := if recovery_mode then 0x8000 else 0x800 in
    let last := length mod packet_size in
    let packets := length / packet_size in
    let packets := if negb (last =? 0) then packets + 1 else packets in
    let last := if negb (last =? 0) then last else packet_size in
    started <- initiate_transfer recovery_mode ;;
    match started with
    | inl e => ret e
    | inr e =>
        if negb (e =? IRECOVERY_E_SUCCESS) then ret e
        else
          sent <- send_packets recovery_mode buffer length packet_size last packets
                    (Z.to_nat packets) 0
                    {| h1 := 0xFFFFFFFF; count := 0; status := 0; bytes := 0;
                       error := e |} ;;
          match sent with
          | inl e => ret e
          | inr _ =>
              (if recovery_mode && (length mod 512 =? 0)
               then irecovery_usb_bulk_transfer 0x04 buffer 0 ;;; ret tt
               else ret tt) ;;;
              if negb (Z.land options IRECOVERY_SEND_OPT_DFU_NOTIFY_FINISH =? 0)
                 && negb recovery_mode
              then
                irecovery_usb_control_transfer 0x21 1 packets 0 buffer 0 ;;;
                failed <- finish_status 2 ;;
                match failed with
                | Some e => ret e
                | None =>
                    (if negb (Z.land options IRECOVERY_SEND_OPT_DFU_FORCE_ZLP =? 0)
                     then irecovery_usb_control_transfer 0x21 0 0 0 [] 0 ;;; ret tt
                     else ret tt) ;;;
                    c <- get_client ;;
                    usb_reset_device (handle c) ;;;
                    ret IRECOVERY_E_SUCCESS
                end
              else ret IRECOVERY_E_SUCCESS
          end
    end.

End Irecovery.

(** ** The rest of the API (irecovery.c, lines 1034-1187 and 1411-1557) *)

Section IrecoveryApi.
Context {W : Type} {USB : UsbStack W} {SCAN : Nsscanf}.

Local Notation "x <- m ;; k" := (bind m (fun x => k))
  (at level 61, m at next level, right associativity).
Local Notation "' pat <- m ;; k" := (bind m (fun x => match x with pat => k end))
  (at level 61, pat pattern, m at next level, right associativity).
Local Notation "m ;;; k" := (bind m (fun _ => k))
  (at level 61, right associativity).

(** [irecovery_reset]. *)
Definition irecovery_reset : M Z :=
  usable <- irecovery_client_is_usable (W:=W) true ;;
  if negb usable then ret IRECOVERY_E_NO_DEVICE
  else
    c <- get_client ;;
    e <- usb_reset_device (handle c) ;;
    if e =? USB_SUCCESS then ret IRECOVERY_E_SUCCESS
    else ret IRECOVERY_E_USB_RESET_FAILED.

(** [irecovery_reset_counters]. *)
Definition irecovery_reset_counters : M Z :=
  usable <- irecovery_client_is_usable (W:=W) true ;;
  if negb usable then ret IRECOVERY_E_NO_DEVICE
  else
    c <- get_client ;;
    if (mode c =? IRECOVERY_K_DFU_MODE) || (mode c =? IRECOVERY_K_WTF_MODE) then
      '(r, _) <- irecovery_usb_control_transfer 0x21 4 0 0 [] 0 ;;
      if r <? 0 then ret r else ret IRECOVERY_E_SUCCESS
    else ret IRECOVERY_E_SUCCESS.

(** The three [irecovery_get_status] calls of [irecovery_finish_transfer]. *)
Fixpoint get_status_times (rounds : nat) : M unit :=
  match rounds with
  | O => ret tt
  | S rounds' => irecovery_get_status (W:=W) ;;; get_status_times rounds'
  end.

(** [irecovery_finish_transfer]: what the transfers, the status requests and
    the reset return is not read. *)
Definition irecovery_finish_transfer : M Z :=
  usable <- irecovery_client_is_usable (W:=W) true ;;
  if negb usable then ret IRECOVERY_E_NO_DEVICE
  else
    irecovery_usb_control_transfer 0x21 1 0 0 [] 0 ;;;
    get_status_times 3 ;;;
    irecovery_reset ;;;
    ret IRECOVERY_E_SUCCESS.

(** [irecovery_get_mode(client, mode)]: [has_mode] tells whether the
    out-pointer is not NULL; the result is the error and the value stored to
    [*mode] when one is. *)
Definition irecovery_get_mode (has_mode : bool) : M (Z * option Z) :=
  if negb has_mode then ret (IRECOVERY_E_BAD_PTR, None)
  else
    usable <- irecovery_client_is_usable (W:=W) true ;;
    if negb usable then ret (IRECOVERY_E_NO_DEVICE, None)
    else
      c <- get_client ;;
      if negb (is_null (pwnd (device_info c)))
      then ret (IRECOVERY_E_SUCCESS, Some IRECOVERY_K_PWNDFU_MODE)
      else ret (IRECOVERY_E_SUCCESS, Some (mode c)).

(** [irecovery_event_subscribe]; the event type is the integer the caller
    passes ([IRECOVERY_PROGRESS] is 1) and [callback] is [None] for NULL. *)
Definition IRECOVERY_PROGRESS_code : Z := 1.

Definition irecovery_event_subscribe (type : Z) (callback : option irecovery_event_cb_t)
    : M Z :=
  usable <- irecovery_client_is_usable (W:=W) false ;;
  if negb usable then ret IRECOVERY_E_NO_DEVICE
  else
    match callback with
    | None => ret IRECOVERY_E_BAD_PTR
    | Some cb =>
        if type =? IRECOVERY_PROGRESS_code then
          modify_client (set_progress_callback (Some cb)) ;;;
          ret IRECOVERY_E_SUCCESS
        else ret IRECOVERY_E_UNKNOWN_EVENT_TYPE
    end.

(** [irecovery_event_unsubscribe]. *)
Definition irecovery_event_unsubscribe (type : Z) : M Z :=
  usable <- irecovery_client_is_usable (W:=W) false ;;
  if negb usable then ret IRECOVERY_E_NO_DEVICE
  else if type =? IRECOVERY_PROGRESS_code then
    modify_client (set_progress_callback None) ;;;
    ret IRECOVERY_E_SUCCESS
  else ret IRECOVERY_E_UNKNOWN_EVENT_TYPE.

(** [irecovery_saveenv] and [irecovery_reboot]. *)
Definition irecovery_saveenv : M Z := irecovery_send_command_raw (W:=W) "saveenv" 0.

Definition irecovery_reboot : M Z := irecovery_send_command_raw (W:=W) "reboot" 0.

(** [irecovery_setenv] and [irecovery_setenv_np]; [None] is a NULL
    argument.  [snprintf(command, sizeof(command)-1, ...)] keeps at most 254
    characters of the command. *)
Definition irecovery_setenv (variable value : option string) : M Z :=
  match variable, value with
  | Some variable, Some value =>
      irecovery_send_command_raw (W:=W)
        (substring 0 254 ("setenv " ++ variable ++ " " ++ value)) 0
  | _, _ => ret IRECOVERY_E_BAD_PTR
  end.

Definition irecovery_setenv_np (variable value : option string) : M Z :=
  match variable, value with
  | Some variable, Some value =>
      irecovery_send_command_raw (W:=W)
        (substring 0 254 ("setenvnp " ++ variable ++ " " ++ value)) 0
  | _, _ => ret IRECOVERY_E_BAD_PTR
  end.

(** [irecovery_get_device_info]: a pointer to the device info, or NULL. *)
Definition irecovery_get_device_info : M (option irecovery_device_info) :=
  usable <- irecovery_client_is_usable (W:=W) true ;;
  if negb usable then ret None
  else
    c <- get_client ;;
    ret (Some (device_info c)).

(** [(unsigned int)*response] for the first byte of the response: a plain
    [char] is signed or not as the compiler has it. *)
Definition char_to_unsigned_int (char_is_signed : bool) (b : byte) : Z :=
  let v := Crc.byte_val b in
  if char_is_signed && (128 <=? v) then (v - 256) mod 2 ^ UINT_BITS else v.

(** [irecovery_getret(client, value)]: [value] is [None] for a NULL
    out-pointer and [Some v] when it points to [v]; the result is the error
    and [*value] after the call.  The response buffer is 256 zero bytes
    with the received bytes at its start. *)
Definition irecovery_getret (char_is_signed : bool) (value : option Z)
    : M (Z * option Z) :=
  usable <- irecovery_client_is_usable (W:=W) true ;;
  if negb usable then ret (IRECOVERY_E_NO_DEVICE, value)
  else
    match value with
    | None => ret (IRECOVERY_E_BAD_PTR, None)
    | Some _ =>
        allocated <- call malloc ;;
        if negb allocated then ret (IRECOVERY_E_NO_MEMORY, Some 0)
        else
          '(r, received) <- irecovery_usb_control_transfer 0xC0 0 0 0
                              (zeros 256) (256 - 1) ;;
          if r <? 0 then ret (r, Some 0)
          else ret (IRECOVERY_E_SUCCESS,
                    Some (char_to_unsigned_int char_is_signed (nth 0 received x00)))
    end.

End IrecoveryApi.


(** [irecovery_strerror] (irecovery.c, lines 952-995). *)
Definition irecovery_strerror (error : Z) : string :=
  if error =? IRECOVERY_E_SUCCESS then "Success."
  else if error =? IRECOVERY_E_BAD_PTR
  then "An invalid pointer was passed to a function."
  else if error =? IRECOVERY_E_CLIENT_ALREADY_ACTIVE
  then "The provided client is already active."
  else if error =? IRECOVERY_E_NO_MEMORY then "Out of memory."
  else if error =? IRECOVERY_E_USB_INIT_FAILED
  then "Failed to initialize the USB backend."
  else if error =? IRECOVERY_E_NO_DEVICE then "No device."
  else if error =? IRECOVERY_E_DST_BUF_SIZE_ZERO
  then "A destination buffer's size is zero."
  else if error =? IRECOVERY_E_DESCRIPTOR_FETCH_FAILED
  then "Failed to fetch a descriptor from the device."
  else if error =? IRECOVERY_E_ECID_MISMATCH
  then "The queried device does not match the ECID restriction of the client."
  else if error =? IRECOVERY_E_DESCRIPTOR_SET_FAILED
  then "Failed to set a descriptor/property of the device."
  else if error =? IRECOVERY_E_INTERFACE_SET_FAILED
  then "Failed to set the interface of the device."
  else if error =? IRECOVERY_E_FINALIZATION_BLOCKED
  then "Finalization is not allowed right now."
  else if error =? IRECOVERY_E_USB_UPLOAD_FAILED
  then "Failed to upload data to the device."
  else if error =? IRECOVERY_E_INVALID_USB_STATUS
  then "The device is in an invalid state."
  else if error =? IRECOVERY_E_COMMAND_TOO_LONG
  then "The provided command was too long."
  else if error =? IRECOVERY_E_NO_COMMAND
  then "There was no command to handle."
  else if error =? IRECOVERY_E_SERVICE_NOT_AVAILABLE
  then "The device's mode doesn't support this function."
  else if error =? IRECOVERY_E_USB_RESET_FAILED
  then "Failed to reset the USB device."
  else if error =? IRECOVERY_E_UNKNOWN_EVENT_TYPE
  then "The provided event type is unknown."
  else "Foreign error.".

(** ** The device table (irecovery.c, lines 56-363 and 1504-1557) *)

(** [struct irecovery_device]. *)
Record irecovery_device := {
  product_type : string;
  hardware_model : string;
  board_id : Z;
  chip_id : Z;
  display_name : string
}.

Definition dev (product_type hardware_model : string) (board_id chip_id : Z)
    (display_name : string) : irecovery_device :=
  {| product_type := product_type; hardware_model := hardware_model;
     board_id := board_id; chip_id := chip_id; display_name := display_name |}.

(** [irecovery_devices], up to the row of NULLs that ends it. *)
Definition irecovery_devices : list irecovery_device := [
  dev "iPhone1,1" "m68ap" 0x00 0x8900 "iPhone 2G";
  dev "iPhone1,2" "n82ap" 0x04 0x8900 "iPhone 3G";
  dev "iPhone2,1" "n88ap" 0x00 0x8920 "iPhone 3Gs";
  dev "iPhone3,1" "n90ap" 0x00 0x8930 "iPhone 4 (GSM)";
  dev "iPhone3,2" "n90bap" 0x04 0x8930 "iPhone 4 (GSM) R2 2012";
  dev "iPhone3,3" "n92ap" 0x06 0x8930 "iPhone 4 (CDMA)";
  dev "iPhone4,1" "n94ap" 0x08 0x8940 "iPhone 4s";
  dev "iPhone5,1" "n41ap" 0x00 0x8950 "iPhone 5 (GSM)";
  dev "iPhone5,2" "n42ap" 0x02 0x8950 "iPhone 5 (Global)";
  dev "iPhone5,3" "n48ap" 0x0a 0x8950 "iPhone 5c (GSM)";
  dev "iPhone5,4" "n49ap" 0x0e 0x8950 "iPhone 5c (Global)";
  dev "iPhone6,1" "n51ap" 0x00 0x8960 "iPhone 5s (GSM)";
  dev "iPhone6,2" "n53ap" 0x02 0x8960 "iPhone 5s (Global)";
  dev "iPhone7,1" "n56ap" 0x04 0x7000 "iPhone 6 Plus";
  dev "iPhone7,2" "n61ap" 0x06 0x7000 "iPhone 6";
  dev "iPhone8,1" "n71ap" 0x04 0x8000 "iPhone 6s";
  dev "iPhone8,1" "n71map" 0x04 0x8003 "iPhone 6s";
  dev "iPhone8,2" "n66ap" 0x06 0x8000 "iPhone 6s Plus";
  dev "iPhone8,2" "n66map" 0x06 0x8003 "iPhone 6s Plus";
  dev "iPhone8,4" "n69ap" 0x02 0x8003 "iPhone SE (1st gen)";
  dev "iPhone8,4" "n69uap" 0x02 0x8000 "iPhone SE (1st gen)";
  dev "iPhone9,1" "d10ap" 0x08 0x8010 "iPhone 7 (Global)";
  dev "iPhone9,2" "d11ap" 0x0a 0x8010 "iPhone 7 Plus (Global)";
  dev "iPhone9,3" "d101ap" 0x0c 0x8010 "iPhone 7 (GSM)";
  dev "iPhone9,4" "d111ap" 0x0e 0x8010 "iPhone 7 Plus (GSM)";
  dev "iPhone10,1" "d20ap" 0x02 0x8015 "iPhone 8 (Global)";
  dev "iPhone10,2" "d21ap" 0x04 0x8015 "iPhone 8 Plus (Global)";
  dev "iPhone10,3" "d22ap" 0x06 0x8015 "iPhone X (Global)";
  dev "iPhone10,4" "d201ap" 0x0a 0x8015 "iPhone 8 (GSM)";
  dev "iPhone10,5" "d211ap" 0x0c 0x8015 "iPhone 8 Plus (GSM)";
  dev "iPhone10,6" "d221ap" 0x0e 0x8015 "iPhone X (GSM)";
  dev "iPhone11,2" "d321ap" 0x0e 0x8020 "iPhone XS";
  dev "iPhone11,4" "d331ap" 0x0a 0x8020 "iPhone XS Max (China)";
  dev "iPhone11,6" "d331pap" 0x1a 0x8020 "iPhone XS Max";
  dev "iPhone11,8" "n841ap" 0x0c 0x8020 "iPhone XR";
  dev "iPhone12,1" "n104ap" 0x04 0x8030 "iPhone 11";
  dev "iPhone12,3" "d421ap" 0x06 0x8030 "iPhone 11 Pro";
  dev "iPhone12,5" "d431ap" 0x02 0x8030 "iPhone 11 Pro Max";
  dev "iPhone12,8" "d79ap" 0x10 0x8030 "iPhone SE (2nd gen)";
  dev "iPhone13,1" "d52gap" 0x0A 0x8101 "iPhone 12 mini";
  dev "iPhone13,2" "d53gap" 0x0C 0x8101 "iPhone 12";
  dev "iPhone13,3" "d53pap" 0x0E 0x8101 "iPhone 12 Pro";
  dev "iPhone13,4" "d54pap" 0x08 0x8101 "iPhone 12 Pro Max";
  dev "iPhone14,2" "d63ap" 0x0C 0x8110 "iPhone 13 Pro";
  dev "iPhone14,3" "d64ap" 0x0E 0x8110 "iPhone 13 Pro Max";
  dev "iPhone14,4" "d16ap" 0x08 0x8110 "iPhone 13 mini";
  dev "iPhone14,5" "d17ap" 0x0A 0x8110 "iPhone 13";
  dev "iPhone14,6" "d49ap" 0x10 0x8110 "iPhone SE (3rd gen)";
  dev "iPhone14,7" "d27ap" 0x18 0x8110 "iPhone 14";
  dev "iPhone14,8" "d28ap" 0x1A 0x8110 "iPhone 14 Plus";
  dev "iPhone15,2" "d73ap" 0x0C 0x8120 "iPhone 14 Pro";
  dev "iPhone15,3" "d74ap" 0x0E 0x8120 "iPhone 14 Pro Max";
  dev "iPhone15,4" "d37ap" 0x08 0x8120 "iPhone 15";
  dev "iPhone15,5" "d38ap" 0x0A 0x8120 "iPhone 15 Plus";
  dev "iPhone16,1" "d83ap" 0x04 0x8130 "iPhone 15 Pro";
  dev "iPhone16,2" "d84ap" 0x06 0x8130 "iPhone 15 Pro Max";
  dev "iPhone17,1" "d93ap" 0x0C 0x8140 "iPhone 16 Pro";
  dev "iPhone17,2" "d94ap" 0x0E 0x8140 "iPhone 16 Pro Max";
  dev "iPhone17,3" "d47ap" 0x08 0x8140 "iPhone 16";
  dev "iPhone17,4" "d48ap" 0x0A 0x8140 "iPhone 16 Plus";
  dev "iPhone17,5" "v59ap" 0x04 0x8140 "iPhone 16e";
  dev "iPod1,1" "n45ap" 0x02 0x8900 "iPod Touch (1st gen)";
  dev "iPod2,1" "n72ap" 0x00 0x8720 "iPod Touch (2nd gen)";
  dev "iPod3,1" "n18ap" 0x02 0x8922 "iPod Touch (3rd gen)";
  dev "iPod4,1" "n81ap" 0x08 0x8930 "iPod Touch (4th gen)";
  dev "iPod5,1" "n78ap" 0x00 0x8942 "iPod Touch (5th gen)";
  dev "iPod7,1" "n102ap" 0x10 0x7000 "iPod Touch (6th gen)";
  dev "iPod9,1" "n112ap" 0x16 0x8010 "iPod Touch (7th gen)";
  dev "iPad1,1" "k48ap" 0x02 0x8930 "iPad";
  dev "iPad2,1" "k93ap" 0x04 0x8940 "iPad 2 (WiFi)";
  dev "iPad2,2" "k94ap" 0x06 0x8940 "iPad 2 (GSM)";
  dev "iPad2,3" "k95ap" 0x02 0x8940 "iPad 2 (CDMA)";
  dev "iPad2,4" "k93aap" 0x06 0x8942 "iPad 2 (WiFi) R2 2012";
  dev "iPad2,5" "p105ap" 0x0a 0x8942 "iPad mini (WiFi)";
  dev "iPad2,6" "p106ap" 0x0c 0x8942 "iPad mini (GSM)";
  dev "iPad2,7" "p107ap" 0x0e 0x8942 "iPad mini (Global)";
  dev "iPad3,1" "j1ap" 0x00 0x8945 "iPad (3rd gen, WiFi)";
  dev "iPad3,2" "j2ap" 0x02 0x8945 "iPad (3rd gen, CDMA)";
  dev "iPad3,3" "j2aap" 0x04 0x8945 "iPad (3rd gen, GSM)";
  dev "iPad3,4" "p101ap" 0x00 0x8955 "iPad (4th gen, WiFi)";
  dev "iPad3,5" "p102ap" 0x02 0x8955 "iPad (4th gen, GSM)";
  dev "iPad3,6" "p103ap" 0x04 0x8955 "iPad (4th gen, Global)";
  dev "iPad4,1" "j71ap" 0x10 0x8960 "iPad Air (WiFi)";
  dev "iPad4,2" "j72ap" 0x12 0x8960 "iPad Air (Cellular)";
  dev "iPad4,3" "j73ap" 0x14 0x8960 "iPad Air (China)";
  dev "iPad4,4" "j85ap" 0x0a 0x8960 "iPad mini 2 (WiFi)";
  dev "iPad4,5" "j86ap" 0x0c 0x8960 "iPad mini 2 (Cellular)";
  dev "iPad4,6" "j87ap" 0x0e 0x8960 "iPad mini 2 (China)";
  dev "iPad4,7" "j85map" 0x32 0x8960 "iPad mini 3 (WiFi)";
  dev "iPad4,8" "j86map" 0x34 0x8960 "iPad mini 3 (Cellular)";
  dev "iPad4,9" "j87map" 0x36 0x8960 "iPad mini 3 (China)";
  dev "iPad5,1" "j96ap" 0x08 0x7000 "iPad mini 4 (WiFi)";
  dev "iPad5,2" "j97ap" 0x0A 0x7000 "iPad mini 4 (Cellular)";
  dev "iPad5,3" "j81ap" 0x06 0x7001 "iPad Air 2 (WiFi)";
  dev "iPad5,4" "j82ap" 0x02 0x7001 "iPad Air 2 (Cellular)";
  dev "iPad6,3" "j127ap" 0x08 0x8001 "iPad Pro 9.7-inch (WiFi)";
  dev "iPad6,4" "j128ap" 0x0a 0x8001 "iPad Pro 9.7-inch (Cellular)";
  dev "iPad6,7" "j98aap" 0x10 0x8001 "iPad Pro 12.9-inch (1st gen, WiFi)";
  dev "iPad6,8" "j99aap" 0x12 0x8001 "iPad Pro 12.9-inch (1st gen, Cellular)";
  dev "iPad6,11" "j71sap" 0x10 0x8000 "iPad (5th gen, WiFi)";
  dev "iPad6,11" "j71tap" 0x10 0x8003 "iPad (5th gen, WiFi)";
  dev "iPad6,12" "j72sap" 0x12 0x8000 "iPad (5th gen, Cellular)";
  dev "iPad6,12" "j72tap" 0x12 0x8003 "iPad (5th gen, Cellular)";
  dev "iPad7,1" "j120ap" 0x0C 0x8011 "iPad Pro 12.9-inch (2nd gen, WiFi)";
  dev "iPad7,2" "j121ap" 0x0E 0x8011 "iPad Pro 12.9-inch (2nd gen, Cellular)";
  dev "iPad7,3" "j207ap" 0x04 0x8011 "iPad Pro 10.5-inch (WiFi)";
  dev "iPad7,4" "j208ap" 0x06 0x8011 "iPad Pro 10.5-inch (Cellular)";
  dev "iPad7,5" "j71bap" 0x18 0x8010 "iPad (6th gen, WiFi)";
  dev "iPad7,6" "j72bap" 0x1A 0x8010 "iPad (6th gen, Cellular)";
  dev "iPad7,11" "j171ap" 0x1C 0x8010 "iPad (7th gen, WiFi)";
  dev "iPad7,12" "j172ap" 0x1E 0x8010 "iPad (7th gen, Cellular)";
  dev "iPad8,1" "j317ap" 0x0C 0x8027 "iPad Pro 11-inch (1st gen, WiFi)";
  dev "iPad8,2" "j317xap" 0x1C 0x8027 "iPad Pro 11-inch (1st gen, WiFi, 1TB)";
  dev "iPad8,3" "j318ap" 0x0E 0x8027 "iPad Pro 11-inch (1st gen, Cellular)";
  dev "iPad8,4" "j318xap" 0x1E 0x8027 "iPad Pro 11-inch (1st gen, Cellular, 1TB)";
  dev "iPad8,5" "j320ap" 0x08 0x8027 "iPad Pro 12.9-inch (3rd gen, WiFi)";
  dev "iPad8,6" "j320xap" 0x18 0x8027 "iPad Pro 12.9-inch (3rd gen, WiFi, 1TB)";
  dev "iPad8,7" "j321ap" 0x0A 0x8027 "iPad Pro 12.9-inch (3rd gen, Cellular)";
  dev "iPad8,8" "j321xap" 0x1A 0x8027 "iPad Pro 12.9-inch (3rd gen, Cellular, 1TB)";
  dev "iPad8,9" "j417ap" 0x3C 0x8027 "iPad Pro 11-inch (2nd gen, WiFi)";
  dev "iPad8,10" "j418ap" 0x3E 0x8027 "iPad Pro 11-inch (2nd gen, Cellular)";
  dev "iPad8,11" "j420ap" 0x38 0x8027 "iPad Pro 12.9-inch (4th gen, WiFi)";
  dev "iPad8,12" "j421ap" 0x3A 0x8027 "iPad Pro 12.9-inch (4th gen, Cellular)";
  dev "iPad11,1" "j210ap" 0x14 0x8020 "iPad mini (5th gen, WiFi)";
  dev "iPad11,2" "j211ap" 0x16 0x8020 "iPad mini (5th gen, Cellular)";
  dev "iPad11,3" "j217ap" 0x1C 0x8020 "iPad Air (3rd gen, WiFi)";
  dev "iPad11,4" "j218ap" 0x1E 0x8020 "iPad Air (3rd gen, Cellular)";
  dev "iPad11,6" "j171aap" 0x24 0x8020 "iPad (8th gen, WiFi)";
  dev "iPad11,7" "j172aap" 0x26 0x8020 "iPad (8th gen, Cellular)";
  dev "iPad12,1" "j181ap" 0x18 0x8030 "iPad (9th gen, WiFi)";
  dev "iPad12,2" "j182ap" 0x1A 0x8030 "iPad (9th gen, Cellular)";
  dev "iPad13,1" "j307ap" 0x04 0x8101 "iPad Air (4th gen, WiFi)";
  dev "iPad13,2" "j308ap" 0x06 0x8101 "iPad Air (4th gen, Cellular)";
  dev "iPad13,4" "j517ap" 0x08 0x8103 "iPad Pro 11-inch (3rd gen, WiFi)";
  dev "iPad13,5" "j517xap" 0x0A 0x8103 "iPad Pro 11-inch (3rd gen, WiFi, 2TB)";
  dev "iPad13,6" "j518ap" 0x0C 0x8103 "iPad Pro 11-inch (3rd gen, Cellular)";
  dev "iPad13,7" "j518xap" 0x0E 0x8103 "iPad Pro 11-inch (3rd gen, Cellular, 2TB)";
  dev "iPad13,8" "j522ap" 0x18 0x8103 "iPad Pro 12.9-inch (5th gen, WiFi)";
  dev "iPad13,9" "j522xap" 0x1A 0x8103 "iPad Pro 12.9-inch (5th gen, WiFi, 2TB)";
  dev "iPad13,10" "j523ap" 0x1C 0x8103 "iPad Pro 12.9-inch (5th gen, Cellular)";
  dev "iPad13,11" "j523xap" 0x1E 0x8103 "iPad Pro 12.9-inch (5th gen, Cellular, 2TB)";
  dev "iPad13,16" "j407ap" 0x10 0x8103 "iPad Air (5th gen, WiFi)";
  dev "iPad13,17" "j408ap" 0x12 0x8103 "iPad Air (5th gen, Cellular)";
  dev "iPad13,18" "j271ap" 0x14 0x8101 "iPad (10th gen, WiFi)";
  dev "iPad13,19" "j272ap" 0x16 0x8101 "iPad (10th gen, Cellular)";
  dev "iPad14,1" "j310ap" 0x04 0x8110 "iPad mini (6th gen, WiFi)";
  dev "iPad14,2" "j311ap" 0x06 0x8110 "iPad mini (6th gen, Cellular)";
  dev "iPad14,3" "j617ap" 0x08 0x8112 "iPad Pro 11-inch (4th gen, WiFi)";
  dev "iPad14,4" "j618ap" 0x0A 0x8112 "iPad Pro 11-inch (4th gen, Cellular)";
  dev "iPad14,5" "j620ap" 0x0C 0x8112 "iPad Pro 12.9-inch (6th gen, WiFi)";
  dev "iPad14,6" "j621ap" 0x0E 0x8112 "iPad Pro 12.9-inch (6th gen, Cellular)";
  dev "iPad14,8" "j507ap" 0x10 0x8112 "iPad Air 11-inch (M2, WiFi)";
  dev "iPad14,9" "j508ap" 0x12 0x8112 "iPad Air 11-inch (M2, Cellular)";
  dev "iPad14,10" "j537ap" 0x14 0x8112 "iPad Air 13-inch (M2, WiFi)";
  dev "iPad14,11" "j538ap" 0x16 0x8112 "iPad Air 13-inch (M2, Cellular)";
  dev "iPad15,3" "j607ap" 0x08 0x8122 "iPad Air 11-inch (M3, WiFi)";
  dev "iPad15,4" "j608ap" 0x0A 0x8122 "iPad Air 11-inch (M3, Cellular)";
  dev "iPad15,5" "j637ap" 0x0C 0x8122 "iPad Air 13-inch (M3, WiFi)";
  dev "iPad15,6" "j638ap" 0x0E 0x8122 "iPad Air 13-inch (M3, Cellular)";
  dev "iPad15,7" "j481ap" 0x10 0x8120 "iPad (A16, WiFi)";
  dev "iPad15,8" "j482ap" 0x12 0x8120 "iPad (A16, Cellular)";
  dev "iPad16,1" "j410ap" 0x08 0x8130 "iPad mini (A17 Pro, WiFi)";
  dev "iPad16,2" "j411ap" 0x0A 0x8130 "iPad mini (A17 Pro, Cellular)";
  dev "iPad16,3" "j717ap" 0x08 0x8132 "iPad Pro 11-inch (M4, WiFi)";
  dev "iPad16,4" "j718ap" 0x0A 0x8132 "iPad Pro 11-inch (M4, Cellular)";
  dev "iPad16,5" "j720ap" 0x0C 0x8132 "iPad Pro 13-inch (M4, WiFi)";
  dev "iPad16,6" "j721ap" 0x0E 0x8132 "iPad Pro 13-inch (M4, Cellular)";
  dev "AppleTV2,1" "k66ap" 0x10 0x8930 "Apple TV 2";
  dev "AppleTV3,1" "j33ap" 0x08 0x8942 "Apple TV 3";
  dev "AppleTV3,2" "j33iap" 0x00 0x8947 "Apple TV 3 (2013)";
  dev "AppleTV5,3" "j42dap" 0x34 0x7000 "Apple TV 4";
  dev "AppleTV6,2" "j105aap" 0x02 0x8011 "Apple TV 4K";
  dev "AppleTV11,1" "j305ap" 0x08 0x8020 "Apple TV 4K (2nd gen)";
  dev "AppleTV14,1" "j255ap" 0x02 0x8110 "Apple TV 4K (3rd gen)";
  dev "AudioAccessory1,1" "b238aap" 0x38 0x7000 "HomePod (1st gen)";
  dev "AudioAccessory1,2" "b238ap" 0x1A 0x7000 "HomePod (1st gen)";
  dev "AudioAccessory5,1" "b520ap" 0x22 0x8006 "HomePod mini";
  dev "AudioAccessory6,1" "b620ap" 0x18 0x8301 "HomePod (2nd gen)";
  dev "Watch1,1" "n27aap" 0x02 0x7002 "Apple Watch 38mm (1st gen)";
  dev "Watch1,2" "n28aap" 0x04 0x7002 "Apple Watch 42mm (1st gen)";
  dev "Watch2,6" "n27dap" 0x02 0x8002 "Apple Watch Series 1 (38mm)";
  dev "Watch2,7" "n28dap" 0x04 0x8002 "Apple Watch Series 1 (42mm)";
  dev "Watch2,3" "n74ap" 0x0C 0x8002 "Apple Watch Series 2 (38mm)";
  dev "Watch2,4" "n75ap" 0x0E 0x8002 "Apple Watch Series 2 (42mm)";
  dev "Watch3,1" "n111sap" 0x1C 0x8004 "Apple Watch Series 3 (38mm Cellular)";
  dev "Watch3,2" "n111bap" 0x1E 0x8004 "Apple Watch Series 3 (42mm Cellular)";
  dev "Watch3,3" "n121sap" 0x18 0x8004 "Apple Watch Series 3 (38mm)";
  dev "Watch3,4" "n121bap" 0x1A 0x8004 "Apple Watch Series 3 (42mm)";
  dev "Watch4,1" "n131sap" 0x08 0x8006 "Apple Watch Series 4 (40mm)";
  dev "Watch4,2" "n131bap" 0x0A 0x8006 "Apple Watch Series 4 (44mm)";
  dev "Watch4,3" "n141sap" 0x0C 0x8006 "Apple Watch Series 4 (40mm Cellular)";
  dev "Watch4,4" "n141bap" 0x0E 0x8006 "Apple Watch Series 4 (44mm Cellular)";
  dev "Watch5,1" "n144sap" 0x10 0x8006 "Apple Watch Series 5 (40mm)";
  dev "Watch5,2" "n144bap" 0x12 0x8006 "Apple Watch Series 5 (44mm)";
  dev "Watch5,3" "n146sap" 0x14 0x8006 "Apple Watch Series 5 (40mm Cellular)";
  dev "Watch5,4" "n146bap" 0x16 0x8006 "Apple Watch Series 5 (44mm Cellular)";
  dev "Watch5,9" "n140sap" 0x28 0x8006 "Apple Watch SE (40mm)";
  dev "Watch5,10" "n140bap" 0x2A 0x8006 "Apple Watch SE (44mm)";
  dev "Watch5,11" "n142sap" 0x2C 0x8006 "Apple Watch SE (40mm Cellular)";
  dev "Watch5,12" "n142bap" 0x2E 0x8006 "Apple Watch SE (44mm Cellular)";
  dev "Watch6,1" "n157sap" 0x08 0x8301 "Apple Watch Series 6 (40mm)";
  dev "Watch6,2" "n157bap" 0x0A 0x8301 "Apple Watch Series 6 (44mm)";
  dev "Watch6,3" "n158sap" 0x0C 0x8301 "Apple Watch Series 6 (40mm Cellular)";
  dev "Watch6,4" "n158bap" 0x0E 0x8301 "Apple Watch Series 6 (44mm Cellular)";
  dev "Watch6,6" "n187sap" 0x10 0x8301 "Apple Watch Series 7 (41mm)";
  dev "Watch6,7" "n187bap" 0x12 0x8301 "Apple Watch Series 7 (45mm)";
  dev "Watch6,8" "n188sap" 0x14 0x8301 "Apple Watch Series 7 (41mm Cellular)";
  dev "Watch6,9" "n188bap" 0x16 0x8301 "Apple Watch Series 7 (45mm Cellular)";
  dev "Watch6,10" "n143sap" 0x28 0x8301 "Apple Watch SE 2 (40mm)";
  dev "Watch6,11" "n143bap" 0x2A 0x8301 "Apple Watch SE 2 (44mm)";
  dev "Watch6,12" "n149sap" 0x2C 0x8301 "Apple Watch SE 2 (40mm Cellular)";
  dev "Watch6,13" "n149bap" 0x2E 0x8301 "Apple Watch SE 2 (44mm Cellular)";
  dev "Watch6,14" "n197sap" 0x30 0x8301 "Apple Watch Series 8 (41mm)";
  dev "Watch6,15" "n197bap" 0x32 0x8301 "Apple Watch Series 8 (45mm)";
  dev "Watch6,16" "n198sap" 0x34 0x8301 "Apple Watch Series 8 (41mm Cellular)";
  dev "Watch6,17" "n198bap" 0x36 0x8301 "Apple Watch Series 8 (45mm Cellular)";
  dev "Watch6,18" "n199ap" 0x26 0x8301 "Apple Watch Ultra";
  dev "Watch7,1" "n207sap" 0x08 0x8310 "Apple Watch Series 9 (41mm)";
  dev "Watch7,2" "n207bap" 0x0A 0x8310 "Apple Watch Series 9 (45mm)";
  dev "Watch7,3" "n208sap" 0x0C 0x8310 "Apple Watch Series 9 (41mm Cellular)";
  dev "Watch7,4" "n208bap" 0x0E 0x8310 "Apple Watch Series 9 (45mm Cellular)";
  dev "Watch7,5" "n210ap" 0x02 0x8310 "Apple Watch Ultra 2";
  dev "Watch7,8" "n217sap" 0x10 0x8310 "Apple Watch Series 10 (42mm)";
  dev "Watch7,9" "n217bap" 0x12 0x8310 "Apple Watch Series 10 (46mm)";
  dev "Watch7,10" "n218sap" 0x14 0x8310 "Apple Watch Series 10 (42mm Cellular)";
  dev "Watch7,11" "n218bap" 0x16 0x8310 "Apple Watch Series 10 (46mm Cellular)";
  dev "ADP3,2" "j273aap" 0x42 0x8027 "Developer Transition Kit (2020)";
  dev "Macmini9,1" "j274ap" 0x22 0x8103 "Mac mini (M1, 2020)";
  dev "MacBookPro17,1" "j293ap" 0x24 0x8103 "MacBook Pro (M1, 13-inch, 2020)";
  dev "MacBookPro18,1" "j316sap" 0x0A 0x6000 "MacBook Pro (M1 Pro, 16-inch, 2021)";
  dev "MacBookPro18,2" "j316cap" 0x0A 0x6001 "MacBook Pro (M1 Max, 16-inch, 2021)";
  dev "MacBookPro18,3" "j314sap" 0x08 0x6000 "MacBook Pro (M1 Pro, 14-inch, 2021)";
  dev "MacBookPro18,4" "j314cap" 0x08 0x6001 "MacBook Pro (M1 Max, 14-inch, 2021)";
  dev "MacBookAir10,1" "j313ap" 0x26 0x8103 "MacBook Air (M1, 2020)";
  dev "iMac21,1" "j456ap" 0x28 0x8103 "iMac 24-inch (M1, Two Ports, 2021)";
  dev "iMac21,2" "j457ap" 0x2A 0x8103 "iMac 24-inch (M1, Four Ports, 2021)";
  dev "Mac13,1" "j375cap" 0x04 0x6001 "Mac Studio (M1 Max, 2022)";
  dev "Mac13,2" "j375dap" 0x0C 0x6002 "Mac Studio (M1 Ultra, 2022)";
  dev "Mac14,2" "j413ap" 0x28 0x8112 "MacBook Air (M2, 2022)";
  dev "Mac14,7" "j493ap" 0x2A 0x8112 "MacBook Pro (M2, 13-inch, 2022)";
  dev "Mac14,3" "j473ap" 0x24 0x8112 "Mac mini (M2, 2023)";
  dev "Mac14,5" "j414cap" 0x04 0x6021 "MacBook Pro (14-inch, M2 Max, 2023)";
  dev "Mac14,6" "j416cap" 0x06 0x6021 "MacBook Pro (16-inch, M2 Max, 2023)";
  dev "Mac14,8" "j180dap" 0x08 0x6022 "Mac Pro (2023)";
  dev "Mac14,9" "j414sap" 0x04 0x6020 "MacBook Pro (14-inch, M2 Pro, 2023)";
  dev "Mac14,10" "j416sap" 0x06 0x6020 "MacBook Pro (16-inch, M2 Pro, 2023)";
  dev "Mac14,12" "j474sap" 0x02 0x6020 "Mac mini (M2 Pro, 2023)";
  dev "Mac14,13" "j475cap" 0x0A 0x6021 "Mac Studio (M2 Max, 2023)";
  dev "Mac14,14" "j475dap" 0x0A 0x6022 "Mac Studio (M2 Ultra, 2023)";
  dev "Mac14,15" "j415ap" 0x2E 0x8112 "MacBook Air (M2, 15-inch, 2023)";
  dev "Mac15,3" "j504ap" 0x22 0x8122 "MacBook Pro (14-inch, M3, Nov 2023)";
  dev "Mac15,4" "j433ap" 0x28 0x8122 "iMac 24-inch (M3, Two Ports, 2023)";
  dev "Mac15,5" "j434ap" 0x2A 0x8122 "iMac 24-inch (M3, Four Ports, 2023)";
  dev "Mac15,6" "j514sap" 0x04 0x6030 "MacBook Pro (14-inch, M3 Pro, Nov 2023)";
  dev "Mac15,7" "j516sap" 0x06 0x6030 "MacBook Pro (16-inch, M3 Pro, Nov 2023)";
  dev "Mac15,8" "j514cap" 0x44 0x6031 "MacBook Pro (14-inch, M3 Max, Nov 2023)";
  dev "Mac15,9" "j516cap" 0x46 0x6031 "MacBook Pro (16-inch, M3 Max, Nov 2023)";
  dev "Mac15,10" "j514map" 0x44 0x6034 "MacBook Pro (14-inch, M3 Max, Nov 2023)";
  dev "Mac15,11" "j516map" 0x46 0x6034 "MacBook Pro (16-inch, M3 Max, Nov 2023)";
  dev "Mac15,12" "j613ap" 0x30 0x8122 "MacBook Air (13-inch, M3, 2024)";
  dev "Mac15,13" "j615ap" 0x32 0x8122 "MacBook Air (15-inch, M3, 2024)";
  dev "Mac15,14" "j575dap" 0x44 0x6032 "Mac Studio (M3 Ultra, 2025)";
  dev "Mac16,1" "j604ap" 0x22 0x8132 "MacBook Pro (14-inch, M4, Nov 2024)";
  dev "Mac16,2" "j623ap" 0x24 0x8132 "iMac 24-inch (M4, Two Ports, 2024)";
  dev "Mac16,3" "j624ap" 0x26 0x8132 "iMac 24-inch (M4, Four Ports, 2024)";
  dev "Mac16,5" "j616cap" 0x06 0x6041 "MacBook Pro (16-inch, M4 Max, Nov 2024)";
  dev "Mac16,6" "j614cap" 0x04 0x6041 "MacBook Pro (14-inch, M4 Max, Nov 2024)";
  dev "Mac16,7" "j616sap" 0x06 0x6040 "MacBook Pro (16-inch, M4 Pro, Nov 2024)";
  dev "Mac16,8" "j614sap" 0x04 0x6040 "MacBook Pro (14-inch, M4 Pro, Nov 2024)";
  dev "Mac16,9" "j575cap" 0x02 0x6041 "Mac Studio (M4 Max, 2025)";
  dev "Mac16,10" "j773gap" 0x2A 0x8132 "Mac mini (M4, 2024)";
  dev "Mac16,11" "j773sap" 0x02 0x6040 "Mac mini (M4 Pro, 2024)";
  dev "Mac16,12" "j713ap" 0x2C 0x8132 "MacBook Air (13-inch, M4, 2025)";
  dev "Mac16,13" "j715ap" 0x2E 0x8132 "MacBook Air (15-inch, M4, 2025)";
  dev "VirtualMac2,1" "vma2macosap" 0x20 0xFE00 "Apple Virtual Machine 1";
  dev "iBridge2,1" "j137ap" 0x0A 0x8012 "Apple T2 iMacPro1,1 (j137)";
  dev "iBridge2,3" "j680ap" 0x0B 0x8012 "Apple T2 MacBookPro15,1 (j680)";
  dev "iBridge2,4" "j132ap" 0x0C 0x8012 "Apple T2 MacBookPro15,2 (j132)";
  dev "iBridge2,5" "j174ap" 0x0E 0x8012 "Apple T2 Macmini8,1 (j174)";
  dev "iBridge2,6" "j160ap" 0x0F 0x8012 "Apple T2 MacPro7,1 (j160)";
  dev "iBridge2,7" "j780ap" 0x07 0x8012 "Apple T2 MacBookPro15,3 (j780)";
  dev "iBridge2,8" "j140kap" 0x17 0x8012 "Apple T2 MacBookAir8,1 (j140k)";
  dev "iBridge2,10" "j213ap" 0x18 0x8012 "Apple T2 MacBookPro15,4 (j213)";
  dev "iBridge2,12" "j140aap" 0x37 0x8012 "Apple T2 MacBookAir8,2 (j140a)";
  dev "iBridge2,14" "j152fap" 0x3A 0x8012 "Apple T2 MacBookPro16,1 (j152f)";
  dev "iBridge2,15" "j230kap" 0x3F 0x8012 "Apple T2 MacBookAir9,1 (j230k)";
  dev "iBridge2,16" "j214kap" 0x3E 0x8012 "Apple T2 MacBookPro16,2 (j214k)";
  dev "iBridge2,19" "j185ap" 0x22 0x8012 "Apple T2 iMac20,1 (j185)";
  dev "iBridge2,20" "j185fap" 0x23 0x8012 "Apple T2 iMac20,2 (j185f)";
  dev "iBridge2,21" "j223ap" 0x3B 0x8012 "Apple T2 MacBookPro16,3 (j223)";
  dev "iBridge2,22" "j215ap" 0x38 0x8012 "Apple T2 MacBookPro16,4 (j215)";
  dev "AppleDisplay2,1" "j327ap" 0x22 0x8030 "Studio Display";
  dev "RealityDevice14,1" "n301ap" 0x42 0x8112 "Apple Vision Pro"
].

(** The loop of the three lookups: the first row that matches, with
    [IRECOVERY_E_SUCCESS], or [IRECOVERY_E_NO_DEVICE] at the row of NULLs. *)
Fixpoint first_device (matches : irecovery_device -> bool)
    (devices : list irecovery_device) : Z * option irecovery_device :=
  match devices with
  | [] => (IRECOVERY_E_NO_DEVICE, None)
  | d :: rest =>
      if matches d then (IRECOVERY_E_SUCCESS, Some d)
      else first_device matches rest
  end.

(** [irecovery_devices_get_device_by_client], for non-NULL pointers: the
    error and [*device]. *)
Definition irecovery_devices_get_device_by_client (c : irecovery_client)
    : Z * option irecovery_device :=
  let cpid_match := cpid (device_info c) in
  let bdid_match := bdid (device_info c) in
  first_device (fun d => (chip_id d =? cpid_match) && (board_id d =? bdid_match))
               irecovery_devices.

(** [irecovery_devices_get_device_by_product_type]; [None] is a NULL
    string. *)
Definition irecovery_devices_get_device_by_product_type (product : option string)
    : Z * option irecovery_device :=
  match product with
  | None => (IRECOVERY_E_BAD_PTR, None)
  | Some p => first_device (fun d => String.eqb p (product_type d)) irecovery_devices
  end.

(** [irecovery_devices_get_device_by_hardware_model]. *)
Definition irecovery_devices_get_device_by_hardware_model (model : option string)
    : Z * option irecovery_device :=
  match model with
  | None => (IRECOVERY_E_BAD_PTR, None)
  | Some m => first_device (fun d => String.eqb m (hardware_model d)) irecovery_devices
  end.

(** ** A device emulator and a scanner, to run the code on concrete inputs *)

Module Emulator.

(** Modelled from the spec: [nsscanf] (declared in nsscanf.h) is not among
    the sources.  The spec gives the decode rule of the scalar tags as `hex`
    and that of the nonces as `pairs of hex digits`; the conversions follow
    the scanf contract the format strings of the source are written for:
    [%x] skips white space and converts the longest run of hex digits (at
    most two for [%2x]), [%s] skips white space and takes the longest run of
    characters that are not white space.  A conversion that finds no
    character to convert does not match. *)
Definition isspace (c : ascii) : bool :=
  let n := N_of_ascii c in
  ((n =? 32) || ((9 <=? n) && (n <=? 13)))%N.

Definition hex_value (c : ascii) : option Z :=
  let n := Z.of_N (N_of_ascii c) in
  if (48 <=? n) && (n <=? 57) then Some (n - 48)
  else if (97 <=? n) && (n <=? 102) then Some (n - 87)
  else if (65 <=? n) && (n <=? 70) then Some (n - 55)
  else None.

Fixpoint skip_space (s : string) : string :=
  match s with
  | String c s' => if isspace c then skip_space s' else s
  | EmptyString => s
  end.

(** At most [width] hex digits, accumulated from the left. *)
Fixpoint hex_digits (width : nat) (s : string) (acc : option Z) : option Z :=
  match width, s with
  | S width', String c s' =>
      match hex_value c with
      | Some d => hex_digits width' s' (Some (16 * match acc with Some a => a | None => 0 end + d))
      | None => acc
      end
  | _, _ => acc
  end.

Fixpoint token (s : string) : string :=
  match s with
  | String c s' => if isspace c then EmptyString else String c (token s')
  | EmptyString => EmptyString
  end.

Definition scan_hex (width : option nat) (s : string) : option Z :=
  let s := skip_space s in
  hex_digits (match width with Some w => w | None => String.length s end) s None.

Definition scan_string (s : string) : option string :=
  match token (skip_space s) with
  | EmptyString => None
  | t => Some t
  end.

#[global] Instance scanf_model : Nsscanf := {
  nsscanf_x := scan_hex None;
  nsscanf_x64 := scan_hex None;
  nsscanf_2x := scan_hex (Some 2%nat);
  nsscanf_s := scan_string
}.

(** The emulated bus: one attached Apple device per handle, with the
    descriptors and the DFU answers it gives. *)
Record World := {
  role : usb_role_t;
  (* the events of the coming calls of usb_HandleEvents, one batch each *)
  events : list (list usb_event_t);
  (* the product id a device reports (vendor 0x05AC), or none *)
  products : usb_device_t -> option Z;
  (* the string descriptors, by index; the serial number is at index 3 *)
  strings : Z -> option string;
  dfu_state : Z;
  dfu_status : Z;
  (* the answer of the console to a 0xC0 read *)
  response : list byte;
  (* whether transfers succeed *)
  transfers_ok : bool;
  memory : bool
}.

Definition descriptor_of (product : Z) : usb_device_descriptor_t :=
  {| bLength := 18; bDescriptorType := 1; bcdUSB := 0x200;
     bDeviceClass := 0; bDeviceSubClass := 0; bDeviceProtocol := 0;
     bMaxPacketSize0 := 64; idVendor := APPLE_VENDOR_ID; idProduct := product;
     bcdDevice := 0; iManufacturer := 2; iProduct := 1; iSerialNumber := 3;
     bNumConfigurations := 1 |}.

Definition units_of (s : string) : list Z :=
  map (fun c => Z.of_N (N_of_ascii c)) (list_ascii_of_string s).

Definition next_events (w : World) : list usb_event_t * World :=
  match events w with
  | [] => ([], w)
  | batch :: rest =>
      (batch, {| role := role w; events := rest; products := products w;
                 strings := strings w; dfu_state := dfu_state w;
                 dfu_status := dfu_status w; response := response w;
                 transfers_ok := transfers_ok w; memory := memory w |})
  end.

Definition get_descriptor (d : usb_device_t) (w : World)
    : (usb_error_t * N * usb_device_descriptor_t) * World :=
  match products w d with
  | Some p => ((USB_SUCCESS, sizeof_device_descriptor, descriptor_of p), w)
  | None => ((1, 0%N, zero_descriptor), w)
  end.

Definition get_string_descriptor (d : usb_device_t) (index length : Z) (w : World)
    : (usb_error_t * N * usb_string_descriptor_t) * World :=
  match strings w index with
  | Some s =>
      let n := 2 + 2 * Z.of_nat (String.length s) in
      ((USB_SUCCESS, Z.to_N (Z.min n length),
        {| sd_bLength := n; sd_bDescriptorType := 3; sd_bString := units_of s |}), w)
  | None => ((1, 0%N, {| sd_bLength := 0; sd_bDescriptorType := 0; sd_bString := [] |}), w)
  end.

Definition control_transfer (d : usb_device_t) (setup : usb_control_setup_t)
    (data : list byte) (w : World) : (usb_error_t * N * list byte) * World :=
  if negb (transfers_ok w) then ((1, 0%N, []), w)
  else if (bmRequestType setup =? 0xA1) && (bRequest setup =? 5)
  then ((USB_SUCCESS, 1%N, [Crc.byte_of_Z (dfu_state w)]), w)
  else if (bmRequestType setup =? 0xA1) && (bRequest setup =? 3)
  then ((USB_SUCCESS, 6%N, [x00; x00; x00; x00; Crc.byte_of_Z (dfu_status w); x00]), w)
  else if bmRequestType setup =? 0xC0
  then ((USB_SUCCESS, N.of_nat (List.length (response w)), response w), w)
  else ((USB_SUCCESS, Z.to_N (wLength setup), []), w).

#[global] Instance usb_model : UsbStack World := {
  usb_GetRole := role;
  usb_WaitingEvents := next_events;
  usb_ResetDevice := fun _ w => (USB_SUCCESS, w);
  usb_GetDescriptor := get_descriptor;
  usb_GetStringDescriptor := get_string_descriptor;
  usb_GetConfigurationDescriptorTotalLength := fun _ _ _ => 9%N;
  usb_GetConfigurationDescriptor := fun _ _ n w => ((USB_SUCCESS, n, []), w);
  usb_SetConfiguration := fun _ _ _ w => (USB_SUCCESS, w);
  usb_ControlTransfer := control_transfer;
  usb_Transfer := fun _ _ _ length w =>
    if transfers_ok w then ((USB_SUCCESS, Z.to_N length), w) else ((1, 0%N), w);
  usb_Init := fun w => (USB_SUCCESS, w);
  usb_Cleanup := fun w => w;
  malloc := fun w => (memory w, w)
}.

(** A host with the given events waiting and devices attached. *)
Definition bus (events : list (list usb_event_t)) (products : usb_device_t -> option Z)
    (strings : Z -> option string) : World :=
  {| role := USB_ROLE_HOST; events := events; products := products;
     strings := strings; dfu_state := 2; dfu_status := 5; response := [];
     transfers_ok := true; memory := true |}.

(** A client that has adopted device 1 in the given mode with nothing else
    set, on a quiet bus. *)
Definition adopted (mode : Z) (callback : option irecovery_event_cb_t) : State :=
  {| client := {| connection_policy := IRECOVERY_CLIENT_DEVICE_POLICY_ACCEPT_ALL;
                  ecid_restriction := 0; num_connections := 0;
                  handle := 1%N; device_descriptor := descriptor_of mode;
                  device_info := zero_device_info; mode := mode;
                  finalized := 1; progress_callback := callback |};
     world := bus [] (fun d => if (d =? 1)%N then Some mode else None) (fun _ => None);
     trace := [] |}.

End Emulator.

(** ** Concrete inputs *)

Module Inputs.
Import Emulator.

(** A console command of exactly 255 characters. *)
Definition command_255 : string := string_of_list_ascii (repeat "a"%char 255).

(** A client in recovery mode (product id 0x1281) on a quiet bus. *)
Definition recovery_client : State := adopted IRECOVERY_K_RECOVERY_MODE_2 None.

(** The same client when the console answers a read with the two bytes
    of "ok". *)
Definition console_client : State :=
  {| client := client recovery_client;
     world := {| role := USB_ROLE_HOST; events := [];
                 products := products (world recovery_client);
                 strings := fun _ => None; dfu_state := 2; dfu_status := 5;
                 response := ["o"%byte; "k"%byte];
                 transfers_ok := true; memory := true |};
     trace := [] |}.

(** A new client with the one-connection-limit policy, on a bus where two
    supported devices (handles 1 and 2, both in DFU mode) are enabled one
    after the other. *)
Definition two_devices : State :=
  {| client := new_client IRECOVERY_CLIENT_DEVICE_POLICY_ONE_CONNECTION_LIMIT 0;
     world := bus [[USB_DEVICE_ENABLED_EVENT 1%N]; [USB_DEVICE_ENABLED_EVENT 2%N]]
                  (fun _ => Some IRECOVERY_K_DFU_MODE) (fun _ => None);
     trace := [] |}.

(** A client built with the ECID restriction 0xDEADBEEF that has adopted
    device 1, whose serial number string reports the ECID 1. *)
Definition restricted_client : State :=
  {| client := set_handle 1%N
                 (set_device_descriptor (descriptor_of IRECOVERY_K_DFU_MODE)
                    (new_client IRECOVERY_CLIENT_DEVICE_POLICY_ACCEPT_ALL 0xDEADBEEF));
     world := bus [] (fun _ => Some IRECOVERY_K_DFU_MODE)
                  (fun i => if i =? 3 then Some "CPID:8010 ECID:01 SRNM:[F2X]"
                            else None);
     trace := [] |}.

(** A client without restriction that has adopted device 1; the device has
    a serial number string but no string descriptor 1, so that the fetch of
    the nonces fails. *)
Definition no_nonce_client : State :=
  {| client := set_handle 1%N
                 (set_device_descriptor (descriptor_of IRECOVERY_K_DFU_MODE)
                    (new_client IRECOVERY_CLIENT_DEVICE_POLICY_ACCEPT_ALL 0));
     world := world restricted_client;
     trace := [] |}.

(** A client in DFU mode whose progress callback always asks to stop. *)
Definition cancelling_client : State :=
  adopted IRECOVERY_K_DFU_MODE (Some (fun _ => 1)).

(** A client in DFU mode without a callback. *)
Definition dfu_client : State := adopted IRECOVERY_K_DFU_MODE None.

(** A client whose device info carries the chip id 0x8003 and the board id
    0x04. *)
Definition identified_client : irecovery_client :=
  set_device_info
    (parse_device_info "CPID:8003 BDID:04" IRECOVERY_K_DFU_MODE)
    (new_client IRECOVERY_CLIENT_DEVICE_POLICY_ACCEPT_ALL 0).

(** A usable client with the accept-only-when-no-current-connection
    policy, and one with the accept-all policy, on a bus where every device
    is a supported one. *)
Definition exclusive_client : State :=
  {| client := set_handle 1%N
                 (set_device_descriptor (descriptor_of IRECOVERY_K_DFU_MODE)
                    (new_client
                       IRECOVERY_CLIENT_DEVICE_POLICY_ACCEPT_ONLY_WHEN_NO_CURRENT_CONNECTION
                       0));
     world := world restricted_client;
     trace := [] |}.

Definition open_client : State :=
  {| client := client no_nonce_client;
     world := world restricted_client;
     trace := [] |}.

(** A client that has adopted device 1 when the bus reports that this
    device was disconnected. *)
Definition unplugged_client : State :=
  {| client := client no_nonce_client;
     world := bus [[USB_DEVICE_DISCONNECTED_EVENT 1%N]]
                  (fun _ => Some IRECOVERY_K_DFU_MODE) (fun _ => None);
     trace := [] |}.

(** A client that never adopted a device, on a quiet bus. *)
Definition idle_client : State :=
  {| client := new_client IRECOVERY_CLIENT_DEVICE_POLICY_ACCEPT_ALL 0;
     world := world restricted_client;
     trace := [] |}.



(** A client in DFU mode whose device answers the state request with the
    error state 10. *)
Definition dfu_error_client : State :=
  {| client := client dfu_client;
     world := {| role := USB_ROLE_HOST; events := [];
                 products := products (world dfu_client);
                 strings := fun _ => None; dfu_state := 10; dfu_status := 5;
                 response := []; transfers_ok := true; memory := true |};
     trace := [] |}.

End Inputs.

(** ** Vocabulary of the properties *)

Section Vocabulary.
Context {W : Type} {USB : UsbStack W} {SCAN : Nsscanf}.

Local Abbreviation State := (@State W).

(** No event is waiting, now or at a later call in the same world. *)
Definition quiet (s : State) : Prop :=
  usb_WaitingEvents (world s) = ([], world s).

(** The test of [irecovery_client_is_usable] on a state. *)
Definition usable (s : State) : bool :=
  negb (handle (client s) =? 0)%N
  && negb (role_is_device (usb_GetRole (world s)))
  && device_zone_nonzero (client s).

(** The setup packet [irecovery_send_command_raw] builds. *)
Definition command_setup (command : string) (b_request : Z) : usb_control_setup_t :=
  {| bmRequestType := 0x40; bRequest := b_request; wValue := 0; wIndex := 0;
     wLength := strlen command + 1 |}.







(** The download chunks of a run: the data of the control transfers
    [0x21, 1] that carry data. *)
Definition download_frame (op : usb_op) : list (list byte) :=
  match op with
  | OpControl _ setup data =>
      if (bmRequestType setup =? 0x21) && (bRequest setup =? 1)
         && negb (Nat.eqb (List.length data) 0)
      then [data] else []
  | _ => []
  end.

Definition download_frames (ops : list usb_op) : list (list byte) :=
  flat_map download_frame ops.

(** The bulk frames sent on endpoint 0x04, zero-length ones included. *)
Definition bulk_frame (op : usb_op) : list (list byte) :=
  match op with
  | OpBulk _ endpoint data => if endpoint =? 0x04 then [data] else []
  | _ => []
  end.

Definition bulk_frames (ops : list usb_op) : list (list byte) :=
  flat_map bulk_frame ops.

(** What a run did after the first progress emission whose callback
    returned a non-zero value. *)
Fixpoint after_cancel (ops : list usb_op) : list usb_op :=
  match ops with
  | [] => []
  | OpProgress _ returned :: rest =>
      if returned =? 0 then after_cancel rest else rest
  | _ :: rest => after_cancel rest
  end.

(** A computation preserves a property of the state. *)
Definition preserves {A} (P : State -> Prop) (m : M A) : Prop :=
  forall s, P s -> P (snd (m s)).

(** The download chunks sent so far are [F]. *)
Definition frames_are (F : list (list byte)) (s : State) : Prop :=
  download_frames (trace s) = F.

(** The bulk frames sent so far are [B]. *)
Definition bulk_are (B : list (list byte)) (s : State) : Prop :=
  bulk_frames (trace s) = B.

(** The frames of the last packet of a DFU upload, for the chunk that is
    left and the CRC of what was sent before: the chunk and the trailer,
    apart when together they exceed the packet size. *)
Definition trailer (h : Z) : list byte := (dfu_xbuf ++ Crc.le32 h)%list.

Definition last_frames (packet_size : Z) (chunk : list byte) (h : Z)
    : list (list byte) :=
  let h' := Crc.crc32_steps (Crc.crc32_steps h chunk) dfu_xbuf in
  if Z.of_nat (List.length chunk) + 16 >? packet_size
  then [chunk; trailer h']
  else [(chunk ++ trailer h')%list].

(** Equality of two rows of the device table, field by field. *)
Definition device_eqb (a b : irecovery_device) : bool :=
  String.eqb (product_type a) (product_type b)
  && String.eqb (hardware_model a) (hardware_model b)
  && (board_id a =? board_id b) && (chip_id a =? chip_id b)
  && String.eqb (display_name a) (display_name b).

(** [d] is the first row of [devices] that [matches] accepts. *)
Definition first_match (matches : irecovery_device -> bool)
    (devices : list irecovery_device) (d : irecovery_device) : Prop :=
  matches d = true
  /\ exists before after,
       devices = (before ++ d :: after)%list
       /\ forall x, In x before -> matches x = false.

(** What adoption keeps true of a client: a device zone that is not all
    zero has a handle, and a client with a handle holds the descriptor of a
    supported device. *)
Definition adoption_sound (c : irecovery_client) : Prop :=
  (device_zone_nonzero c = true -> handle c <> 0%N)
  /\ (handle c <> 0%N -> is_supported_descriptor (device_descriptor c) = true).

(** Every character of a string is an ASCII character (at most 0x7F). *)
Definition all_ascii (s : string) : Prop :=
  forall ch, In ch (list_ascii_of_string s) -> (N_of_ascii ch < 128)%N.

(** The client is not marked finalized. *)
Definition not_finalized (s : State) : Prop := finalized (client s) <= 0.


(** [strlen] on the bytes of a buffer: the bytes before the first NUL. *)
Fixpoint byte_strlen (buffer : list byte) : nat :=
  match buffer with
  | [] => O
  | b :: rest => if Byte.eqb b x00 then O else S (byte_strlen rest)
  end.

End Vocabulary.

(** ** Facts about the CRC *)

Module CrcFacts.
Import Crc.

Lemma byte_val_range (b : byte) : 0 <= byte_val b < 256.
Proof.
  unfold byte_val. pose proof (Byte.to_N_bounded b). lia.
Qed.

(** The table is the table of the reversed polynomial 0xEDB88320. *)
Lemma table_is_EDB88320 :
  forall i, (i < 256)%nat ->
    nth i crc32_lookup_t1 0 = Nat.iter 8 (crc_shift 0xEDB88320) (Z.of_nat i).
Proof.
  assert (H : forallb (fun i => nth i crc32_lookup_t1 0 =?
                Nat.iter 8 (crc_shift 0xEDB88320) (Z.of_nat i)) (seq 0 256) = true)
    by (vm_compute; reflexivity).
  rewrite forallb_forall in H.
  intros i Hi. apply Z.eqb_eq, H, in_seq. lia.
Qed.

(** A shift of the register is linear for XOR. *)
Lemma crc_shift_lxor poly x y :
  crc_shift poly (Z.lxor x y) = Z.lxor (crc_shift poly x) (crc_shift poly y).
Proof.
  unfold crc_shift. rewrite Z.shiftr_lxor, Z.lxor_spec.
  destruct (Z.testbit x 0), (Z.testbit y 0); simpl;
    apply Z.bits_inj'; intros n Hn; rewrite ?Z.lxor_spec, ?Z.bits_0;
    repeat match goal with |- context [Z.testbit ?a ?b] =>
      destruct (Z.testbit a b) end; reflexivity.
Qed.

Lemma iter_crc_shift_lxor poly k x y :
  Nat.iter k (crc_shift poly) (Z.lxor x y)
  = Z.lxor (Nat.iter k (crc_shift poly) x) (Nat.iter k (crc_shift poly) y).
Proof.
  induction k as [|k IH]; simpl; [reflexivity|].
  now rewrite IH, crc_shift_lxor.
Qed.

(** Bits above the low byte only move down while the byte is shifted out. *)
Lemma iter_crc_shift_high poly k y :
  (k <= 8)%nat ->
  Nat.iter k (crc_shift poly) (Z.shiftl y 8) = Z.shiftl y (8 - Z.of_nat k).
Proof.
  induction k as [|k IH]; intros Hk.
  - reflexivity.
  - rewrite Nat.iter_succ, IH by lia.
    unfold crc_shift.
    rewrite Z.shiftl_spec_low by lia.
    rewrite Z.lxor_0_r, Z.shiftr_shiftl_l by lia.
    f_equal. lia.
Qed.

Lemma split_low_byte a :
  a = Z.lxor (Z.land a 0xFF) (Z.shiftl (Z.shiftr a 8) 8).
Proof.
  apply Z.bits_inj'; intros n Hn.
  rewrite Z.lxor_spec, Z.land_spec.
  change 0xFF with (Z.ones 8).
  destruct (Z.lt_ge_cases n 8) as [Hlt|Hge].
  - rewrite Z.ones_spec_low, Z.shiftl_spec_low by lia.
    now rewrite andb_true_r, xorb_false_r.
  - rewrite Z.ones_spec_high, Z.shiftl_spec, Z.shiftr_spec by lia.
    rewrite andb_false_r. simpl. f_equal. lia.
Qed.

Lemma low_byte_index a b :
  0 <= Z.lxor (Z.land a 0xFF) (byte_val b) < 256.
Proof.
  pose proof (byte_val_range b) as Hb.
  assert (Ha : 0 <= Z.land a 0xFF < 256).
  { change 0xFF with (Z.ones 8). rewrite Z.land_ones by lia.
    apply Z.mod_pos_bound. lia. }
  assert (Hnn : 0 <= Z.lxor (Z.land a 0xFF) (byte_val b)).
  { apply Z.lxor_nonneg. split; intros _; lia. }
  split; [exact Hnn|].
  destruct (Z.eq_dec (Z.lxor (Z.land a 0xFF) (byte_val b)) 0) as [->|Hnz]; [lia|].
  apply (Z.log2_lt_pow2 _ 8); [lia|].
  eapply Z.le_lt_trans; [apply Z.log2_lxor; lia|].
  apply Z.max_lub_lt.
  - destruct (Z.eq_dec (Z.land a 0xFF) 0) as [->|]; [simpl; lia|].
    apply Z.log2_lt_pow2; lia.
  - destruct (Z.eq_dec (byte_val b) 0) as [->|]; [simpl; lia|].
    apply Z.log2_lt_pow2; lia.
Qed.

(** The table-driven step is the bit-at-a-time step for 0xEDB88320. *)
Lemma crc32_step_reference a b :
  crc32_step a b = crc_byte 0xEDB88320 a b.
Proof.
  unfold crc32_step, crc_byte.
  pose proof (low_byte_index a b) as Hidx.
  rewrite table_is_EDB88320 by lia.
  rewrite Z2Nat.id by lia.
  assert (E : Z.lxor a (byte_val b)
             = Z.lxor (Z.lxor (Z.land a 0xFF) (byte_val b))
                      (Z.shiftl (Z.shiftr a 8) 8)).
  { rewrite (split_low_byte a) at 1.
    rewrite !Z.lxor_assoc. f_equal. apply Z.lxor_comm. }
  rewrite E.
  rewrite (iter_crc_shift_lxor _ 8 (Z.lxor (Z.land a 0xFF) (byte_val b))).
  rewrite iter_crc_shift_high by lia.
  simpl Z.of_nat. rewrite Z.shiftl_0_r.
  reflexivity.
Qed.

Lemma fold_left_ext {A B} (f g : A -> B -> A) :
  (forall a b, f a b = g a b) -> forall l a, fold_left f l a = fold_left g l a.
Proof.
  intros H l. induction l as [|b l IH]; intros a; cbn [fold_left]; [reflexivity|].
  rewrite H. apply IH.
Qed.

Lemma crc32_steps_reference data h1 :
  crc32_steps h1 data = crc32_reference 0xEDB88320 h1 data.
Proof.
  exact (fold_left_ext crc32_step (crc_byte 0xEDB88320) crc32_step_reference data h1).
Qed.

Lemma crc32_steps_app h1 d1 d2 :
  crc32_steps h1 (d1 ++ d2) = crc32_steps (crc32_steps h1 d1) d2.
Proof. unfold crc32_steps. apply fold_left_app. Qed.

End CrcFacts.

(** ** Basic facts about runs *)

(** Runs one step of a computation in the state monad: the monad operations
    are unfolded and the tests on known values are decided. *)
Ltac mred :=
  cbv beta iota zeta delta [bind ret get_client modify_client log_op call
                            get_role get_world];
  cbn [negb andb orb fst snd client world trace wLength h1 count status bytes error].

Section RunFacts.
Context {W : Type} {USB : UsbStack W} {SCAN : Nsscanf}.

Local Abbreviation State := (@State W).

Lemma state_eta (s : State) :
  {| client := client s; world := world s; trace := trace s |} = s.
Proof. now destruct s. Qed.


Lemma is_usable_now_eq (s : State) : is_usable_now s = (usable s, s).
Proof. reflexivity. Qed.

Lemma HandleEvents_quiet (s : State) : quiet s -> usb_HandleEvents s = (tt, s).
Proof.
  unfold quiet, usb_HandleEvents, bind, call. intros ->. simpl.
  now rewrite state_eta.
Qed.

Lemma is_usable_quiet (s : State) (run : bool) :
  quiet s -> irecovery_client_is_usable run s = (usable s, s).
Proof.
  intros Hq. unfold irecovery_client_is_usable, bind.
  destruct run; [rewrite HandleEvents_quiet by assumption|]; reflexivity.
Qed.

Lemma is_usable_false (s : State) :
  irecovery_client_is_usable false s = (usable s, s).
Proof. reflexivity. Qed.

End RunFacts.

(** ** The command channel *)

Section CommandFacts.
Context {W : Type} {USB : UsbStack W} {SCAN : Nsscanf}.

Local Abbreviation State := (@State W).


Lemma list_byte_of_string_length (s : string) :
  List.length (list_byte_of_string s) = String.length s.
Proof.
  unfold list_byte_of_string. rewrite length_map.
  induction s as [|a s IH]; simpl; [reflexivity|now rewrite IH].
Qed.

Lemma c_bytes_length (command : string) :
  List.length (c_bytes command) = Z.to_nat (strlen command + 1).
Proof.
  unfold c_bytes, strlen.
  rewrite length_app, list_byte_of_string_length. simpl. lia.
Qed.

Lemma send_command_raw_quiet (s : State) (command : string) (b : Z) :
  quiet s -> usable s = true ->
  is_recovery_mode_value (mode (client s)) = true ->
  0 < strlen command < 256 -> 0 <= b < 256 ->
  irecovery_send_command_raw command b s =
    let '(error, transferred, _, w) :=
      usb_ControlTransfer (handle (client s)) (command_setup command b)
                          (c_bytes command) (world s) in
    (if error =? USB_SUCCESS then IRECOVERY_E_SUCCESS
     else IRECOVERY_E_USB_UPLOAD_FAILED,
     {| client := client s; world := w;
        trace := trace s ++ [OpControl (handle (client s)) (command_setup command b)
                                       (c_bytes command)] |}).
Proof.
  intros Hq Hu Hm Hlen Hb.
  unfold irecovery_send_command_raw. mred.
  rewrite is_usable_quiet by assumption. rewrite Hu. mred.
  rewrite Hm. mred.
  destruct (strlen command >=? 256) eqn:E1; [lia|].
  destruct (strlen command >? 0) eqn:E2; [|lia].
  unfold irecovery_usb_control_transfer. mred.
  rewrite is_usable_quiet by assumption. rewrite Hu. mred.
  replace ((strlen command + 1) mod 2 ^ 16) with (strlen command + 1)
    by (rewrite Z.mod_small; lia).
  replace (b mod 2 ^ 8) with b by (rewrite Z.mod_small; lia).
  rewrite <- c_bytes_length, firstn_all.
  change (0x40 mod 2 ^ 8) with 0x40. change (0 mod 2 ^ 16) with 0.
  rewrite c_bytes_length. fold (command_setup command b).
  destruct (usb_ControlTransfer _ _ _ _) as [[[e t] r] w].
  destruct (e =? USB_SUCCESS); mred; [|reflexivity].
  destruct (Z.of_N t <? 0) eqn:E3; [apply Z.ltb_lt in E3; lia|reflexivity].
Qed.

Lemma breq_command_short (command : string) :
  irecovery_is_breq_command command = true -> strlen command <= 7.
Proof.
  unfold irecovery_is_breq_command. intros H.
  repeat (apply orb_true_iff in H; destruct H as [H|H]);
    apply String.eqb_eq in H; subst command; unfold strlen; simpl; lia.
Qed.

Lemma send_command_not_recovery (s : State) (command : string) :
  quiet s -> usable s = true ->
  is_recovery_mode_value (mode (client s)) = false ->
  irecovery_send_command (Some command) s = (IRECOVERY_E_SERVICE_NOT_AVAILABLE, s).
Proof.
  intros Hq Hu Hm. unfold irecovery_send_command, irecovery_send_command_breq. mred.
  rewrite is_usable_quiet by assumption. rewrite Hu. mred.
  rewrite Hm. reflexivity.
Qed.

Lemma send_command_too_long (s : State) (command : string) :
  quiet s -> usable s = true ->
  is_recovery_mode_value (mode (client s)) = true ->
  256 <= strlen command ->
  irecovery_send_command (Some command) s = (IRECOVERY_E_COMMAND_TOO_LONG, s).
Proof.
  intros Hq Hu Hm Hlen. unfold irecovery_send_command, irecovery_send_command_breq. mred.
  rewrite is_usable_quiet by assumption. rewrite Hu. mred.
  rewrite Hm. mred.
  destruct (strlen command >=? 256) eqn:E; [reflexivity|lia].
Qed.

Lemma send_command_empty (s : State) (command : string) :
  quiet s -> usable s = true ->
  is_recovery_mode_value (mode (client s)) = true ->
  strlen command = 0 ->
  irecovery_send_command (Some command) s = (IRECOVERY_E_NO_COMMAND, s).
Proof.
  intros Hq Hu Hm Hlen.
  unfold irecovery_send_command, irecovery_send_command_breq. mred.
  rewrite is_usable_quiet by assumption. rewrite Hu. mred.
  rewrite Hm. mred. rewrite Hlen. change (0 >=? 256) with false. mred.
  unfold irecovery_send_command_raw. mred.
  rewrite is_usable_quiet by assumption. rewrite Hu. mred.
  rewrite Hm. mred. rewrite Hlen. reflexivity.
Qed.

Lemma send_command_sends (s : State) (command : string) :
  quiet s -> usable s = true ->
  is_recovery_mode_value (mode (client s)) = true ->
  0 < strlen command < 256 ->
  irecovery_send_command (Some command) s =
    irecovery_send_command_raw command
      (if irecovery_is_breq_command command then 1 else 0) s.
Proof.
  intros Hq Hu Hm Hlen.
  unfold irecovery_send_command, irecovery_send_command_breq. mred.
  rewrite is_usable_quiet by assumption. rewrite Hu. mred.
  rewrite Hm. mred.
  destruct (strlen command >=? 256) eqn:E; [lia|reflexivity].
Qed.

(** C8: for a usable client on which no event is waiting, in one of the four
    recovery modes a command of exactly 255 characters is sent with its NUL
    terminator (wLength = 256) and succeeds when the transfer succeeds, a
    command of 256 characters or more fails with command-too-long and an
    empty command fails with no-command; in any other mode the call fails
    with service-not-available. *)
Theorem send_command_boundaries (s : State) (command : string) :
  quiet s -> usable s = true ->
  (is_recovery_mode_value (mode (client s)) = true ->
     (strlen command = 255 ->
      forall transferred received w,
        usb_ControlTransfer (handle (client s)) (command_setup command 0)
                            (c_bytes command) (world s)
          = (USB_SUCCESS, transferred, received, w) ->
        wLength (command_setup command 0) = 256 /\
        irecovery_send_command (Some command) s =
          (IRECOVERY_E_SUCCESS,
           {| client := client s; world := w;
              trace := trace s ++ [OpControl (handle (client s))
                                             (command_setup command 0)
                                             (c_bytes command)] |}))
     /\ (256 <= strlen command ->
         irecovery_send_command (Some command) s = (IRECOVERY_E_COMMAND_TOO_LONG, s))
     /\ (strlen command = 0 ->
         irecovery_send_command (Some command) s = (IRECOVERY_E_NO_COMMAND, s)))
  /\ (is_recovery_mode_value (mode (client s)) = false ->
      irecovery_send_command (Some command) s = (IRECOVERY_E_SERVICE_NOT_AVAILABLE, s)).
Proof.
  intros Hq Hu. split.
  - intros Hm. repeat split.
    + simpl. lia.
    + rewrite send_command_sends by (assumption || lia).
      destruct (irecovery_is_breq_command command) eqn:Hb.
      { apply breq_command_short in Hb. lia. }
      rewrite send_command_raw_quiet by (assumption || lia).
      rewrite H0. reflexivity.
    + now apply send_command_too_long.
    + now apply send_command_empty.
  - now apply send_command_not_recovery.
Qed.

End CommandFacts.

Lemma send_command_boundaries_witness :
  irecovery_send_command (Some Inputs.command_255) Inputs.recovery_client =
    (IRECOVERY_E_SUCCESS,
     {| client := client Inputs.recovery_client;
        world := world Inputs.recovery_client;
        trace := [OpControl 1%N (command_setup Inputs.command_255 0)
                            (c_bytes Inputs.command_255)] |}).
Proof.
  assert (Hq : quiet Inputs.recovery_client) by reflexivity.
  assert (Hu : usable Inputs.recovery_client = true) by reflexivity.
  destruct (send_command_boundaries Inputs.recovery_client Inputs.command_255
              Hq Hu) as [Hrecovery _].
  destruct (Hrecovery eq_refl) as [Hsend _].
  apply (Hsend eq_refl 256%N [] (world Inputs.recovery_client)).
  reflexivity.
Defined.

(** ** Environment variables *)

Section GetenvFacts.
Context {W : Type} {USB : UsbStack W} {SCAN : Nsscanf}.

Local Abbreviation State := (@State W).

(** A control transfer hands back at most [wLength] bytes. *)
Lemma control_transfer_received (bm b wv wi : Z) (data : list byte) (wl : Z)
    (s s' : State) (r : Z) (received : list byte) :
  irecovery_usb_control_transfer bm b wv wi data wl s = (r, received, s') ->
  (List.length received <= Z.to_nat (wl mod 2 ^ 16))%nat.
Proof.
  unfold irecovery_usb_control_transfer. mred.
  destruct (irecovery_client_is_usable true s) as [u s1].
  destruct u; mred.
  - destruct (usb_ControlTransfer _ _ _ _) as [[[e t] rec] w].
    destruct (e =? USB_SUCCESS); mred; intros [= <- <- <-]; simpl; [|lia].
    rewrite length_firstn. lia.
  - intros [= <- <- <-]. simpl. lia.
Qed.

Lemma byte_strlen_app_zeros (received : list byte) (n : nat) :
  (byte_strlen (received ++ zeros n)%list <= List.length received)%nat.
Proof.
  induction received as [|b received IH]; simpl.
  - destruct n; simpl; lia.
  - destruct (Byte.eqb b x00); lia.
Qed.

(** C10: a call of [irecovery_getenv] whose out-parameter points to a
    non-NULL value fails with the bad-pointer error; on success the
    out-parameter, which held NULL, receives a 256-byte buffer whose last
    byte is NUL and whose string is at most 255 bytes long; on every error
    the out-parameter is left as it was. *)
Theorem getenv_out_parameter (variable : option string)
    (value value' : option (option (list byte))) (s s' : State) (r : Z) :
  irecovery_getenv variable value s = (r, value', s') ->
  (forall b, value = Some (Some b) -> r = IRECOVERY_E_BAD_PTR)
  /\ (r = IRECOVERY_E_SUCCESS ->
      value = Some None /\
      exists buffer, value' = Some (Some buffer)
        /\ List.length buffer = 256%nat
        /\ nth 255 buffer x00 = x00
        /\ (byte_strlen buffer <= 255)%nat)
  /\ (r <> IRECOVERY_E_SUCCESS -> value' = value).
Proof.
  unfold irecovery_getenv.
  destruct variable as [variable|]; destruct value as [[b|]|]; mred;
    try (intros [= <- <- <-]; split; [|split];
         [ intros b' Hb'; first [reflexivity | discriminate Hb']
         | intros Hx; discriminate Hx
         | intros _; reflexivity ]).
  destruct (irecovery_send_command_raw _ 0 s) as [e s1].
  destruct (e =? IRECOVERY_E_SUCCESS) eqn:He; mred.
  2:{ intros [= <- <- <-]. split; [|split].
      - intros b' Hb'. discriminate Hb'.
      - intros ->. discriminate He.
      - reflexivity. }
  destruct (malloc (world s1)) as [allocated w2].
  destruct allocated; mred.
  2:{ intros [= <- <- <-]. split; [|split].
      - intros b' Hb'. discriminate Hb'.
      - intros Hx. discriminate Hx.
      - reflexivity. }
  match goal with |- context [irecovery_usb_control_transfer ?a ?b ?c ?d ?e ?f ?st] =>
    destruct (irecovery_usb_control_transfer a b c d e f st) as [[r0 received] s3] eqn:Hct
  end.
  apply control_transfer_received in Hct. change ((256 - 1) mod 2 ^ 16) with 255 in Hct.
  change (Z.to_nat 255) with 255%nat in Hct.
  destruct (r0 <? 0) eqn:Hr; mred; intros [= <- <- <-]; (split; [|split]).
  - intros b' Hb'. discriminate Hb'.
  - apply Z.ltb_lt in Hr. intros ->. unfold IRECOVERY_E_SUCCESS in Hr. lia.
  - reflexivity.
  - intros b' Hb'. discriminate Hb'.
  - intros _. split; [reflexivity|].
    exists (received ++ zeros (256 - List.length received))%list. repeat split.
    + rewrite length_app. unfold zeros. rewrite repeat_length. lia.
    + rewrite app_nth2 by lia. unfold zeros. apply nth_repeat.
    + pose proof (byte_strlen_app_zeros received (256 - List.length received)). lia.
  - intros Hx. now contradiction Hx.
Qed.

End GetenvFacts.

Lemma getenv_out_parameter_witness :
  exists buffer,
    fst (fst (irecovery_getenv (Some "bootdelay") (Some None) Inputs.console_client))
      = IRECOVERY_E_SUCCESS
    /\ snd (fst (irecovery_getenv (Some "bootdelay") (Some None) Inputs.console_client))
        = Some (Some buffer)
    /\ nth 255 buffer x00 = x00.
Proof.
  destruct (irecovery_getenv (Some "bootdelay") (Some None) Inputs.console_client)
    as [[r value'] s'] eqn:Hrun.
  assert (Hr : r = IRECOVERY_E_SUCCESS).
  { vm_compute in Hrun. now inversion Hrun. }
  destruct (getenv_out_parameter _ _ _ _ _ _ Hrun) as (_ & Hok & _).
  destruct (Hok Hr) as (_ & buffer & Hv & _ & Hnul & _).
  exists buffer. simpl. auto.
Defined.

(** ** The identity parser *)

Section StringFacts.

Lemma append_nil_r (s : string) : s ++ "" = s.
Proof. induction s as [|a s IH]; simpl; [reflexivity|now rewrite IH]. Qed.

Lemma append_assoc (a b c : string) : (a ++ b) ++ c = a ++ b ++ c.
Proof. induction a as [|x a IH]; simpl; [reflexivity|now rewrite IH]. Qed.









End StringFacts.

Section ParserFacts.
Context {SCAN : Nsscanf}.





End ParserFacts.


(** The hex fields other than the ECID are unsigned ints, three bytes wide:
    a BDID of seven hex digits loses its top digit. *)
Example bdid_narrowed_to_unsigned_int :
  bdid (parse_device_info "BDID:1000004" IRECOVERY_K_DFU_MODE) = 4
  /\ ecid (parse_device_info "ECID:1000004" IRECOVERY_K_DFU_MODE) = 0x1000004.
Proof. vm_compute. split; reflexivity. Qed.

(** ** What event handling preserves *)

Section Invariants.
Context {W : Type} {USB : UsbStack W} {SCAN : Nsscanf}.

Local Abbreviation State := (@State W).

Lemma preserves_ret {A} (P : State -> Prop) (a : A) : preserves P (ret a).
Proof. intros s H. exact H. Qed.

Lemma preserves_bind {A B} (P : State -> Prop) (m : M A) (k : A -> M B) :
  preserves P m -> (forall a, preserves P (k a)) -> preserves P (bind m k).
Proof.
  intros Hm Hk s H. unfold bind. specialize (Hm s H).
  destruct (m s) as [a s1]. apply Hk, Hm.
Qed.

Lemma preserves_get_client (P : State -> Prop) : preserves P get_client.
Proof. intros s H. exact H. Qed.

Lemma preserves_get_role (P : State -> Prop) : preserves P get_role.
Proof. intros s H. exact H. Qed.

Lemma preserves_get_world (P : State -> Prop) : preserves P get_world.
Proof. intros s H. exact H. Qed.

End Invariants.

(** Goes through a computation, one bind and one case at a time; the
    leaves are closed from the hint database and the context. *)
Create HintDb preserves.

Ltac preserves_step :=
  first
    [ apply preserves_ret | apply preserves_get_client | apply preserves_get_role
    | apply preserves_get_world
    | solve [auto 2 with preserves]
    | apply preserves_bind; [|intros ?]
    | match goal with
      | |- preserves _ (if ?b then _ else _) => destruct b
      | |- preserves _ (match ?x with _ => _ end) => destruct x
      end ].

Section EventHandling.
Context {W : Type} {USB : UsbStack W} {SCAN : Nsscanf}.

Local Abbreviation State := (@State W).

Section Property.

(** A property that does not depend on the world, that the three writes of
    the event handler keep, and that the two operations the handler logs
    keep. *)
Variable P : State -> Prop.

Hypothesis P_world : forall c w w' t,
  P {| client := c; world := w; trace := t |} ->
  P {| client := c; world := w'; trace := t |}.

Hypothesis P_clear : forall c w t,
  P {| client := c; world := w; trace := t |} ->
  P {| client := irecovery_client_clear_device_zone c; world := w; trace := t |}.

Hypothesis P_handle : forall h c w t,
  P {| client := c; world := w; trace := t |} ->
  P {| client := set_handle h c; world := w; trace := t |}.

Hypothesis P_descriptor : forall d c w t,
  P {| client := c; world := w; trace := t |} ->
  P {| client := set_device_descriptor d c; world := w; trace := t |}.

Hypothesis P_reset : forall d c w t,
  P {| client := c; world := w; trace := t |} ->
  P {| client := c; world := w; trace := t ++ [OpReset d] |}.

Hypothesis P_get_descriptor : forall d c w t,
  P {| client := c; world := w; trace := t |} ->
  P {| client := c; world := w; trace := t ++ [OpGetDescriptor d] |}.

Lemma preserves_call {A} (f : W -> A * W) : preserves P (call f).
Proof.
  intros [c w t] H. unfold call. simpl.
  destruct (f w) as [a w']. simpl. eapply P_world, H.
Qed.

Lemma preserves_clear : preserves P (modify_client irecovery_client_clear_device_zone).
Proof. intros [c w t] H. apply P_clear, H. Qed.

Lemma preserves_set_handle (h : usb_device_t) :
  preserves P (modify_client (set_handle h)).
Proof. intros [c w t] H. apply P_handle, H. Qed.

Lemma preserves_set_descriptor (d : usb_device_descriptor_t) :
  preserves P (modify_client (set_device_descriptor d)).
Proof. intros [c w t] H. apply P_descriptor, H. Qed.

Lemma preserves_log_reset (d : usb_device_t) : preserves P (log_op (OpReset d)).
Proof. intros [c w t] H. apply P_reset, H. Qed.

Lemma preserves_log_get_descriptor (d : usb_device_t) :
  preserves P (log_op (OpGetDescriptor d)).
Proof. intros [c w t] H. apply P_get_descriptor, H. Qed.

Hint Resolve preserves_call preserves_clear preserves_set_handle
  preserves_set_descriptor preserves_log_reset preserves_log_get_descriptor
  : preserves.

Lemma preserves_device_is_supported (d : usb_device_t) :
  preserves P (irecovery_device_is_supported d).
Proof. unfold irecovery_device_is_supported. repeat preserves_step. Qed.

Lemma preserves_is_usable_now : preserves P is_usable_now.
Proof. unfold is_usable_now. repeat preserves_step. Qed.

Lemma preserves_event_handler (event : usb_event_t) :
  preserves P (usb_event_handler event).
Proof.
  pose proof preserves_device_is_supported. pose proof preserves_is_usable_now.
  unfold usb_event_handler, usb_reset_device. repeat preserves_step; auto.
Qed.

Lemma preserves_dispatch_events (events : list usb_event_t) :
  preserves P (dispatch_events events).
Proof.
  induction events as [|event events IH]; cbn [dispatch_events].
  - apply preserves_ret.
  - apply preserves_bind; [apply preserves_event_handler|intros _; exact IH].
Qed.

Lemma preserves_HandleEvents : preserves P usb_HandleEvents.
Proof.
  unfold usb_HandleEvents. apply preserves_bind; [apply preserves_call|].
  intros events. apply preserves_dispatch_events.
Qed.

Lemma preserves_is_usable (run : bool) : preserves P (irecovery_client_is_usable run).
Proof.
  pose proof preserves_HandleEvents. pose proof preserves_is_usable_now.
  unfold irecovery_client_is_usable. repeat preserves_step.
Qed.

End Property.

(** The connection counter is such a property: a client keeps the count 0
    it is created with, so the one-connection guard never sees 1. *)
Lemma HandleEvents_static (s : State) :
  num_connections (client (snd (usb_HandleEvents s))) = num_connections (client s).
Proof.
  apply (preserves_HandleEvents
           (fun s' => num_connections (client s') = num_connections (client s)));
    try (intros; assumption); try reflexivity.
  intros c w t H. cbn [client] in *.
  unfold irecovery_client_clear_device_zone.
  now destruct (negb (device_zone_nonzero c)).
Qed.

(** So is a finalization flag that is not positive. *)
Lemma is_usable_not_finalized (run : bool) (s : State) :
  finalized (client s) <= 0 ->
  finalized (client (snd (irecovery_client_is_usable run s))) <= 0.
Proof.
  apply (preserves_is_usable (fun s' => finalized (client s') <= 0));
    try (intros; assumption).
  intros c w t H. cbn [client] in *.
  unfold irecovery_client_clear_device_zone.
  destruct (negb (device_zone_nonzero c)); [assumption|simpl; lia].
Qed.

End EventHandling.

(** ** Finalization *)

Section FinalizeFacts.
Context {W : Type} {USB : UsbStack W} {SCAN : Nsscanf}.

Local Abbreviation State := (@State W).

Lemma not_finalized_is_usable (run : bool) :
  preserves not_finalized (irecovery_client_is_usable run).
Proof. intros s. apply is_usable_not_finalized. Qed.

Lemma not_finalized_call {A} (f : W -> A * W) : preserves not_finalized (call f).
Proof. intros [c w t] H. unfold call. simpl. now destruct (f w). Qed.

Lemma not_finalized_log_op (op : usb_op) :
  preserves (W:=W) not_finalized (log_op op).
Proof. intros s H. exact H. Qed.

Hint Resolve not_finalized_is_usable not_finalized_call not_finalized_log_op
  : preserves.

Lemma not_finalized_string_descriptor (index size : Z) :
  preserves not_finalized (irecovery_get_string_descriptor_ascii index size).
Proof. unfold irecovery_get_string_descriptor_ascii. repeat preserves_step. Qed.

Lemma not_finalized_set_configuration (configuration : Z) :
  preserves not_finalized (irecovery_usb_set_configuration configuration).
Proof.
  unfold irecovery_usb_set_configuration,
    irecovery_get_total_configuration_descriptor.
  repeat preserves_step.
Qed.

(** Steps 1 to 4 abort: a return before the nonces gives an error and does
    not mark the client finalized. *)
Lemma finalize_until_configured_aborts (s s' : State) (e : Z) :
  finalized (client s) = 0 ->
  finalize_until_configured s = (Some e, s') ->
  e <> IRECOVERY_E_SUCCESS /\ finalized (client s') <= 0.
Proof.
  intros Hf. unfold finalize_until_configured. mred.
  rewrite is_usable_false. mred.
  destruct (usable s); mred; [|intros [= <- <-]; split; [discriminate|lia]].
  rewrite Hf. mred. change (0 >? 0) with false. change (0 <? 0) with false. mred.
  match goal with |- context [irecovery_get_string_descriptor_ascii ?i ?n s] =>
    pose proof (not_finalized_string_descriptor i n s) as H1;
    destruct (irecovery_get_string_descriptor_ascii i n s) as [[r serial] s1]
  end.
  unfold not_finalized in H1. rewrite Hf in H1. specialize (H1 (Z.le_refl 0)).
  cbn [snd] in H1.
  destruct (r <? 0) eqn:Hr; mred.
  { intros [= <- <-]. apply Z.ltb_lt in Hr. split; [|assumption].
    unfold IRECOVERY_E_SUCCESS. lia. }
  match goal with |- context [if ?b then _ else _] => destruct b end; mred.
  { intros [= <- <-]. split; [discriminate|]. simpl. lia. }
  match goal with |- context [irecovery_usb_set_configuration 1 ?st] =>
    pose proof (not_finalized_set_configuration 1 st) as H2;
    destruct (irecovery_usb_set_configuration 1 st) as [error s2]
  end.
  destruct (error =? IRECOVERY_E_SUCCESS) eqn:He; mred; [discriminate|].
  intros [= <- <-]. split; [|simpl; lia].
  intros ->. discriminate He.
Qed.

(** Steps 5 and 6 do not: whatever the two nonce fetches do, the client is
    marked finalized and the call succeeds. *)
Lemma finalize_nonces_succeeds (s : State) :
  fst (finalize_nonces s) = IRECOVERY_E_SUCCESS
  /\ finalized (client (snd (finalize_nonces s))) = 1.
Proof.
  unfold finalize_nonces. mred.
  destruct (irecovery_copy_nonce_with_tag _ ap_nonce set_ap_nonce s) as [[] s1].
  destruct (irecovery_copy_nonce_with_tag _ sep_nonce set_sep_nonce s1) as [[] s2].
  split; reflexivity.
Qed.

(** C9 (amended): the steps of finalization up to the selection of the
    configuration abort on their first error, with an error code and without
    marking the client finalized: a client that is not usable gives
    no-device; a failed read of the identity string gives its error; an
    ECID that does not match the restriction gives the mismatch error and
    blocks the client; a failed selection of the configuration gives its
    error and blocks the client.  The fetch of the nonces does not abort:
    once the configuration is selected the call succeeds and the client is
    marked finalized, whatever the two nonce fetches did. *)
Theorem finalization_nonces_best_effort (s : State) :
  finalized (client s) = 0 ->
  let read := irecovery_get_string_descriptor_ascii
                (iSerialNumber (device_descriptor (client s))) (256 - 1) s in
  let r := fst (fst read) in
  let serial_str := match snd (fst read) with Some str => str | None => EmptyString end in
  let s1 := snd read in
  let s2 := {| client := irecovery_load_device_info_from_iboot_string (client s1)
                           serial_str;
               world := world s1; trace := trace s1 |} in
  let mismatch := negb (ecid_restriction (client s2) =? 0)
                  && negb (ecid_restriction (client s2)
                           =? ecid (device_info (client s2))) in
  let configured := irecovery_usb_set_configuration 1 s2 in
  let s3 := snd configured in
  let blocked := fun st : State =>
    {| client := set_finalized (-1) (client st);
       world := world st; trace := trace st |} in
  let s5 := snd (irecovery_copy_nonce_with_tag "SNON" sep_nonce set_sep_nonce
                   (snd (irecovery_copy_nonce_with_tag "NONC" ap_nonce set_ap_nonce
                           s3))) in
  (usable s = false ->
     irecovery_finalize_client s = (IRECOVERY_E_NO_DEVICE, s))
  /\ (usable s = true -> r < 0 ->
      irecovery_finalize_client s = (r, s1) /\ finalized (client s1) <= 0)
  /\ (usable s = true -> 0 <= r -> mismatch = true ->
      irecovery_finalize_client s = (IRECOVERY_E_ECID_MISMATCH, blocked s2))
  /\ (usable s = true -> 0 <= r -> mismatch = false ->
      fst configured <> IRECOVERY_E_SUCCESS ->
      irecovery_finalize_client s = (fst configured, blocked s3))
  /\ (usable s = true -> 0 <= r -> mismatch = false ->
      fst configured = IRECOVERY_E_SUCCESS ->
      irecovery_finalize_client s
      = (IRECOVERY_E_SUCCESS,
         {| client := set_finalized 1 (client s5);
            world := world s5; trace := trace s5 |})).
Proof.
  intros Hf. cbv zeta.
  pose proof (not_finalized_string_descriptor
                (iSerialNumber (device_descriptor (client s))) (256 - 1) s) as Hkeep.
  unfold not_finalized in Hkeep. rewrite Hf in Hkeep.
  specialize (Hkeep (Z.le_refl 0)).
  unfold irecovery_finalize_client, finalize_until_configured, finalize_nonces.
  mred. rewrite is_usable_false. mred.
  destruct (usable s); mred;
    [|split; [reflexivity|]; repeat split; discriminate].
  split; [discriminate|].
  rewrite Hf. change (0 >? 0) with false. change (0 <? 0) with false. mred.
  destruct (irecovery_get_string_descriptor_ascii _ _ s) as [[r serial] s1].
  cbn [fst snd] in *.
  destruct (r <? 0) eqn:Hr; mred.
  { apply Z.ltb_lt in Hr. split; [intros _ _; split; [reflexivity|exact Hkeep]|].
    repeat split; intros; lia. }
  apply Z.ltb_ge in Hr. split; [intros; lia|].
  match goal with |- context [negb ?a && negb ?b] =>
    destruct (negb a && negb b) eqn:Hmismatch end; mred.
  { split; [intros _ _ _; reflexivity|]. split; discriminate. }
  split; [discriminate|].
  match goal with |- context [irecovery_usb_set_configuration 1 ?st] =>
    destruct (irecovery_usb_set_configuration 1 st) as [error s3]
  end.
  cbn [fst snd].
  destruct (error =? IRECOVERY_E_SUCCESS) eqn:He; mred.
  - apply Z.eqb_eq in He. subst error.
    split; [intros _ _ _ H; now contradiction H|]. intros _ _ _ _.
    destruct (irecovery_copy_nonce_with_tag "NONC" ap_nonce set_ap_nonce s3)
      as [[] s4].
    cbn [snd].
    destruct (irecovery_copy_nonce_with_tag "SNON" sep_nonce set_sep_nonce s4)
      as [[] s5].
    reflexivity.
  - apply Z.eqb_neq in He.
    split; [intros _ _ _ _; reflexivity|]. intros _ _ _ H. now contradiction He.
Qed.




End FinalizeFacts.



(** C9, as stated, fails: the device has no string descriptor 1, so the
    fetch of step 5 fails for both nonces, and finalization still returns
    success and marks the client finalized. *)
Lemma nonce_failure_not_abortive :
  let configured := snd (finalize_until_configured Inputs.no_nonce_client) in
  let run := irecovery_finalize_client Inputs.no_nonce_client in
  fst (finalize_until_configured Inputs.no_nonce_client) = None
  /\ fst (irecovery_get_string_descriptor_ascii 1 (256 - 1) configured)
      = (IRECOVERY_E_DESCRIPTOR_FETCH_FAILED, None)
  /\ fst run = IRECOVERY_E_SUCCESS
  /\ finalized (client (snd run)) = 1
  /\ ap_nonce (device_info (client (snd run))) = None
  /\ sep_nonce (device_info (client (snd run))) = None.
Proof. vm_compute. repeat split. Qed.

Lemma finalization_nonces_best_effort_witness :
  fst (irecovery_finalize_client Inputs.no_nonce_client) = IRECOVERY_E_SUCCESS
  /\ finalized (client (snd (irecovery_finalize_client Inputs.no_nonce_client))) = 1.
Proof.
  assert (Hf : finalized (client Inputs.no_nonce_client) = 0) by reflexivity.
  assert (Hu : usable Inputs.no_nonce_client = true) by reflexivity.
  destruct (finalization_nonces_best_effort Inputs.no_nonce_client Hf)
    as (_ & _ & _ & _ & Hnonces).
  rewrite (Hnonces Hu ltac:(vm_compute; discriminate) eq_refl eq_refl).
  split; reflexivity.
Defined.

(** ** The download chunks of a run *)

Section FrameFacts.
Context {W : Type} {USB : UsbStack W} {SCAN : Nsscanf}.

Local Abbreviation State := (@State W).

Lemma bind_inv {A B} (m : M A) (k : A -> M B) (s s' : State) (b : B) :
  bind m k s = (b, s') -> exists a s1, m s = (a, s1) /\ k a s1 = (b, s').
Proof.
  unfold bind. destruct (m s) as [a s1]. intros H. now exists a, s1.
Qed.

Lemma download_frames_app (t1 t2 : list usb_op) :
  download_frames (t1 ++ t2) = (download_frames t1 ++ download_frames t2)%list.
Proof. unfold download_frames. apply flat_map_app. Qed.

Lemma download_frames_quiet (t : list usb_op) (op : usb_op) :
  download_frame op = [] -> download_frames (t ++ [op]) = download_frames t.
Proof.
  intros H. rewrite download_frames_app. unfold download_frames at 2. simpl.
  rewrite H. now rewrite !app_nil_r.
Qed.

Variable F : list (list byte).

Lemma frames_call {A} (f : W -> A * W) : preserves (W:=W) (frames_are F) (call f).
Proof. intros [c w t] H. unfold call. simpl. now destruct (f w). Qed.

Lemma frames_modify_client (f : irecovery_client -> irecovery_client) :
  preserves (W:=W) (frames_are F) (modify_client f).
Proof. intros s H. exact H. Qed.

Lemma frames_log_op (op : usb_op) :
  download_frame op = [] -> preserves (W:=W) (frames_are F) (log_op op).
Proof.
  intros Hop s H. unfold frames_are, log_op in *. simpl.
  now rewrite download_frames_quiet.
Qed.

Lemma frames_is_usable (run : bool) :
  preserves (W:=W) (frames_are F) (irecovery_client_is_usable run).
Proof.
  apply preserves_is_usable; try (intros; assumption);
    intros d c w t H; unfold frames_are in *; cbn [trace] in *;
    now rewrite download_frames_quiet.
Qed.

Hint Resolve frames_call frames_modify_client frames_is_usable : preserves.

(** A control transfer that is not a download chunk with data. *)
Lemma frames_control_other (bm b wv wi : Z) (data : list byte) (wl : Z) :
  (bm mod 2 ^ 8 =? 0x21) && (b mod 2 ^ 8 =? 1)
    && negb (Nat.eqb (List.length (firstn (Z.to_nat (wl mod 2 ^ 16)) data)) 0) = false ->
  preserves (W:=W) (frames_are F) (irecovery_usb_control_transfer bm b wv wi data wl).
Proof.
  intros Hno. unfold irecovery_usb_control_transfer.
  repeat preserves_step.
  apply frames_log_op. cbn [download_frame bmRequestType bRequest wLength].
  now rewrite Hno.
Qed.

Lemma frames_get_status : preserves (W:=W) (frames_are F) irecovery_get_status.
Proof.
  pose proof (frames_control_other 0xA1 3 0 0 (zeros 6) 6 eq_refl).
  unfold irecovery_get_status. repeat preserves_step.
Qed.

Hint Resolve frames_get_status : preserves.

Lemma frames_poll_status (retries : nat) : forall status,
  preserves (W:=W) (frames_are F) (poll_status retries status).
Proof.
  induction retries as [|retries IH]; intros status; cbn [poll_status].
  - apply preserves_ret.
  - pose proof (frames_log_op (OpSleep 1) eq_refl). repeat preserves_step.
Qed.

Lemma frames_emit_progress (count length : Z) :
  preserves (W:=W) (frames_are F) (emit_progress count length).
Proof.
  unfold emit_progress. repeat preserves_step.
  apply frames_log_op. reflexivity.
Qed.

Lemma frames_finish_status (rounds : nat) :
  preserves (W:=W) (frames_are F) (finish_status rounds).
Proof.
  induction rounds as [|rounds IH]; cbn [finish_status]; repeat preserves_step.
Qed.

Lemma frames_initiate_dfu : preserves (W:=W) (frames_are F) (initiate_transfer false).
Proof.
  pose proof (frames_control_other 0xa1 5 0 0 (zeros 1) 1 eq_refl).
  pose proof (frames_control_other 0x21 4 0 0 [] 0 eq_refl).
  pose proof (frames_control_other 0x21 6 0 0 [] 0 eq_refl).
  unfold initiate_transfer. repeat preserves_step.
Qed.

Lemma frames_reset_device (d : usb_device_t) :
  preserves (W:=W) (frames_are F) (usb_reset_device d).
Proof.
  pose proof (frames_log_op (OpReset d) eq_refl).
  unfold usb_reset_device. repeat preserves_step.
Qed.

End FrameFacts.

(** ** The DFU upload *)

Section UploadFacts.
Context {W : Type} {USB : UsbStack W} {SCAN : Nsscanf}.

Local Abbreviation State := (@State W).

Lemma trailer_frame_length (chunk : list byte) (size h : Z) :
  0 <= size <= Z.of_nat (List.length chunk) ->
  Z.of_nat (List.length (trailer_frame chunk size h)) = size + 16.
Proof.
  intros Hsize. unfold trailer_frame.
  rewrite length_app.
  change (List.length (dfu_xbuf ++ Crc.le32 h)) with 16%nat.
  destruct (size >? 0) eqn:E.
  - rewrite length_firstn. lia.
  - simpl. lia.
Qed.

(** The CRC is never computed in this section. *)
Local Opaque Crc.crc32_steps Crc.le32.

Lemma frames_stable {A} (m : M A) (s s' : State) (a : A) :
  (forall F, preserves (frames_are F) m) -> m s = (a, s') ->
  download_frames (trace s') = download_frames (trace s).
Proof.
  intros Hm Hrun. specialize (Hm (download_frames (trace s)) s eq_refl).
  now rewrite Hrun in Hm.
Qed.

(** A download chunk that was transferred is in the trace. *)
Lemma control_transfer_sent (wv wi : Z) (data received : list byte) (wl r : Z)
    (s s' : State) :
  irecovery_usb_control_transfer 0x21 1 wv wi data wl s = (r, received, s') ->
  0 <= r -> wl = Z.of_nat (List.length data) -> 0 < wl < 2 ^ 16 ->
  download_frames (trace s') = (download_frames (trace s) ++ [data])%list.
Proof.
  intros Hrun Hr Hwl Hrange. unfold irecovery_usb_control_transfer in Hrun.
  apply bind_inv in Hrun as (u & s0 & Hu & Hrun).
  apply (frames_stable _ _ _ _ (fun F => frames_is_usable F true)) in Hu.
  destruct u; cbn [negb] in Hrun.
  2:{ injection Hrun as <- _ _. unfold IRECOVERY_E_NO_DEVICE in Hr. lia. }
  revert Hrun. mred.
  replace (wl mod 2 ^ 16) with wl by (rewrite Z.mod_small; lia).
  rewrite Hwl, Nat2Z.id, firstn_all.
  destruct (usb_ControlTransfer _ _ _ _) as [[[e t] rec] w].
  destruct (e =? USB_SUCCESS); mred; intros [= <- <- <-];
    [|unfold IRECOVERY_E_USB_UPLOAD_FAILED in Hr; lia].
  cbn [trace]. rewrite download_frames_app, Hu. f_equal.
  unfold download_frames. cbn [flat_map download_frame bmRequestType bRequest].
  change (0x21 mod 2 ^ 8 =? 0x21) with true. change (1 mod 2 ^ 8 =? 1) with true.
  destruct data as [|b data]; [simpl in Hwl; lia|]. reflexivity.
Qed.

(** The transfer of one DFU packet that the loop accepts. *)
Lemma transfer_packet_dfu (buffer : list byte) (ps packets i size : Z)
    (v v' : upload_vars) (size' : Z) (s s' : State) :
  transfer_packet false buffer ps packets i size v s = (inr (v', size'), s') ->
  bytes v' = size' ->
  Z.of_nat (List.length (slice buffer (i * ps) size)) = size ->
  0 < size <= ps -> ps + 16 < 2 ^ 16 ->
  let chunk := slice buffer (i * ps) size in
  download_frames (trace s')
    = (download_frames (trace s)
       ++ (if i + 1 =? packets then last_frames ps chunk (h1 v) else [chunk]))%list
  /\ h1 v' = (if i + 1 =? packets
              then Crc.crc32_steps (Crc.crc32_steps (h1 v) chunk) dfu_xbuf
              else Crc.crc32_steps (h1 v) chunk).
Proof.
  intros Hrun Hbytes Hlen Hsize Hps chunk.
  unfold transfer_packet in Hrun. cbv zeta in Hrun. fold chunk in Hrun.
  fold chunk in Hlen.
  destruct (i + 1 =? packets).
  - apply bind_inv in Hrun as (split & s1 & Hsplit & Hrun).
    unfold last_frames. rewrite Hlen.
    destruct (size + 16 >? ps) eqn:Hbig.
    + (* the chunk, then the trailer on its own *)
      apply bind_inv in Hsplit as ([b rec] & s0 & Hchunk & Hsplit).
      destruct (negb (b =? size)) eqn:Hb; injection Hsplit as <- <-;
        [discriminate Hrun|].
      apply negb_false_iff, Z.eqb_eq in Hb. subst b.
      apply control_transfer_sent in Hchunk; [|lia..].
      apply bind_inv in Hrun as (allocated & s2 & Hmem & Hrun).
      apply (frames_stable _ _ _ _ (fun F => frames_call F malloc)) in Hmem.
      destruct allocated; cbn [negb] in Hrun; [|discriminate Hrun].
      apply bind_inv in Hrun as ([b2 rec2] & s3 & Htrailer & Hrun).
      injection Hrun as <- <- <-. cbn [bytes h1] in *.
      pose proof (trailer_frame_length chunk 0
                    (Crc.crc32_steps (Crc.crc32_steps (h1 v) chunk) dfu_xbuf)
                    ltac:(lia)) as Hframe.
      apply control_transfer_sent in Htrailer; [|lia..].
      split; [|reflexivity].
      rewrite Htrailer, Hmem, Hchunk, <- app_assoc. reflexivity.
    + (* the chunk and the trailer in one frame *)
      injection Hsplit as <- <-.
      apply bind_inv in Hrun as (allocated & s2 & Hmem & Hrun).
      apply (frames_stable _ _ _ _ (fun F => frames_call F malloc)) in Hmem.
      destruct allocated; cbn [negb] in Hrun; [|discriminate Hrun].
      apply bind_inv in Hrun as ([b2 rec2] & s3 & Htrailer & Hrun).
      injection Hrun as <- <- <-. cbn [bytes h1] in *.
      pose proof (trailer_frame_length chunk size
                    (Crc.crc32_steps (Crc.crc32_steps (h1 v) chunk) dfu_xbuf)
                    ltac:(lia)) as Hframe.
      apply control_transfer_sent in Htrailer; [|lia..].
      split; [|reflexivity]. rewrite Htrailer, Hmem. f_equal. f_equal.
      unfold trailer_frame.
      destruct (size >? 0) eqn:Hpos; [|lia].
      now rewrite <- Hlen, Nat2Z.id, firstn_all.
  - apply bind_inv in Hrun as ([b rec] & s1 & Hchunk & Hrun).
    injection Hrun as <- <- <-. cbn [bytes h1] in *.
    apply control_transfer_sent in Hchunk; [|lia..].
    split; [assumption|reflexivity].
Qed.

(** One round of the DFU loop that goes on to the next. *)
Lemma send_packet_dfu (buffer : list byte) (length ps last packets i : Z)
    (v v' : upload_vars) (s s' : State) :
  send_packet false buffer length ps last packets i v s = (inr v', s') ->
  let size := if i + 1 <? packets then ps else last in
  let chunk := slice buffer (i * ps) size in
  Z.of_nat (List.length chunk) = size ->
  0 < size <= ps -> ps + 16 < 2 ^ 16 ->
  download_frames (trace s')
    = (download_frames (trace s)
       ++ (if i + 1 =? packets then last_frames ps chunk (h1 v) else [chunk]))%list
  /\ h1 v' = (if i + 1 =? packets
              then Crc.crc32_steps (Crc.crc32_steps (h1 v) chunk) dfu_xbuf
              else Crc.crc32_steps (h1 v) chunk).
Proof.
  intros Hrun size chunk Hlen Hsize Hps.
  unfold send_packet in Hrun. cbv zeta in Hrun. fold size in Hrun.
  apply bind_inv in Hrun as (transferred & s1 & Htransfer & Hrun).
  destruct transferred as [e|[v1 size1]]; [discriminate Hrun|].
  destruct (negb (bytes v1 =? size1)) eqn:Hb; [discriminate Hrun|].
  apply negb_false_iff, Z.eqb_eq in Hb.
  destruct (transfer_packet_dfu _ _ _ _ _ _ _ _ _ _ Htransfer Hb Hlen Hsize Hps)
    as [Hframes Hcrc].
  cbn [negb] in Hrun.
  apply bind_inv in Hrun as ([error' status'] & s2 & Hstatus & Hrun).
  apply (frames_stable _ _ _ _ frames_get_status) in Hstatus.
  destruct (negb (error' =? IRECOVERY_E_SUCCESS)); [discriminate Hrun|].
  apply bind_inv in Hrun as (polled & s3 & Hpoll & Hrun).
  assert (Hs3 : download_frames (trace s3) = download_frames (trace s2)).
  { cbn [andb] in Hpoll. destruct (negb (status' =? 5)).
    - eapply frames_stable; [|exact Hpoll].
      intros F. apply frames_poll_status.
    - now injection Hpoll as _ <-. }
  cbn [andb] in Hrun.
  destruct (negb (polled =? 5)); [discriminate Hrun|].
  apply bind_inv in Hrun as ([] & s4 & Hemit & Hrun).
  apply (frames_stable _ _ _ _ (fun F => frames_emit_progress F _ _)) in Hemit.
  injection Hrun as <- <-. cbn [h1].
  split; [|exact Hcrc].
  now rewrite Hemit, Hs3, Hstatus.
Qed.

Lemma slice_rest (buffer : list byte) (offset size : Z) :
  0 <= offset -> offset + size = Z.of_nat (List.length buffer) ->
  slice buffer offset size = skipn (Z.to_nat offset) buffer.
Proof.
  intros Ho Hl. unfold slice. apply firstn_all2. rewrite length_skipn. lia.
Qed.

Lemma slice_next (buffer : list byte) (offset size : Z) :
  0 <= offset -> 0 <= size ->
  skipn (Z.to_nat offset) buffer
  = (slice buffer offset size ++ skipn (Z.to_nat (offset + size)) buffer)%list.
Proof.
  intros Ho Hs. unfold slice.
  rewrite Z2Nat.inj_add by lia.
  rewrite Nat.add_comm, <- skipn_skipn. symmetry. apply firstn_skipn.
Qed.

Lemma slice_length (buffer : list byte) (offset size : Z) :
  0 <= offset -> 0 <= size -> offset + size <= Z.of_nat (List.length buffer) ->
  Z.of_nat (List.length (slice buffer offset size)) = size.
Proof.
  intros Ho Hs Hl. unfold slice. rewrite length_firstn, length_skipn. lia.
Qed.

(** The DFU loop, when it runs to its end: the last chunk it sent ends in
    the trailer, whose CRC covers everything from packet [i] on and
    [dfu_xbuf]. *)
Lemma send_packets_dfu (buffer : list byte) (length ps last packets : Z) :
  0 < last <= ps -> ps + 16 < 2 ^ 16 ->
  (packets - 1) * ps + last = Z.of_nat (List.length buffer) ->
  forall (rounds : nat) (i : Z) (v v' : upload_vars) (s s' : State),
    (1 <= rounds)%nat -> 0 <= i -> i + Z.of_nat rounds = packets ->
    send_packets false buffer length ps last packets rounds i v s = (inr v', s') ->
    exists before pre,
      download_frames (trace s')
      = (download_frames (trace s) ++ before
         ++ [pre ++ trailer (Crc.crc32_steps (h1 v)
                               (skipn (Z.to_nat (i * ps)) buffer ++ dfu_xbuf))])%list.
Proof.
  intros Hlast Hps Htotal rounds.
  induction rounds as [|rounds IH]; intros i v v' s s' Hr Hi Hsum Hrun; [lia|].
  cbn [send_packets] in Hrun.
  apply bind_inv in Hrun as (sent & s1 & Hsent & Hrun).
  destruct sent as [e|v1]; [discriminate Hrun|].
  apply send_packet_dfu in Hsent; cycle 1.
  - destruct (i + 1 <? packets) eqn:Hnext.
    + apply slice_length; nia.
    + apply slice_length; nia.
  - destruct (i + 1 <? packets); lia.
  - exact Hps.
  - destruct Hsent as [Hframes Hcrc].
    destruct rounds as [|rounds].
    + (* the last packet *)
      cbn [send_packets] in Hrun. injection Hrun as <- <-.
      assert (Hi1 : i + 1 = packets) by lia.
      destruct (i + 1 =? packets) eqn:E; [|lia].
      destruct (i + 1 <? packets) eqn:E'; [lia|].
      rewrite slice_rest in Hframes by nia.
      rewrite Hframes. unfold last_frames.
      rewrite <- CrcFacts.crc32_steps_app.
      destruct (_ >? ps).
      * exists [skipn (Z.to_nat (i * ps)) buffer], []. reflexivity.
      * exists [], (skipn (Z.to_nat (i * ps)) buffer). reflexivity.
    + (* a full packet, and the rest of the loop *)
      destruct (i + 1 =? packets) eqn:E; [lia|].
      destruct (i + 1 <? packets) eqn:E'; [|lia].
      apply IH in Hrun; [|lia..].
      destruct Hrun as (before & pre & Hrest).
      exists (slice buffer (i * ps) ps :: before), pre.
      rewrite Hrest, Hframes, Hcrc, <- CrcFacts.crc32_steps_app.
      rewrite (slice_next buffer (i * ps) ps) by nia.
      replace (i * ps + ps) with ((i + 1) * ps) by lia.
      rewrite <- !app_assoc. reflexivity.
Qed.

(** The returns from inside the upload carry an error. *)
Lemma transfer_packet_error (recovery_mode : bool) (buffer : list byte)
    (ps packets i size : Z) (v : upload_vars) (s s' : State) (e : Z) :
  transfer_packet recovery_mode buffer ps packets i size v s = (inl e, s') ->
  e <> IRECOVERY_E_SUCCESS.
Proof.
  unfold transfer_packet. cbv zeta. destruct recovery_mode.
  - intros H. apply bind_inv in H as ([r t] & s1 & _ & H). discriminate H.
  - destruct (i + 1 =? packets).
    + intros H. apply bind_inv in H as (split & s1 & Hsplit & H).
      destruct split as [e1|[count' size']].
      * injection H as <- <-.
        destruct (size + 16 >? ps); [|discriminate Hsplit].
        apply bind_inv in Hsplit as ([b rec] & s0 & _ & Hsplit).
        destruct (negb (b =? size)); [|discriminate Hsplit].
        injection Hsplit as <- _. discriminate.
      * apply bind_inv in H as (allocated & s2 & _ & H).
        destruct allocated; cbn [negb] in H.
        -- apply bind_inv in H as ([b rec] & s3 & _ & H). discriminate H.
        -- injection H as <- _. discriminate.
    + intros H. apply bind_inv in H as ([b rec] & s1 & _ & H). discriminate H.
Qed.

Lemma send_packet_error (recovery_mode : bool) (buffer : list byte)
    (length ps last packets i : Z) (v : upload_vars) (s s' : State) (e : Z) :
  send_packet recovery_mode buffer length ps last packets i v s = (inl e, s') ->
  e <> IRECOVERY_E_SUCCESS.
Proof.
  unfold send_packet. cbv zeta. intros H.
  apply bind_inv in H as (transferred & s1 & Ht & H).
  destruct transferred as [e1|[v1 size1]].
  { injection H as <- _. eapply transfer_packet_error, Ht. }
  destruct (negb (bytes v1 =? size1)); [injection H as <- _; discriminate|].
  apply bind_inv in H as ([error' status'] & s2 & _ & H).
  destruct (negb (error' =? IRECOVERY_E_SUCCESS)) eqn:He.
  { injection H as <- _. intros ->. discriminate He. }
  apply bind_inv in H as (polled & s3 & _ & H).
  destruct (negb recovery_mode && negb (polled =? 5));
    [injection H as <- _; discriminate|].
  apply bind_inv in H as ([] & s4 & _ & H). discriminate H.
Qed.

Lemma send_packets_error (recovery_mode : bool) (buffer : list byte)
    (length ps last packets : Z) (rounds : nat) :
  forall (i : Z) (v : upload_vars) (s s' : State) (e : Z),
    send_packets recovery_mode buffer length ps last packets rounds i v s
      = (inl e, s') ->
    e <> IRECOVERY_E_SUCCESS.
Proof.
  induction rounds as [|rounds IH]; intros i v s s' e H; cbn [send_packets] in H.
  - discriminate H.
  - apply bind_inv in H as (sent & s1 & Hsent & H). destruct sent as [e1|v1].
    + injection H as <- _. eapply send_packet_error, Hsent.
    + eapply IH, H.
Qed.

Lemma initiate_dfu_error (s s' : State) (e : Z) :
  initiate_transfer false s = (inl e, s') -> e <> IRECOVERY_E_SUCCESS.
Proof.
  unfold initiate_transfer. intros H.
  apply bind_inv in H as ([r state] & s1 & _ & H).
  destruct (negb (r =? 1)); [injection H as <- _; discriminate|].
  cbv zeta in H.
  destruct (_ =? 2); [discriminate H|].
  destruct (_ =? 10);
    apply bind_inv in H as (x & s2 & _ & H); discriminate H.
Qed.

Lemma finish_status_error (rounds : nat) : forall (s s' : State) (e : Z),
  finish_status rounds s = (Some e, s') -> e <> IRECOVERY_E_SUCCESS.
Proof.
  induction rounds as [|rounds IH]; intros s s' e H; cbn [finish_status] in H.
  - discriminate H.
  - apply bind_inv in H as ([e1 st] & s1 & _ & H).
    destruct (negb (e1 =? IRECOVERY_E_SUCCESS)) eqn:He.
    + injection H as <- _. intros ->. discriminate He.
    + eapply IH, H.
Qed.

(** The number of packets and the size of the last one, as
    [irecovery_send_buffer] computes them. *)
Lemma packets_of_length (length ps : Z) :
  0 < length -> 0 < ps ->
  let last := length mod ps in
  let packets := if negb (last =? 0) then length / ps + 1 else length / ps in
  let last' := if negb (last =? 0) then last else ps in
  0 < last' <= ps /\ 1 <= packets /\ (packets - 1) * ps + last' = length.
Proof.
  intros Hl Hps. cbv zeta.
  pose proof (Z.div_mod length ps ltac:(lia)) as Hdm.
  pose proof (Z.mod_pos_bound length ps Hps) as Hm.
  destruct (length mod ps =? 0) eqn:E; cbn [negb].
  - apply Z.eqb_eq in E. rewrite E in Hdm.
    assert (0 < length / ps) by nia. lia.
  - apply Z.eqb_neq in E.
    assert (0 <= length / ps) by (apply Z.div_pos; lia). lia.
Qed.

(** A DFU or WTF upload that succeeds ran the packet loop to its end, and
    sent no download chunk before or after the loop. *)
Lemma send_buffer_dfu_loop (buffer : list byte) (length options : Z) (s s' : State) :
  let entry_mode := mode (client (snd (irecovery_client_is_usable true s))) in
  entry_mode = IRECOVERY_K_DFU_MODE \/ entry_mode = IRECOVERY_K_WTF_MODE ->
  irecovery_send_buffer buffer length options s = (IRECOVERY_E_SUCCESS, s') ->
  let last := length mod 0x800 in
  let packets := if negb (last =? 0) then length / 0x800 + 1 else length / 0x800 in
  let last' := if negb (last =? 0) then last else 0x800 in
  exists (v v' : upload_vars) (s1 s2 : State),
    h1 v = 0xFFFFFFFF
    /\ download_frames (trace s1) = download_frames (trace s)
    /\ send_packets false buffer length 0x800 last' packets (Z.to_nat packets) 0 v s1
        = (inr v', s2)
    /\ download_frames (trace s') = download_frames (trace s2).
Proof.
  intros entry_mode Hmode Hrun. unfold irecovery_send_buffer in Hrun.
  apply bind_inv in Hrun as (u & s0 & Hu & Hrun).
  assert (Hm : mode (client s0) = entry_mode) by (unfold entry_mode; now rewrite Hu).
  apply (frames_stable _ _ _ _ (fun F => frames_is_usable F true)) in Hu.
  destruct u; cbn [negb] in Hrun; [|discriminate Hrun].
  apply bind_inv in Hrun as (c & s0' & Hc & Hrun). injection Hc as <- <-.
  rewrite Hm in Hrun.
  assert (Hrec : negb (entry_mode =? IRECOVERY_K_DFU_MODE)
                 && negb (entry_mode =? IRECOVERY_K_WTF_MODE) = false)
    by (destruct Hmode as [-> | ->]; reflexivity).
  rewrite Hrec in Hrun. cbv zeta in Hrun.
  apply bind_inv in Hrun as (started & s1 & Hstart & Hrun).
  pose proof Hstart as Hframes1.
  apply (frames_stable _ _ _ _ frames_initiate_dfu) in Hframes1.
  destruct started as [e|e].
  { injection Hrun as -> _. now apply initiate_dfu_error in Hstart. }
  destruct (negb (e =? IRECOVERY_E_SUCCESS)) eqn:He.
  { injection Hrun as -> _. discriminate He. }
  apply bind_inv in Hrun as (sent & s2 & Hloop & Hrun).
  destruct sent as [e'|v'].
  { injection Hrun as -> _. now apply send_packets_error in Hloop. }
  exists {| h1 := 0xFFFFFFFF; count := 0; status := 0; bytes := 0; error := e |},
    v', s1, s2.
  split; [reflexivity|]. split; [congruence|].
  split; [exact Hloop|].
  eapply frames_stable; [|exact Hrun].
  intros F. cbn [andb].
  pose proof (frames_finish_status F 2). pose proof (frames_reset_device F).
  pose proof (frames_control_other F 0x21 0 0 0 [] 0 eq_refl).
  assert (Hnotify : forall p, preserves (frames_are F)
            (irecovery_usb_control_transfer 0x21 1 p 0 buffer 0))
    by (intros p; apply frames_control_other; reflexivity).
  repeat preserves_step.
Qed.

(** C1 (amended): for every payload of length L > 0 uploaded while the mode
    is DFU or WTF, when the upload succeeds, the last download chunk sent
    ends with the 12 bytes of the magic followed by the 4 little-endian
    bytes of the CRC-32 with reversed polynomial 0xEDB88320, initial value
    0xFFFFFFFF and no final XOR, of the whole payload followed by the
    magic. *)
Theorem dfu_trailer_crc (buffer : list byte) (options : Z) (s s' : State) :
  (0 < List.length buffer)%nat ->
  let entry_mode := mode (client (snd (irecovery_client_is_usable true s))) in
  entry_mode = IRECOVERY_K_DFU_MODE \/ entry_mode = IRECOVERY_K_WTF_MODE ->
  irecovery_send_buffer buffer (Z.of_nat (List.length buffer)) options s
    = (IRECOVERY_E_SUCCESS, s') ->
  exists before pre,
    download_frames (trace s')
    = (download_frames (trace s) ++ before
       ++ [pre ++ dfu_xbuf
           ++ Crc.le32 (Crc.crc32_reference 0xEDB88320 0xFFFFFFFF
                          (buffer ++ dfu_xbuf))])%list.
Proof.
  intros Hlen entry_mode Hmode Hrun.
  destruct (send_buffer_dfu_loop _ _ _ _ _ Hmode Hrun)
    as (v & v' & s1 & s2 & Hh & H1 & Hloop & H2).
  destruct (packets_of_length (Z.of_nat (List.length buffer)) 0x800)
    as (Hlast & Hpackets & Htotal); [lia..|].
  eapply send_packets_dfu in Hloop; try eassumption; try lia.
  destruct Hloop as (before & pre & Hloop).
  exists before, pre.
  rewrite H2, Hloop, H1, Hh. change (Z.to_nat (0 * 0x800)) with 0%nat.
  cbn [skipn]. unfold trailer. rewrite CrcFacts.crc32_steps_reference.
  reflexivity.
Qed.

(** C6 (amended): for every payload of length 0 < L <= 0x7F0 uploaded while
    the mode is DFU or WTF, when the upload succeeds, exactly one download
    chunk was sent, and it is the payload followed by the 16 bytes of the
    trailer. *)
Theorem dfu_single_chunk (buffer : list byte) (options : Z) (s s' : State) :
  0 < Z.of_nat (List.length buffer) <= 0x800 - 16 ->
  let entry_mode := mode (client (snd (irecovery_client_is_usable true s))) in
  entry_mode = IRECOVERY_K_DFU_MODE \/ entry_mode = IRECOVERY_K_WTF_MODE ->
  irecovery_send_buffer buffer (Z.of_nat (List.length buffer)) options s
    = (IRECOVERY_E_SUCCESS, s') ->
  download_frames (trace s')
  = (download_frames (trace s)
     ++ [buffer ++ dfu_xbuf
         ++ Crc.le32 (Crc.crc32_reference 0xEDB88320 0xFFFFFFFF
                        (buffer ++ dfu_xbuf))])%list.
Proof.
  intros Hlen entry_mode Hmode Hrun.
  destruct (send_buffer_dfu_loop _ _ _ _ _ Hmode Hrun)
    as (v & v' & s1 & s2 & Hh & H1 & Hloop & H2).
  revert Hloop.
  rewrite Z.mod_small, Z.div_small by lia.
  destruct (Z.of_nat (List.length buffer) =? 0) eqn:E; [lia|]. cbn [negb].
  change (Z.to_nat (0 + 1)) with 1%nat. cbn [send_packets]. intros Hloop.
  apply bind_inv in Hloop as (sent & s3 & Hsent & Hloop).
  destruct sent as [e|v1]; [discriminate Hloop|]. injection Hloop as _ <-.
  apply send_packet_dfu in Hsent; change (0 + 1 <? 0 + 1) with false in *;
    cbv iota in *.
  - destruct Hsent as [Hframes _]. change (0 + 1 =? 0 + 1) with true in Hframes.
    cbv iota in Hframes.
    rewrite slice_rest in Hframes by lia.
    change (Z.to_nat (0 * 0x800)) with 0%nat in Hframes.
    cbn [skipn] in Hframes.
    rewrite H2, Hframes, H1, Hh. unfold last_frames, trailer.
    destruct (_ >? 0x800) eqn:Hbig; [lia|].
    rewrite <- CrcFacts.crc32_steps_app, CrcFacts.crc32_steps_reference.
    reflexivity.
  - rewrite slice_length; lia.
  - lia.
  - lia.
Qed.

End UploadFacts.

(** C1, as stated, fails: the CRC of the trailer is not the CRC-32 of the
    reversed polynomial 0xEDB88820.  For the one-byte payload 00 the trailer
    ends in BE E0 7D E7, and the CRC for 0xEDB88820 is EA 7E 02 FB. *)
Lemma trailer_crc_not_EDB88820 :
  let run := irecovery_send_buffer [x00] 1 0 Inputs.dfu_client in
  fst run = IRECOVERY_E_SUCCESS
  /\ download_frames (trace (snd run))
      = [([x00] ++ dfu_xbuf ++ [xbe; xe0; x7d; xe7])%list]
  /\ Crc.le32 (Crc.crc32_reference 0xEDB88820 0xFFFFFFFF ([x00] ++ dfu_xbuf))
      = [xea; x7e; x02; xfb].
Proof. vm_compute. repeat split. Qed.

Lemma dfu_trailer_crc_witness :
  let payload := repeat x00 (Z.to_nat 0x800) in
  exists before pre,
    download_frames (trace (snd (irecovery_send_buffer payload 0x800 0 Inputs.dfu_client)))
    = (before
       ++ [pre ++ dfu_xbuf
           ++ Crc.le32 (Crc.crc32_reference 0xEDB88320 0xFFFFFFFF
                          (payload ++ dfu_xbuf))])%list.
Proof.
  intros payload.
  destruct (irecovery_send_buffer payload 0x800 0 Inputs.dfu_client)
    as [r s'] eqn:Hrun.
  assert (Hr : r = IRECOVERY_E_SUCCESS).
  { change r with (fst (r, s')). rewrite <- Hrun. vm_compute. reflexivity. }
  subst r.
  assert (Hlen : (0 < List.length payload)%nat)
    by (unfold payload; rewrite repeat_length; vm_compute; lia).
  assert (Hmode : mode (client (snd (irecovery_client_is_usable true Inputs.dfu_client)))
                  = IRECOVERY_K_DFU_MODE) by reflexivity.
  apply (dfu_trailer_crc payload 0 Inputs.dfu_client s' Hlen (or_introl Hmode)).
  unfold payload at 2. rewrite repeat_length. exact Hrun.
Defined.

(** C6, as stated, fails for the lengths above 0x7F0: a payload of 0x7F8
    bytes goes out as two download chunks, the 0x7F8 bytes and then the
    16-byte trailer on its own. *)
Lemma dfu_short_payload_two_chunks :
  let run := irecovery_send_buffer (repeat x00 (Z.to_nat 0x7F8)) 0x7F8 0
               Inputs.dfu_client in
  fst run = IRECOVERY_E_SUCCESS
  /\ map (@List.length byte) (download_frames (trace (snd run)))
      = [Z.to_nat 0x7F8; 16%nat].
Proof. vm_compute. repeat split. Qed.

Lemma dfu_single_chunk_witness :
  download_frames (trace (snd (irecovery_send_buffer [x00] 1 0 Inputs.dfu_client)))
  = [([x00] ++ dfu_xbuf
      ++ Crc.le32 (Crc.crc32_reference 0xEDB88320 0xFFFFFFFF ([x00] ++ dfu_xbuf)))%list].
Proof.
  destruct (irecovery_send_buffer [x00] 1 0 Inputs.dfu_client) as [r s'] eqn:Hrun.
  assert (Hr : r = IRECOVERY_E_SUCCESS).
  { change r with (fst (r, s')). rewrite <- Hrun. vm_compute. reflexivity. }
  subst r.
  assert (Hlen : 0 < Z.of_nat (List.length [x00]) <= 0x800 - 16) by (simpl; lia).
  assert (Hmode : mode (client (snd (irecovery_client_is_usable true Inputs.dfu_client)))
                  = IRECOVERY_K_DFU_MODE) by reflexivity.
  apply (dfu_single_chunk [x00] 0 Inputs.dfu_client s' Hlen (or_introl Hmode) Hrun).
Defined.

(** C2 at the failing input: under the one-connection limit, device 1 is
    adopted on the first enabled event and device 2 replaces it on the
    second one; the connection counter is still 0. *)
Theorem one_connection_limit_second_device :
  let s1 := snd (usb_HandleEvents Inputs.two_devices) in
  let s2 := snd (usb_HandleEvents s1) in
  handle (client s1) = 1%N
  /\ handle (client s2) = 2%N
  /\ num_connections (client s1) = 0
  /\ trace s2 = [OpGetDescriptor 1%N; OpGetDescriptor 2%N].
Proof. vm_compute. repeat split. Qed.

(** ** Uploads on concrete inputs *)

(** C5 at the failing input: in recovery mode a successful bulk transfer
    returns its byte count, which the packet loop takes for an error.  An
    upload of 512 bytes sends one bulk frame instead of two and returns 512;
    an upload of 0x8001 bytes sends one frame instead of two and returns
    0x8000. *)
Theorem recovery_upload_stops_after_first_packet :
  let run512 := irecovery_send_buffer (repeat x00 512) 512 0 Inputs.recovery_client in
  let run8001 := irecovery_send_buffer (repeat x00 (Z.to_nat 0x8001)) 0x8001 0 Inputs.recovery_client in
  fst run512 = 512
  /\ List.length (bulk_frames (trace (snd run512))) = 1%nat
  /\ fst run8001 = 0x8000
  /\ List.length (bulk_frames (trace (snd run8001))) = 1%nat.
Proof. vm_compute. repeat split. Qed.

(** C7 at the failing input: the callback returns 1 after the first packet
    of a DFU upload of 0x801 bytes, and the upload goes on: the last chunk,
    with the trailer, is sent after it and the call succeeds. *)
Theorem progress_return_not_read :
  let run := irecovery_send_buffer (repeat x00 (Z.to_nat 0x801)) 0x801 0 Inputs.cancelling_client in
  fst run = IRECOVERY_E_SUCCESS
  /\ List.length (download_frames (trace (snd run))) = 2%nat
  /\ List.length (download_frames (after_cancel (trace (snd run)))) = 1%nat.
Proof. vm_compute. repeat split. Qed.

(** ** The device table *)

Section DeviceTable.

Lemma device_eqb_eq (a b : irecovery_device) : device_eqb a b = true -> a = b.
Proof.
  unfold device_eqb. intros H.
  repeat (apply andb_true_iff in H; destruct H as [H ?]).
  destruct a, b; cbn [product_type hardware_model board_id chip_id display_name] in *.
  repeat match goal with
         | H : String.eqb _ _ = true |- _ => apply String.eqb_eq in H
         | H : (_ =? _) = true |- _ => apply Z.eqb_eq in H
         end.
  congruence.
Qed.

(** The loop of the lookups returns the first row that matches, and reports
    no device only when no row matches. *)
Lemma first_device_spec (matches : irecovery_device -> bool)
    (devices : list irecovery_device) :
  match first_device matches devices with
  | (e, Some d) => e = IRECOVERY_E_SUCCESS /\ first_match matches devices d
  | (e, None) => e = IRECOVERY_E_NO_DEVICE
                 /\ forall x, In x devices -> matches x = false
  end.
Proof.
  induction devices as [|d devices IH]; cbn [first_device].
  - split; [reflexivity|]. intros x [].
  - destruct (matches d) eqn:Hd.
    + split; [reflexivity|]. split; [exact Hd|].
      exists [], devices. split; [reflexivity|]. intros x [].
    + destruct (first_device matches devices) as [e [d'|]].
      * destruct IH as (He & Hm & before & after & Hsplit & Hbefore).
        split; [exact He|]. split; [exact Hm|].
        exists (d :: before), after. split; [now rewrite Hsplit|].
        intros x [<-|Hx]; [exact Hd|now apply Hbefore].
      * destruct IH as (He & Hnone). split; [exact He|].
        intros x [<-|Hx]; [exact Hd|now apply Hnone].
Qed.

Lemma existsb_device_In (d : irecovery_device) (devices : list irecovery_device) :
  existsb (device_eqb d) devices = true -> In d devices.
Proof.
  intros H. apply existsb_exists in H as (x & Hx & Heq).
  apply device_eqb_eq in Heq. now subst.
Qed.

(** X1: a lookup by product type returns, with success, the first row of
    the table that has this product type, and fails with no-device exactly
    when no row has it. *)
Theorem lookup_by_product_type (p : string) :
  match irecovery_devices_get_device_by_product_type (Some p) with
  | (e, Some d) =>
      e = IRECOVERY_E_SUCCESS /\ product_type d = p
      /\ exists before after,
           irecovery_devices = (before ++ d :: after)%list
           /\ forall x, In x before -> product_type x <> p
  | (e, None) =>
      e = IRECOVERY_E_NO_DEVICE
      /\ forall x, In x irecovery_devices -> product_type x <> p
  end.
Proof.
  unfold irecovery_devices_get_device_by_product_type.
  pose proof (first_device_spec (fun d => String.eqb p (product_type d))
                irecovery_devices) as H.
  destruct (first_device _ irecovery_devices) as [e [d|]].
  - destruct H as (He & Hm & before & after & Hsplit & Hbefore).
    split; [exact He|]. split; [symmetry; now apply String.eqb_eq|].
    exists before, after. split; [exact Hsplit|].
    intros x Hx Heq. apply Hbefore in Hx. cbv beta in Hx.
    rewrite Heq, String.eqb_refl in Hx. discriminate Hx.
  - destruct H as (He & Hnone). split; [exact He|].
    intros x Hx Heq. apply Hnone in Hx. cbv beta in Hx.
    rewrite Heq, String.eqb_refl in Hx. discriminate Hx.
Qed.

(** X2: hardware models identify the rows of the table: looking up the
    hardware model of any row gives back that very row. *)
Theorem lookup_by_hardware_model_round_trip (d : irecovery_device) :
  In d irecovery_devices ->
  irecovery_devices_get_device_by_hardware_model (Some (hardware_model d))
  = (IRECOVERY_E_SUCCESS, Some d).
Proof.
  assert (H : forallb (fun d =>
              match irecovery_devices_get_device_by_hardware_model
                      (Some (hardware_model d)) with
              | (e, Some d') => (e =? IRECOVERY_E_SUCCESS) && device_eqb d' d
              | _ => false
              end) irecovery_devices = true) by (vm_compute; reflexivity).
  rewrite forallb_forall in H. intros Hd. specialize (H d Hd).
  destruct (irecovery_devices_get_device_by_hardware_model _) as [e [d'|]];
    [|discriminate H].
  apply andb_true_iff in H as [He Heq].
  apply Z.eqb_eq in He. apply device_eqb_eq in Heq. now subst.
Qed.

(** X3: so do the chip id and the board id together: for a client whose
    device info carries the CPID and BDID of a row, the lookup by client
    gives back that row. *)
Theorem lookup_by_client_round_trip (c : irecovery_client) (d : irecovery_device) :
  In d irecovery_devices ->
  cpid (device_info c) = chip_id d -> bdid (device_info c) = board_id d ->
  irecovery_devices_get_device_by_client c = (IRECOVERY_E_SUCCESS, Some d).
Proof.
  assert (H : forallb (fun d =>
              match first_device
                      (fun x => (chip_id x =? chip_id d) && (board_id x =? board_id d))
                      irecovery_devices with
              | (e, Some d') => (e =? IRECOVERY_E_SUCCESS) && device_eqb d' d
              | _ => false
              end) irecovery_devices = true) by (vm_compute; reflexivity).
  rewrite forallb_forall in H. intros Hd Hc Hb. specialize (H d Hd).
  unfold irecovery_devices_get_device_by_client. cbv zeta. rewrite Hc, Hb.
  destruct (first_device _ irecovery_devices) as [e [d'|]]; [|discriminate H].
  apply andb_true_iff in H as [He Heq].
  apply Z.eqb_eq in He. apply device_eqb_eq in Heq. now subst.
Qed.

End DeviceTable.

Lemma lookup_by_hardware_model_round_trip_witness :
  irecovery_devices_get_device_by_hardware_model (Some "n71map")
  = (IRECOVERY_E_SUCCESS,
     Some (dev "iPhone8,1" "n71map" 0x04 0x8003 "iPhone 6s")).
Proof.
  apply (lookup_by_hardware_model_round_trip
           (dev "iPhone8,1" "n71map" 0x04 0x8003 "iPhone 6s")).
  apply existsb_device_In. reflexivity.
Defined.

Lemma lookup_by_client_round_trip_witness :
  irecovery_devices_get_device_by_client Inputs.identified_client
  = (IRECOVERY_E_SUCCESS,
     Some (dev "iPhone8,1" "n71map" 0x04 0x8003 "iPhone 6s")).
Proof.
  apply (lookup_by_client_round_trip Inputs.identified_client
           (dev "iPhone8,1" "n71map" 0x04 0x8003 "iPhone 6s")).
  - apply existsb_device_In. reflexivity.
  - reflexivity.
  - reflexivity.
Defined.

(** ** The device zone and the events *)

Section ZoneFacts.
Context {W : Type} {USB : UsbStack W} {SCAN : Nsscanf}.

Local Abbreviation State := (@State W).

Lemma zone_zero_handle (c : irecovery_client) :
  device_zone_nonzero c = false -> handle c = 0%N /\ progress_callback c = None.
Proof.
  unfold device_zone_nonzero. intros H.
  repeat (apply orb_false_iff in H; destruct H as [H ?]).
  split.
  - apply negb_false_iff, N.eqb_eq in H. exact H.
  - destruct (progress_callback c); [discriminate|reflexivity].
Qed.

Lemma descriptor_is_zero_eq (d : usb_device_descriptor_t) :
  descriptor_is_zero d = true -> d = zero_descriptor.
Proof.
  unfold descriptor_is_zero. intros H.
  repeat (apply andb_true_iff in H; destruct H as [H ?]).
  repeat match goal with H : (_ =? _) = true |- _ => apply Z.eqb_eq in H end.
  destruct d; cbn in *. subst. reflexivity.
Qed.

Lemma is_null_eq {A} (p : option A) : is_null p = true -> p = None.
Proof. destruct p; [discriminate|reflexivity]. Qed.

Lemma device_info_is_zero_eq (i : irecovery_device_info) :
  device_info_is_zero i = true -> i = zero_device_info.
Proof.
  unfold device_info_is_zero. intros H.
  repeat (apply andb_true_iff in H; destruct H as [H ?]).
  repeat match goal with
         | H : (_ =? _) = true |- _ => apply Z.eqb_eq in H
         | H : is_null _ = true |- _ => apply is_null_eq in H
         end.
  destruct i; cbn in *. subst. reflexivity.
Qed.

(** A client whose device zone is all zero is its static zone and zeros. *)
Lemma zone_zero_eq (c : irecovery_client) :
  device_zone_nonzero c = false ->
  c = {| connection_policy := connection_policy c;
         ecid_restriction := ecid_restriction c;
         num_connections := num_connections c;
         handle := 0%N; device_descriptor := zero_descriptor;
         device_info := zero_device_info; mode := 0;
         finalized := 0; progress_callback := None |}.
Proof.
  unfold device_zone_nonzero. intros H.
  repeat (apply orb_false_iff in H; destruct H as [H ?]).
  repeat match goal with H : negb _ = false |- _ => apply negb_false_iff in H end.
  repeat match goal with
         | H : (_ =? _) = true |- _ => apply Z.eqb_eq in H
         | H : (_ =? _)%N = true |- _ => apply N.eqb_eq in H
         | H : is_null _ = true |- _ => apply is_null_eq in H
         | H : descriptor_is_zero _ = true |- _ => apply descriptor_is_zero_eq in H
         | H : device_info_is_zero _ = true |- _ => apply device_info_is_zero_eq in H
         end.
  destruct c; cbn in *. subst. reflexivity.
Qed.

(** What clearing the device zone leaves. *)
Lemma clear_zone_fields (c : irecovery_client) :
  let c' := irecovery_client_clear_device_zone c in
  device_zone_nonzero c' = false
  /\ handle c' = 0%N /\ progress_callback c' = None
  /\ connection_policy c' = connection_policy c
  /\ ecid_restriction c' = ecid_restriction c
  /\ num_connections c' = num_connections c
  /\ irecovery_client_clear_device_zone c' = c'.
Proof.
  cbv zeta. destruct (device_zone_nonzero c) eqn:Hz.
  - assert (Hc : irecovery_client_clear_device_zone c
                 = {| connection_policy := connection_policy c;
                      ecid_restriction := ecid_restriction c;
                      num_connections := num_connections c;
                      handle := 0%N; device_descriptor := zero_descriptor;
                      device_info := zero_device_info; mode := 0;
                      finalized := 0; progress_callback := None |})
      by (unfold irecovery_client_clear_device_zone; now rewrite Hz).
    rewrite Hc. repeat split.
  - assert (Hc : irecovery_client_clear_device_zone c = c)
      by (unfold irecovery_client_clear_device_zone; now rewrite Hz).
    rewrite !Hc. destruct (zone_zero_handle c Hz) as [Hh Hp].
    repeat split; assumption.
Qed.

(** X4: clearing the device zone gives the client that has the static
    zone of the old one and a device zone that is all zero: no handle, no
    device info, no callback, finalization pending.  Clearing twice is
    clearing once. *)
Theorem clear_device_zone_zeroes (c : irecovery_client) :
  let c' := irecovery_client_clear_device_zone c in
  c' = {| connection_policy := connection_policy c;
          ecid_restriction := ecid_restriction c;
          num_connections := num_connections c;
          handle := 0%N; device_descriptor := zero_descriptor;
          device_info := zero_device_info; mode := 0;
          finalized := 0; progress_callback := None |}
  /\ device_zone_nonzero c' = false
  /\ irecovery_client_clear_device_zone c' = c'.
Proof.
  cbv zeta.
  destruct (clear_zone_fields c) as (Hz & _ & _ & Hp & He & Hn & Hidem).
  split; [|split; assumption].
  rewrite (zone_zero_eq _ Hz) at 1. now rewrite Hp, He, Hn.
Qed.

(** A descriptor stored on a cleared zone, and the zone cleared again. *)
Lemma clear_after_descriptor (dd : usb_device_descriptor_t) (c : irecovery_client) :
  irecovery_client_clear_device_zone
    (set_device_descriptor dd (irecovery_client_clear_device_zone c))
  = irecovery_client_clear_device_zone c.
Proof.
  destruct (clear_zone_fields c) as (Hz & _).
  set (c0 := irecovery_client_clear_device_zone c) in *.
  pose proof (zone_zero_eq c0 Hz) as Hc0.
  clearbody c0. unfold irecovery_client_clear_device_zone.
  destruct (device_zone_nonzero (set_device_descriptor dd c0)) eqn:Hn; cbn [negb].
  - symmetry. exact Hc0.
  - apply zone_zero_eq in Hn. rewrite Hn. symmetry. exact Hc0.
Qed.

Lemma usable_zone (s : State) : usable s = true -> device_zone_nonzero (client s) = true.
Proof. unfold usable. intros H. now apply andb_true_iff in H as [_ H]. Qed.

Lemma clear_sound (c : irecovery_client) :
  adoption_sound (irecovery_client_clear_device_zone c).
Proof.
  destruct (clear_zone_fields c) as (Hz & Hh & _). split.
  - rewrite Hz. discriminate.
  - rewrite Hh. intros H. now contradiction H.
Qed.

Lemma device_is_supported_cases (d : usb_device_t) (s : State) :
  let '(supported, s') := irecovery_device_is_supported d s in
  trace s' = (trace s ++ (if (d =? 0)%N then [] else [OpGetDescriptor d]))%list
  /\ (supported = true ->
      d <> 0%N
      /\ is_supported_descriptor (device_descriptor (client s')) = true
      /\ exists dd, client s' = set_device_descriptor dd (client s))
  /\ (supported = false ->
      client s' = client s
      \/ exists dd, client s' = set_device_descriptor dd (client s)).
Proof.
  unfold irecovery_device_is_supported.
  destruct (d =? 0)%N eqn:Hd.
  - cbn. rewrite app_nil_r. repeat split; try discriminate. now left.
  - apply N.eqb_neq in Hd. mred.
    destruct (usb_GetDescriptor d (world s)) as [[[e t] dd] w].
    destruct (negb (e =? USB_SUCCESS) || negb (t =? sizeof_device_descriptor)%N);
      mred.
    + repeat split; try discriminate. now left.
    + repeat split.
      * assumption.
      * assumption.
      * now exists dd.
      * intros _. right. now exists dd.
Qed.

(** The event handler keeps adoption sound. *)
Lemma event_handler_sound (event : usb_event_t) (s : State) :
  adoption_sound (client s) ->
  adoption_sound (client (snd (usb_event_handler event s))).
Proof.
  intros Hs.
  assert (Hadopt : forall s0 : State,
            adoption_sound (client s0) \/ client s0 = client s0 ->
            forall d,
            adoption_sound
              (client (snd (bind (irecovery_device_is_supported d)
                 (fun supported =>
                    bind (if supported
                          then modify_client (set_handle d)
                          else modify_client irecovery_client_clear_device_zone)
                         (fun _ => ret USB_SUCCESS)) s0)))).
  { intros s0 _ d. unfold bind at 1.
    pose proof (device_is_supported_cases d s0) as H.
    destruct (irecovery_device_is_supported d s0) as [supported s1].
    destruct H as (_ & Hyes & _).
    destruct supported; mred.
    - destruct (Hyes eq_refl) as (Hd & Hsup & _). split.
      + intros _. exact Hd.
      + intros _. exact Hsup.
    - apply clear_sound. }
  destruct event as [r|d|d|d|d|code]; unfold usb_event_handler; mred;
    try exact Hs.
  - destruct (role_is_device r); mred; [apply clear_sound|exact Hs].
  - destruct (d =? handle (client s))%N; mred; [apply clear_sound|exact Hs].
  - destruct (role_is_device (usb_GetRole (world s))); [exact Hs|].
    unfold usb_reset_device. mred.
    destruct (usb_ResetDevice d (world s)); exact Hs.
  - destruct (role_is_device (usb_GetRole (world s))); [exact Hs|].
    destruct (d =? handle (client s))%N; [exact Hs|].
    destruct (connection_policy (client s)).
    + mred. apply Hadopt. now right.
    + unfold is_usable_now. mred.
      match goal with |- context [if negb (negb ?b) then _ else _] =>
        destruct b end; mred; [exact Hs|].
      apply Hadopt. now right.
    + mred. destruct (negb (num_connections (client s) =? 1)); mred; [|exact Hs].
      apply Hadopt. now right.
Qed.

(** X5: whatever events arrive, adoption stays sound: after
    [usb_HandleEvents] a client whose device zone is not all zero has a
    handle, and a client with a handle holds the descriptor of a supported
    device (vendor 0x05AC, one of the six product ids). *)
Theorem events_keep_adoption_sound (s : State) :
  adoption_sound (client s) ->
  adoption_sound (client (snd (usb_HandleEvents s))).
Proof.
  intros Hs. unfold usb_HandleEvents. mred.
  destruct (usb_WaitingEvents (world s)) as [events w].
  set (s0 := {| client := client s; world := w; trace := trace s |}).
  assert (H0 : adoption_sound (client s0)) by exact Hs.
  clearbody s0. clear Hs. revert s0 H0.
  induction events as [|event events IH]; intros s0 H0; [exact H0|].
  cbn [dispatch_events]. mred.
  pose proof (event_handler_sound event s0 H0) as H1.
  destruct (usb_event_handler event s0) as [e s1]. now apply IH.
Qed.

(** X6: with the accept-only-when-no-current-connection policy, a usable
    client ignores a device that is enabled: nothing of the state changes
    and the descriptor of the new device is not even fetched. *)
Theorem accept_only_when_none_ignores (d : usb_device_t) (s : State) :
  connection_policy (client s)
    = IRECOVERY_CLIENT_DEVICE_POLICY_ACCEPT_ONLY_WHEN_NO_CURRENT_CONNECTION ->
  usable s = true ->
  usb_event_handler (USB_DEVICE_ENABLED_EVENT d) s = (USB_SUCCESS, s).
Proof.
  intros Hp Hu. unfold usb_event_handler. mred.
  assert (Hr : role_is_device (usb_GetRole (world s)) = false).
  { unfold usable in Hu. apply andb_true_iff in Hu as [Hu _].
    apply andb_true_iff in Hu as [_ Hu]. now apply negb_true_iff in Hu. }
  rewrite Hr. destruct (d =? handle (client s))%N; [reflexivity|].
  rewrite Hp. unfold is_usable_now. mred.
  fold (usable s). rewrite Hu. reflexivity.
Qed.

(** X7: with the accept-all policy a newly enabled supported device
    displaces the current one: the zone is cleared, then the new handle and
    descriptor are stored, so that the client waits for finalization with an
    empty device info and no callback.  When the descriptor of the new
    device cannot be fetched, or is not a supported one, the zone ends
    cleared and the previous connection is lost. *)
Theorem accept_all_displaces (d : usb_device_t) (s : State) :
  connection_policy (client s) = IRECOVERY_CLIENT_DEVICE_POLICY_ACCEPT_ALL ->
  usb_GetRole (world s) = USB_ROLE_HOST ->
  d <> handle (client s) -> d <> 0%N ->
  let '(e, t, dd, w) := usb_GetDescriptor d (world s) in
  let adopted := (e =? USB_SUCCESS) && (t =? sizeof_device_descriptor)%N
                 && is_supported_descriptor dd in
  usb_event_handler (USB_DEVICE_ENABLED_EVENT d) s
  = (USB_SUCCESS,
     {| client :=
          if adopted
          then set_handle d (set_device_descriptor dd
                 (irecovery_client_clear_device_zone (client s)))
          else irecovery_client_clear_device_zone (client s);
        world := w;
        trace := trace s ++ [OpGetDescriptor d] |}).
Proof.
  intros Hp Hr Hd Hd0.
  destruct (usb_GetDescriptor d (world s)) as [[[e t] dd] w] eqn:Hget.
  cbv zeta. unfold usb_event_handler. mred. rewrite Hr. cbn [role_is_device].
  destruct (d =? handle (client s))%N eqn:E; [apply N.eqb_eq in E; contradiction|].
  rewrite Hp. mred. unfold irecovery_device_is_supported.
  destruct (d =? 0)%N eqn:E0; [apply N.eqb_eq in E0; contradiction|].
  mred. rewrite Hget.
  destruct (e =? USB_SUCCESS); cbn [negb orb andb];
    [destruct (t =? sizeof_device_descriptor)%N; cbn [negb andb]|]; mred.
  - destruct (is_supported_descriptor dd); mred; [reflexivity|].
    now rewrite clear_after_descriptor.
  - destruct (clear_zone_fields (client s)) as (_ & _ & _ & _ & _ & _ & Hidem).
    now rewrite Hidem.
  - destruct (clear_zone_fields (client s)) as (_ & _ & _ & _ & _ & _ & Hidem).
    now rewrite Hidem.
Qed.

End ZoneFacts.

Lemma events_keep_adoption_sound_witness :
  adoption_sound (client (snd (usb_HandleEvents Inputs.two_devices))).
Proof.
  apply events_keep_adoption_sound. split.
  - intros H. discriminate H.
  - intros H. now contradiction H.
Defined.

Lemma accept_only_when_none_ignores_witness :
  usb_event_handler (USB_DEVICE_ENABLED_EVENT 2%N) Inputs.exclusive_client
  = (USB_SUCCESS, Inputs.exclusive_client).
Proof.
  apply accept_only_when_none_ignores; reflexivity.
Defined.

Lemma accept_all_displaces_witness :
  handle (client (snd (usb_event_handler (USB_DEVICE_ENABLED_EVENT 2%N)
                         Inputs.open_client))) = 2%N.
Proof.
  assert (Hp : connection_policy (client Inputs.open_client)
               = IRECOVERY_CLIENT_DEVICE_POLICY_ACCEPT_ALL) by reflexivity.
  assert (Hr : usb_GetRole (world Inputs.open_client) = USB_ROLE_HOST) by reflexivity.
  assert (Hd : 2%N <> handle (client Inputs.open_client)) by discriminate.
  assert (Hd0 : 2%N <> 0%N) by discriminate.
  pose proof (accept_all_displaces 2%N Inputs.open_client Hp Hr Hd Hd0) as H.
  change (usb_GetDescriptor 2%N (world Inputs.open_client))
    with (USB_SUCCESS, sizeof_device_descriptor,
          Emulator.descriptor_of IRECOVERY_K_DFU_MODE, world Inputs.open_client) in H.
  cbv beta iota zeta in H. rewrite H. reflexivity.
Defined.

(** ** Calls on a client without device *)

Section NoDeviceFacts.
Context {W : Type} {USB : UsbStack W} {SCAN : Nsscanf}.

Local Abbreviation State := (@State W).

(** X8: on a client that is not usable, while no event is waiting, each of
    the nineteen operations of the API that need a connection fails with the
    no-device error (a NULL device info for [irecovery_get_device_info],
    false for [irecovery_client_is_usable]) and changes nothing: no USB
    operation is performed, the client is left as it is and an
    out-parameter keeps its value.  Five of them test their pointer
    arguments before the client and return the bad-pointer error for a NULL
    one: [irecovery_send_command], [irecovery_getenv] (also for an
    out-parameter that is already set), [irecovery_setenv],
    [irecovery_setenv_np] and [irecovery_get_mode]; for the others the
    client comes first. *)
Theorem no_device_everywhere (s : State) (buffer : list byte) (length options : Z)
    (command variable value : string) (type : Z) (callback : irecovery_event_cb_t) :
  quiet s -> usable s = false ->
  irecovery_send_buffer buffer length options s = (IRECOVERY_E_NO_DEVICE, s)
  /\ irecovery_send_command (Some command) s = (IRECOVERY_E_NO_DEVICE, s)
  /\ irecovery_getenv (Some variable) (Some None) s
      = (IRECOVERY_E_NO_DEVICE, Some None, s)
  /\ irecovery_setenv (Some variable) (Some value) s = (IRECOVERY_E_NO_DEVICE, s)
  /\ irecovery_setenv_np (Some variable) (Some value) s = (IRECOVERY_E_NO_DEVICE, s)
  /\ irecovery_saveenv s = (IRECOVERY_E_NO_DEVICE, s)
  /\ irecovery_reboot s = (IRECOVERY_E_NO_DEVICE, s)
  /\ irecovery_reset s = (IRECOVERY_E_NO_DEVICE, s)
  /\ irecovery_reset_counters s = (IRECOVERY_E_NO_DEVICE, s)
  /\ irecovery_finish_transfer s = (IRECOVERY_E_NO_DEVICE, s)
  /\ irecovery_get_mode true s = (IRECOVERY_E_NO_DEVICE, None, s)
  /\ irecovery_get_device_info s = (None, s)
  /\ irecovery_event_subscribe type (Some callback) s = (IRECOVERY_E_NO_DEVICE, s)
  /\ irecovery_event_unsubscribe type s = (IRECOVERY_E_NO_DEVICE, s)
  /\ irecovery_poll_for_device s = (IRECOVERY_E_NO_DEVICE, s)
  /\ (forall b_request,
        irecovery_send_command_breq command b_request s = (IRECOVERY_E_NO_DEVICE, s))
  /\ (forall bm_request_type b_request w_value w_index w_length,
        irecovery_usb_control_transfer bm_request_type b_request w_value w_index
          buffer w_length s = (IRECOVERY_E_NO_DEVICE, [], s))
  /\ (forall endpoint,
        irecovery_usb_bulk_transfer endpoint buffer length s
        = (IRECOVERY_E_NO_DEVICE, None, s))
  /\ (forall char_is_signed ret_value,
        irecovery_getret char_is_signed ret_value s
        = (IRECOVERY_E_NO_DEVICE, ret_value, s))
  /\ (forall run, irecovery_client_is_usable run s = (false, s))
  /\ irecovery_event_subscribe type None s = (IRECOVERY_E_NO_DEVICE, s)
  /\ irecovery_send_command None s = (IRECOVERY_E_BAD_PTR, s)
  /\ (forall (v : option string) (out : option (option (list byte))),
        v = None \/ out <> Some None ->
        irecovery_getenv v out s = (IRECOVERY_E_BAD_PTR, out, s))
  /\ (forall v x : option string, v = None \/ x = None ->
        irecovery_setenv v x s = (IRECOVERY_E_BAD_PTR, s)
        /\ irecovery_setenv_np v x s = (IRECOVERY_E_BAD_PTR, s))
  /\ irecovery_get_mode false s = (IRECOVERY_E_BAD_PTR, None, s).
Proof.
  intros Hq Hu.
  assert (Hraw : forall cmd b,
            irecovery_send_command_raw cmd b s = (IRECOVERY_E_NO_DEVICE, s)).
  { intros cmd b. unfold irecovery_send_command_raw. mred.
    rewrite is_usable_quiet by assumption. now rewrite Hu. }
  repeat match goal with |- _ /\ _ => split end.
  - unfold irecovery_send_buffer. mred.
    rewrite is_usable_quiet by assumption. now rewrite Hu.
  - unfold irecovery_send_command, irecovery_send_command_breq. mred.
    rewrite is_usable_quiet by assumption. now rewrite Hu.
  - unfold irecovery_getenv. mred. now rewrite Hraw.
  - unfold irecovery_setenv. apply Hraw.
  - unfold irecovery_setenv_np. apply Hraw.
  - apply Hraw.
  - apply Hraw.
  - unfold irecovery_reset. mred.
    rewrite is_usable_quiet by assumption. now rewrite Hu.
  - unfold irecovery_reset_counters. mred.
    rewrite is_usable_quiet by assumption. now rewrite Hu.
  - unfold irecovery_finish_transfer. mred.
    rewrite is_usable_quiet by assumption. now rewrite Hu.
  - unfold irecovery_get_mode. mred.
    rewrite is_usable_quiet by assumption. now rewrite Hu.
  - unfold irecovery_get_device_info. mred.
    rewrite is_usable_quiet by assumption. now rewrite Hu.
  - unfold irecovery_event_subscribe. mred.
    rewrite is_usable_false. now rewrite Hu.
  - unfold irecovery_event_unsubscribe. mred.
    rewrite is_usable_false. now rewrite Hu.
  - unfold irecovery_poll_for_device, irecovery_finalize_client,
      finalize_until_configured. mred.
    rewrite HandleEvents_quiet by assumption.
    rewrite is_usable_false. now rewrite Hu.
  - intros b_request. unfold irecovery_send_command_breq. mred.
    rewrite is_usable_quiet by assumption. now rewrite Hu.
  - intros bm b wv wi wl. unfold irecovery_usb_control_transfer. mred.
    rewrite is_usable_quiet by assumption. now rewrite Hu.
  - intros endpoint. unfold irecovery_usb_bulk_transfer. mred.
    rewrite is_usable_quiet by assumption. now rewrite Hu.
  - intros char_is_signed ret_value. unfold irecovery_getret. mred.
    rewrite is_usable_quiet by assumption. now rewrite Hu.
  - intros run. rewrite is_usable_quiet by assumption. now rewrite Hu.
  - unfold irecovery_event_subscribe. mred.
    rewrite is_usable_false. now rewrite Hu.
  - reflexivity.
  - intros v out [-> | Hout]; [now destruct out as [[|]|]|].
    destruct v; [|now destruct out as [[|]|]].
    destruct out as [[|]|]; [reflexivity|now contradiction Hout|reflexivity].
  - intros v x [-> | ->]; [split; reflexivity|].
    destruct v; split; reflexivity.
  - reflexivity.
Qed.

(** X9: a poll that finds the adopted device disconnected clears the device
    zone and reports no device, without any USB operation. *)
Theorem poll_after_disconnect (s : State) (w : W) :
  usb_WaitingEvents (world s)
    = ([USB_DEVICE_DISCONNECTED_EVENT (handle (client s))], w) ->
  irecovery_poll_for_device s
  = (IRECOVERY_E_NO_DEVICE,
     {| client := irecovery_client_clear_device_zone (client s);
        world := w; trace := trace s |}).
Proof.
  intros Hev.
  unfold irecovery_poll_for_device, irecovery_finalize_client,
    finalize_until_configured, usb_HandleEvents. mred.
  rewrite Hev. cbn [dispatch_events usb_event_handler]. mred.
  rewrite N.eqb_refl. mred. rewrite is_usable_false.
  unfold usable. cbn [client].
  destruct (clear_zone_fields (client s)) as (_ & Hh & _).
  rewrite Hh. reflexivity.
Qed.

(** X11: a finalized client is not identified again: while it is usable and
    no event is waiting, a poll returns success and performs no USB
    operation. *)
Theorem poll_finalized (s : State) :
  quiet s -> usable s = true -> 0 < finalized (client s) ->
  irecovery_poll_for_device s = (IRECOVERY_E_SUCCESS, s).
Proof.
  intros Hq Hu Hf.
  unfold irecovery_poll_for_device, irecovery_finalize_client,
    finalize_until_configured. mred.
  rewrite HandleEvents_quiet by assumption.
  rewrite is_usable_false, Hu. mred.
  destruct (finalized (client s) >? 0) eqn:E; [reflexivity|lia].
Qed.

End NoDeviceFacts.

Lemma no_device_everywhere_witness :
  irecovery_finish_transfer Inputs.idle_client
  = (IRECOVERY_E_NO_DEVICE, Inputs.idle_client)
  /\ irecovery_getret true (Some 7) Inputs.idle_client
     = (IRECOVERY_E_NO_DEVICE, Some 7, Inputs.idle_client)
  /\ irecovery_send_command None Inputs.idle_client
     = (IRECOVERY_E_BAD_PTR, Inputs.idle_client).
Proof.
  assert (Hq : quiet Inputs.idle_client) by reflexivity.
  assert (Hu : usable Inputs.idle_client = false) by reflexivity.
  pose proof (no_device_everywhere Inputs.idle_client [] 0 0 "" "" "" 1
                (fun _ => 0) Hq Hu) as H.
  repeat match goal with |- _ /\ _ => split end.
  - apply H.
  - apply H.
  - apply H.
Defined.

Lemma poll_after_disconnect_witness :
  fst (irecovery_poll_for_device Inputs.unplugged_client) = IRECOVERY_E_NO_DEVICE
  /\ handle (client (snd (irecovery_poll_for_device Inputs.unplugged_client))) = 0%N.
Proof.
  assert (Hev : usb_WaitingEvents (world Inputs.unplugged_client)
                = ([USB_DEVICE_DISCONNECTED_EVENT (handle (client Inputs.unplugged_client))],
                   Emulator.bus [] (fun _ => Some IRECOVERY_K_DFU_MODE)
                                (fun _ => None))) by reflexivity.
  rewrite (poll_after_disconnect Inputs.unplugged_client _ Hev).
  split; reflexivity.
Defined.

Lemma poll_finalized_witness :
  irecovery_poll_for_device Inputs.dfu_client = (IRECOVERY_E_SUCCESS, Inputs.dfu_client).
Proof.
  assert (Hq : quiet Inputs.dfu_client) by reflexivity.
  assert (Hu : usable Inputs.dfu_client = true) by reflexivity.
  apply (poll_finalized Inputs.dfu_client Hq Hu). reflexivity.
Defined.

(** ** String descriptors *)

Section DescriptorFacts.
Context {W : Type} {USB : UsbStack W} {SCAN : Nsscanf}.

Local Abbreviation State := (@State W).

Lemma c_string_ascii (chars : list Z) :
  (forall c, In c chars -> c <= 0x7F) -> all_ascii (c_string chars).
Proof.
  induction chars as [|c chars IH]; intros Hc ch Hin; cbn [c_string] in Hin.
  - destruct Hin.
  - destruct (c =? 0); [destruct Hin|].
    cbn [list_ascii_of_string] in Hin. destruct Hin as [<-|Hin].
    + assert (Hle : c <= 0x7F) by (apply Hc; now left).
      rewrite N_ascii_embedding by lia. lia.
    + apply IH; [|exact Hin]. intros c' Hc'. apply Hc. now right.
Qed.

Lemma c_string_length (chars : list Z) :
  (String.length (c_string chars) <= List.length chars)%nat.
Proof.
  induction chars as [|c chars IH]; cbn [c_string]; [simpl; lia|].
  destruct (c =? 0); simpl; lia.
Qed.

Lemma decode_units_ascii (bound : Z) (bString : list Z) (c : Z) :
  In c (decode_units bound bString) -> c <= 0x7F.
Proof.
  unfold decode_units. intros H. apply in_map_iff in H as (i & <- & _).
  unfold ascii_of_unit. destruct (nth i bString 0 <=? 0x7F) eqn:E; lia.
Qed.

(** X10: however long the descriptor says it is, an ASCII read of a string
    descriptor into a buffer of [size] bytes writes at most [size - 1]
    characters: the count returned is between 0 and [size - 1], the string
    is no longer than this count, and all its characters are ASCII (the
    others were replaced by a question mark).  When nothing is written the
    return value is a negative error code. *)
Theorem string_descriptor_ascii_bounds (index size : Z) (s s' : State) (r : Z)
    (buffer : option string) :
  0 <= size ->
  irecovery_get_string_descriptor_ascii index size s = (r, buffer, s') ->
  match buffer with
  | Some str =>
      0 <= r <= size - 1
      /\ Z.of_nat (String.length str) <= r
      /\ all_ascii str
  | None => r < 0
  end.
Proof.
  intros Hsize. unfold irecovery_get_string_descriptor_ascii. mred.
  destruct (irecovery_client_is_usable true s) as [u s0].
  destruct u; mred; [|intros [= <- <- <-]; reflexivity].
  destruct (size =? 0) eqn:Hz; [intros [= <- <- <-]; reflexivity|].
  apply Z.eqb_neq in Hz.
  destruct (malloc (world s0)) as [allocated w1].
  destruct allocated; mred; [|intros [= <- <- <-]; reflexivity].
  destruct (usb_GetStringDescriptor _ _ _ _) as [[[e t] sd] w2].
  destruct (negb (e =? USB_SUCCESS) || (t =? 0)%N); mred;
    intros [= <- <- <-]; [reflexivity|].
  set (n := Z.quot (sd_bLength sd - 2) 2).
  set (i := if n <? 0 then size - 1 else Z.min n (size - 1)).
  assert (Hi : 0 <= i <= size - 1).
  { unfold i. destruct (n <? 0) eqn:E; lia. }
  split; [exact Hi|]. split.
  - pose proof (c_string_length (decode_units i (sd_bString sd))) as Hl.
    unfold decode_units in Hl at 2. rewrite length_map, length_seq in Hl. lia.
  - apply c_string_ascii. intros c. apply decode_units_ascii.
Qed.

End DescriptorFacts.

Lemma string_descriptor_ascii_bounds_witness :
  let run := irecovery_get_string_descriptor_ascii 3 8 Inputs.restricted_client in
  match snd (fst run) with
  | Some str =>
      0 <= fst (fst run) <= 8 - 1
      /\ Z.of_nat (String.length str) <= fst (fst run)
      /\ all_ascii str
  | None => fst (fst run) < 0
  end.
Proof.
  intros run.
  apply (string_descriptor_ascii_bounds 3 8 Inputs.restricted_client (snd run));
    [lia|].
  unfold run.
  now destruct (irecovery_get_string_descriptor_ascii 3 8 Inputs.restricted_client)
    as [[r buffer] s'].
Defined.

(** ** More of the command channel *)

Section ConsoleFacts.
Context {W : Type} {USB : UsbStack W} {SCAN : Nsscanf}.

Local Abbreviation State := (@State W).

(** X12: on the wire the request byte of [irecovery_send_command] is 1
    exactly for the four commands go, bootx, reboot and memboot, spelled
    without arguments, and 0 for every other command; [irecovery_reboot]
    sends the same reboot command with the request byte 0. *)
Theorem command_request_byte (s : State) (command : string) :
  quiet s -> usable s = true ->
  is_recovery_mode_value (mode (client s)) = true ->
  0 < strlen command < 256 ->
  let request := if irecovery_is_breq_command command then 1 else 0 in
  trace (snd (irecovery_send_command (Some command) s))
    = (trace s ++ [OpControl (handle (client s)) (command_setup command request)
                             (c_bytes command)])%list
  /\ (request = 1 <-> In command ["go"; "bootx"; "reboot"; "memboot"])
  /\ trace (snd (irecovery_reboot s))
      = (trace s ++ [OpControl (handle (client s)) (command_setup "reboot" 0)
                               (c_bytes "reboot")])%list.
Proof.
  intros Hq Hu Hm Hlen request. split; [|split].
  - rewrite send_command_sends by assumption. fold request.
    rewrite send_command_raw_quiet by (try assumption; unfold request;
      destruct (irecovery_is_breq_command command); lia).
    destruct (usb_ControlTransfer _ _ _ _) as [[[e t] r] w]. reflexivity.
  - unfold request, irecovery_is_breq_command. split.
    + destruct (String.eqb_spec command "go") as [->|]; [intros _; simpl; tauto|].
      destruct (String.eqb_spec command "bootx") as [->|]; [intros _; simpl; tauto|].
      destruct (String.eqb_spec command "reboot") as [->|]; [intros _; simpl; tauto|].
      destruct (String.eqb_spec command "memboot") as [->|]; [intros _; simpl; tauto|].
      discriminate.
    + intros [<-|[<-|[<-|[<-|[]]]]]; reflexivity.
  - unfold irecovery_reboot.
    rewrite send_command_raw_quiet by (try assumption; unfold strlen; simpl; lia).
    destruct (usb_ControlTransfer _ _ _ _) as [[[e t] r] w]. reflexivity.
Qed.

Lemma substring_length (n : nat) (str : string) :
  String.length (substring 0 n str) = Nat.min n (String.length str).
Proof.
  revert n. induction str as [|a str IH]; intros [|n]; simpl; try reflexivity.
  now rewrite IH.
Qed.

Lemma control_transfer_error (bm b wv wi : Z) (data : list byte) (wl : Z)
    (s s' : State) (r : Z) (received : list byte) :
  irecovery_usb_control_transfer bm b wv wi data wl s = (r, received, s') ->
  r < 0 -> r = IRECOVERY_E_NO_DEVICE \/ r = IRECOVERY_E_USB_UPLOAD_FAILED.
Proof.
  unfold irecovery_usb_control_transfer. mred.
  destruct (irecovery_client_is_usable true s) as [u s0].
  destruct u; mred; [|intros [= <- _ _] _; now left].
  destruct (usb_ControlTransfer _ _ _ _) as [[[e t] rec] w].
  destruct (e =? USB_SUCCESS); mred; intros [= <- _ _] Hr; [lia|now right].
Qed.

(** What [irecovery_send_command_raw] can return for a command that is
    neither empty nor too long. *)
Lemma send_command_raw_results (command : string) (b : Z) (s : State) :
  0 < strlen command < 256 ->
  In (fst (irecovery_send_command_raw command b s))
     [IRECOVERY_E_SUCCESS; IRECOVERY_E_NO_DEVICE;
      IRECOVERY_E_SERVICE_NOT_AVAILABLE; IRECOVERY_E_USB_UPLOAD_FAILED].
Proof.
  intros Hlen. unfold irecovery_send_command_raw. mred.
  destruct (irecovery_client_is_usable true s) as [u s0].
  destruct u; mred; [|simpl; tauto].
  destruct (is_recovery_mode_value (mode (client s0))); mred; [|simpl; tauto].
  destruct (strlen command >=? 256) eqn:E1; [lia|].
  destruct (strlen command >? 0) eqn:E2; [|lia].
  match goal with |- context [irecovery_usb_control_transfer ?a ?b ?c ?d ?e ?f ?st] =>
    destruct (irecovery_usb_control_transfer a b c d e f st) as [[r rec] s1] eqn:Hct
  end.
  destruct (r <? 0) eqn:Hr; mred; [|simpl; tauto].
  apply Z.ltb_lt in Hr.
  destruct (control_transfer_error _ _ _ _ _ _ _ _ _ _ Hct Hr) as [-> | ->];
    simpl; tauto.
Qed.

(** X13: [irecovery_setenv] and [irecovery_setenv_np] never report a command
    that is too long or empty: whatever the variable and the value, the
    command is cut to its first 254 characters and sent, and the call
    returns success, no-device, service-not-available or upload-failed.  On
    a usable client in recovery mode with no event waiting, each of the two
    sends exactly that prefix with its NUL, with the request byte 0, as its
    one USB operation, and returns success when the transfer succeeds and
    upload-failed otherwise. *)
Theorem setenv_truncates (variable value : string) (s : State) :
  let command := substring 0 254 ("setenv " ++ variable ++ " " ++ value) in
  let command_np := substring 0 254 ("setenvnp " ++ variable ++ " " ++ value) in
  let sent := fun cmd : string =>
    let '(error, _, _, w) :=
      usb_ControlTransfer (handle (client s)) (command_setup cmd 0)
                          (c_bytes cmd) (world s) in
    (if error =? USB_SUCCESS then IRECOVERY_E_SUCCESS
     else IRECOVERY_E_USB_UPLOAD_FAILED,
     {| client := client s; world := w;
        trace := trace s ++ [OpControl (handle (client s)) (command_setup cmd 0)
                                       (c_bytes cmd)] |}) in
  In (fst (irecovery_setenv (Some variable) (Some value) s))
     [IRECOVERY_E_SUCCESS; IRECOVERY_E_NO_DEVICE;
      IRECOVERY_E_SERVICE_NOT_AVAILABLE; IRECOVERY_E_USB_UPLOAD_FAILED]
  /\ In (fst (irecovery_setenv_np (Some variable) (Some value) s))
        [IRECOVERY_E_SUCCESS; IRECOVERY_E_NO_DEVICE;
         IRECOVERY_E_SERVICE_NOT_AVAILABLE; IRECOVERY_E_USB_UPLOAD_FAILED]
  /\ strlen command <= 254
  /\ strlen command_np <= 254
  /\ (quiet s -> usable s = true ->
      is_recovery_mode_value (mode (client s)) = true ->
      irecovery_setenv (Some variable) (Some value) s = sent command
      /\ irecovery_setenv_np (Some variable) (Some value) s = sent command_np
      /\ trace (snd (irecovery_setenv (Some variable) (Some value) s))
         = (trace s ++ [OpControl (handle (client s)) (command_setup command 0)
                                  (c_bytes command)])%list
      /\ trace (snd (irecovery_setenv_np (Some variable) (Some value) s))
         = (trace s ++ [OpControl (handle (client s)) (command_setup command_np 0)
                                  (c_bytes command_np)])%list).
Proof.
  cbv zeta.
  assert (Hlen : forall prefix rest : string,
            (7 <= String.length prefix)%nat ->
            0 < strlen (substring 0 254 (prefix ++ rest)) < 256).
  { intros prefix rest Hp. unfold strlen. rewrite substring_length.
    assert (String.length prefix <= String.length (prefix ++ rest))%nat.
    { clear. induction prefix as [|a prefix IH]; simpl; lia. }
    lia. }
  assert (H1 : 0 < strlen (substring 0 254 ("setenv " ++ variable ++ " " ++ value))
               < 256) by (apply (Hlen "setenv "); simpl; lia).
  assert (H2 : 0 < strlen (substring 0 254 ("setenvnp " ++ variable ++ " " ++ value))
               < 256) by (apply (Hlen "setenvnp "); simpl; lia).
  repeat match goal with |- _ /\ _ => split end.
  - unfold irecovery_setenv. now apply send_command_raw_results.
  - unfold irecovery_setenv_np. now apply send_command_raw_results.
  - unfold strlen in *. rewrite substring_length in *. lia.
  - unfold strlen in *. rewrite substring_length in *. lia.
  - intros Hq Hu Hm.
    assert (Hsent : forall cmd,
              irecovery_send_command_raw cmd 0 s
              = (let '(error, _, _, w) :=
                   usb_ControlTransfer (handle (client s)) (command_setup cmd 0)
                                       (c_bytes cmd) (world s) in
                 (if error =? USB_SUCCESS then IRECOVERY_E_SUCCESS
                  else IRECOVERY_E_USB_UPLOAD_FAILED,
                  {| client := client s; world := w;
                     trace := trace s ++ [OpControl (handle (client s))
                                            (command_setup cmd 0) (c_bytes cmd)] |})) ->
              trace (snd (irecovery_send_command_raw cmd 0 s))
              = (trace s ++ [OpControl (handle (client s)) (command_setup cmd 0)
                                       (c_bytes cmd)])%list).
    { intros cmd ->.
      destruct (usb_ControlTransfer _ _ _ _) as [[[e t] r] w]. reflexivity. }
    unfold irecovery_setenv, irecovery_setenv_np.
    pose proof (send_command_raw_quiet s _ 0 Hq Hu Hm H1 ltac:(lia)) as E1.
    pose proof (send_command_raw_quiet s _ 0 Hq Hu Hm H2 ltac:(lia)) as E2.
    repeat match goal with |- _ /\ _ => split end.
    + exact E1.
    + exact E2.
    + exact (Hsent _ E1).
    + exact (Hsent _ E2).
Qed.

(** X14: [irecovery_reset_counters] does something only in DFU and WTF
    modes, where it sends the clear-status request (0x21, 4) without data;
    in every other mode it returns success without any USB operation. *)
Theorem reset_counters_by_mode (s : State) :
  quiet s -> usable s = true ->
  let dfu := (mode (client s) =? IRECOVERY_K_DFU_MODE)
             || (mode (client s) =? IRECOVERY_K_WTF_MODE) in
  (dfu = false -> irecovery_reset_counters s = (IRECOVERY_E_SUCCESS, s))
  /\ (dfu = true ->
      trace (snd (irecovery_reset_counters s))
      = (trace s ++ [OpControl (handle (client s))
                       {| bmRequestType := 0x21; bRequest := 4; wValue := 0;
                          wIndex := 0; wLength := 0 |} []])%list
      /\ In (fst (irecovery_reset_counters s))
            [IRECOVERY_E_SUCCESS; IRECOVERY_E_USB_UPLOAD_FAILED]).
Proof.
  intros Hq Hu dfu. unfold irecovery_reset_counters. mred.
  rewrite is_usable_quiet by assumption. rewrite Hu. mred. fold dfu.
  split; intros Hd; rewrite Hd; [reflexivity|].
  unfold irecovery_usb_control_transfer. mred.
  rewrite is_usable_quiet by assumption. rewrite Hu. mred.
  change (firstn (Z.to_nat (0 mod 2 ^ 16)) (@nil byte)) with (@nil byte).
  destruct (usb_ControlTransfer _ _ _ _) as [[[e t] r] w].
  destruct (e =? USB_SUCCESS); mred.
  - destruct (Z.of_N t <? 0) eqn:E; [apply Z.ltb_lt in E; lia|].
    split; [reflexivity|simpl; tauto].
  - split; [reflexivity|simpl; tauto].
Qed.

(** X15: [irecovery_finish_transfer] reports nothing of what it does: it
    returns success whenever the client is usable on entry, whether or not
    the finish notification, the status requests and the reset went
    through, and no-device otherwise. *)
Theorem finish_transfer_result (s : State) :
  fst (irecovery_finish_transfer s)
  = if fst (irecovery_client_is_usable true s)
    then IRECOVERY_E_SUCCESS else IRECOVERY_E_NO_DEVICE.
Proof.
  unfold irecovery_finish_transfer. mred.
  destruct (irecovery_client_is_usable true s) as [u s0].
  destruct u; mred; [|reflexivity].
  destruct (irecovery_usb_control_transfer _ _ _ _ _ _ s0) as [x s1].
  destruct (get_status_times 3 s1) as [y s2].
  destruct (irecovery_reset s2) as [z s3]. reflexivity.
Qed.

(** X16: a progress subscription lives in the device zone.  On a usable
    client, subscribing to the progress event stores the callback and
    unsubscribing removes it; any other event type is refused with the
    unknown-event-type error; and clearing the device zone (a detach) drops
    the subscription. *)
Theorem subscription_lifetime (s : State) (callback : irecovery_event_cb_t)
    (type : Z) :
  usable s = true ->
  let subscribed := {| client := set_progress_callback (Some callback) (client s);
                       world := world s; trace := trace s |} in
  irecovery_event_subscribe IRECOVERY_PROGRESS_code (Some callback) s
    = (IRECOVERY_E_SUCCESS, subscribed)
  /\ usable subscribed = true
  /\ progress_callback
       (client (snd (irecovery_event_unsubscribe IRECOVERY_PROGRESS_code subscribed)))
     = None
  /\ progress_callback (irecovery_client_clear_device_zone (client subscribed)) = None
  /\ (type <> IRECOVERY_PROGRESS_code ->
      irecovery_event_subscribe type (Some callback) s
        = (IRECOVERY_E_UNKNOWN_EVENT_TYPE, s)
      /\ irecovery_event_unsubscribe type s = (IRECOVERY_E_UNKNOWN_EVENT_TYPE, s)).
Proof.
  intros Hu subscribed.
  assert (Hus : usable subscribed = true).
  { unfold usable in *. cbn [client world subscribed set_progress_callback handle].
    apply andb_true_iff in Hu as [Hu _]. rewrite Hu.
    unfold device_zone_nonzero. cbn. now rewrite !orb_true_r. }
  split; [|split; [|split; [|split]]].
  - unfold irecovery_event_subscribe. mred. rewrite is_usable_false, Hu. reflexivity.
  - exact Hus.
  - unfold irecovery_event_unsubscribe. mred. rewrite is_usable_false, Hus. reflexivity.
  - now destruct (clear_zone_fields (client subscribed)) as (_ & _ & H & _).
  - intros Ht. apply Z.eqb_neq in Ht.
    unfold irecovery_event_subscribe, irecovery_event_unsubscribe. mred.
    rewrite is_usable_false, Hu, Ht. split; reflexivity.
Qed.


End ConsoleFacts.

Lemma command_request_byte_witness :
  trace (snd (irecovery_send_command (Some "go") Inputs.recovery_client))
  = [OpControl 1%N (command_setup "go" 1) (c_bytes "go")]
  /\ trace (snd (irecovery_reboot Inputs.recovery_client))
     = [OpControl 1%N (command_setup "reboot" 0) (c_bytes "reboot")].
Proof.
  assert (Hq : quiet Inputs.recovery_client) by reflexivity.
  assert (Hu : usable Inputs.recovery_client = true) by reflexivity.
  assert (Hl : 0 < strlen "go" < 256) by (unfold strlen; simpl; lia).
  destruct (command_request_byte Inputs.recovery_client "go" Hq Hu eq_refl Hl)
    as (Hgo & _ & Hreboot).
  split; [exact Hgo|exact Hreboot].
Defined.

Lemma setenv_truncates_witness :
  let command := substring 0 254 ("setenv " ++ "k" ++ " " ++ Inputs.command_255) in
  let command_np := substring 0 254 ("setenvnp " ++ "k" ++ " " ++ Inputs.command_255) in
  strlen command <= 254
  /\ trace (snd (irecovery_setenv (Some "k") (Some Inputs.command_255)
                   Inputs.recovery_client))
     = [OpControl 1%N (command_setup command 0) (c_bytes command)]
  /\ trace (snd (irecovery_setenv_np (Some "k") (Some Inputs.command_255)
                   Inputs.recovery_client))
     = [OpControl 1%N (command_setup command_np 0) (c_bytes command_np)].
Proof.
  intros command command_np.
  assert (Hq : quiet Inputs.recovery_client) by reflexivity.
  assert (Hu : usable Inputs.recovery_client = true) by reflexivity.
  destruct (setenv_truncates "k" Inputs.command_255 Inputs.recovery_client)
    as (_ & _ & Hlen & _ & Hsent).
  destruct (Hsent Hq Hu eq_refl) as (_ & _ & Hset & Hnp).
  split; [exact Hlen|split; [exact Hset|exact Hnp]].
Defined.

Lemma reset_counters_by_mode_witness :
  irecovery_reset_counters Inputs.recovery_client
  = (IRECOVERY_E_SUCCESS, Inputs.recovery_client)
  /\ trace (snd (irecovery_reset_counters Inputs.dfu_client))
     = [OpControl 1%N {| bmRequestType := 0x21; bRequest := 4; wValue := 0;
                         wIndex := 0; wLength := 0 |} []].
Proof.
  assert (Hq : quiet Inputs.recovery_client) by reflexivity.
  assert (Hu : usable Inputs.recovery_client = true) by reflexivity.
  assert (Hq' : quiet Inputs.dfu_client) by reflexivity.
  assert (Hu' : usable Inputs.dfu_client = true) by reflexivity.
  destruct (reset_counters_by_mode Inputs.recovery_client Hq Hu) as [Hrecovery _].
  destruct (reset_counters_by_mode Inputs.dfu_client Hq' Hu') as [_ Hdfu].
  split; [exact (Hrecovery eq_refl)|exact (proj1 (Hdfu eq_refl))].
Defined.

Lemma subscription_lifetime_witness :
  fst (irecovery_event_subscribe IRECOVERY_PROGRESS_code (Some (fun _ => 0))
         Inputs.dfu_client) = IRECOVERY_E_SUCCESS
  /\ fst (irecovery_event_subscribe 2 (Some (fun _ => 0)) Inputs.dfu_client)
     = IRECOVERY_E_UNKNOWN_EVENT_TYPE.
Proof.
  assert (Hu : usable Inputs.dfu_client = true) by reflexivity.
  destruct (subscription_lifetime Inputs.dfu_client (fun _ => 0) 2 Hu)
    as (Hsub & _ & _ & _ & Hother).
  split.
  - exact (f_equal fst Hsub).
  - destruct Hother as [Hother _]; [discriminate|]. exact (f_equal fst Hother).
Defined.


(** ** More of the upload engine *)

Section BulkFacts.
Context {W : Type} {USB : UsbStack W} {SCAN : Nsscanf}.

Local Abbreviation State := (@State W).

Lemma bulk_frames_app (t1 t2 : list usb_op) :
  bulk_frames (t1 ++ t2) = (bulk_frames t1 ++ bulk_frames t2)%list.
Proof. unfold bulk_frames. apply flat_map_app. Qed.

Lemma bulk_frames_quiet (t : list usb_op) (op : usb_op) :
  bulk_frame op = [] -> bulk_frames (t ++ [op]) = bulk_frames t.
Proof.
  intros H. rewrite bulk_frames_app. unfold bulk_frames at 2. simpl.
  rewrite H. now rewrite !app_nil_r.
Qed.

Lemma bulk_call (B : list (list byte)) {A} (f : W -> A * W) :
  preserves (W:=W) (bulk_are B) (call f).
Proof. intros [c w t] H. unfold call. simpl. now destruct (f w). Qed.

Lemma bulk_log_op (B : list (list byte)) (op : usb_op) :
  bulk_frame op = [] -> preserves (W:=W) (bulk_are B) (log_op op).
Proof.
  intros Hop s H. unfold bulk_are, log_op in *. simpl.
  now rewrite bulk_frames_quiet.
Qed.

Lemma bulk_is_usable (B : list (list byte)) (run : bool) :
  preserves (W:=W) (bulk_are B) (irecovery_client_is_usable run).
Proof.
  apply preserves_is_usable; try (intros; assumption);
    intros d c w t H; unfold bulk_are in *; cbn [trace] in *;
    now rewrite bulk_frames_quiet.
Qed.

Lemma bulk_control (B : list (list byte)) (bm b wv wi : Z) (data : list byte)
    (wl : Z) :
  preserves (W:=W) (bulk_are B) (irecovery_usb_control_transfer bm b wv wi data wl).
Proof.
  pose proof (bulk_is_usable B). pose proof (@bulk_call B).
  unfold irecovery_usb_control_transfer.
  repeat preserves_step.
  apply bulk_log_op. reflexivity.
Qed.

Lemma bulk_stable {A} (m : M A) (s s' : State) (a : A) :
  (forall B, preserves (bulk_are B) m) -> m s = (a, s') ->
  bulk_frames (trace s') = bulk_frames (trace s).
Proof.
  intros Hm Hrun. specialize (Hm (bulk_frames (trace s)) s eq_refl).
  now rewrite Hrun in Hm.
Qed.

(** One bulk transfer: what it returns and what it leaves in the trace. *)
Lemma bulk_transfer_cases (data : list byte) (size : Z) (s s' : State)
    (r : Z) (transferred : option Z) :
  irecovery_usb_bulk_transfer 0x04 data size s = (r, transferred, s') ->
  (transferred = None /\ r <> IRECOVERY_E_SUCCESS
   \/ transferred = Some r)
  /\ (bulk_frames (trace s') = bulk_frames (trace s)
      \/ bulk_frames (trace s')
         = (bulk_frames (trace s) ++ [firstn (Z.to_nat size) data])%list).
Proof.
  unfold irecovery_usb_bulk_transfer. intros Hrun.
  apply bind_inv in Hrun as (u & s0 & Hu & Hrun).
  apply (bulk_stable _ _ _ _ (fun B => bulk_is_usable B true)) in Hu.
  destruct u; cbn [negb] in Hrun.
  - revert Hrun. mred.
    destruct (usb_Transfer _ _ _ _ _) as [[e t] w].
    destruct (e =? USB_SUCCESS); mred; intros [= <- <- <-]; cbn [trace];
      (split; [|right; rewrite bulk_frames_app, Hu; reflexivity]).
    + now right.
    + left. split; [reflexivity|discriminate].
  - injection Hrun as <- <- <-. split; [|now left].
    left. split; [reflexivity|discriminate].
Qed.

(** In recovery mode the first round of the packet loop never goes on to a
    second one. *)
Lemma send_packet_recovery (buffer : list byte) (length ps last packets i : Z)
    (v : upload_vars) (s s' : State) (sent : Z + upload_vars) :
  let size := if i + 1 <? packets then ps else last in
  send_packet true buffer length ps last packets i v s = (sent, s') ->
  0 < size -> bytes v = 0 ->
  (exists e, sent = inl e /\ e <> IRECOVERY_E_SUCCESS)
  /\ (bulk_frames (trace s') = bulk_frames (trace s)
      \/ bulk_frames (trace s')
         = (bulk_frames (trace s)
            ++ [firstn (Z.to_nat size) (slice buffer (i * ps) size)])%list).
Proof.
  intros size Hrun Hsize Hbytes.
  unfold send_packet in Hrun. cbv zeta in Hrun. fold size in Hrun.
  apply bind_inv in Hrun as (transferred & s1 & Ht & Hrun).
  unfold transfer_packet in Ht. cbv zeta iota in Ht.
  apply bind_inv in Ht as ([r t] & s2 & Hbulk & Ht).
  injection Ht as <- <-.
  destruct (bulk_transfer_cases _ _ _ _ _ _ Hbulk) as [Hr Hframes].
  cbn [bytes error status negb andb] in Hrun.
  destruct Hr as [[-> Hr] | ->].
  - rewrite Hbytes in Hrun.
    destruct (0 =? size) eqn:E; [lia|]. cbn [negb] in Hrun.
    injection Hrun as <- <-. split; [|exact Hframes].
    eexists. split; [reflexivity|discriminate].
  - destruct (r =? size) eqn:E; cbn [negb] in Hrun.
    + apply Z.eqb_eq in E. subst r.
      revert Hrun. mred.
      destruct (size =? IRECOVERY_E_SUCCESS) eqn:E;
        [unfold IRECOVERY_E_SUCCESS in E; lia|].
      mred. intros [= <- <-]. split; [|exact Hframes].
      eexists. split; [reflexivity|unfold IRECOVERY_E_SUCCESS; lia].
    + injection Hrun as <- <-. split; [|exact Hframes].
      eexists. split; [reflexivity|discriminate].
Qed.

(** X18: an upload in a recovery mode never returns success for a payload
    that is not empty (and shorter than 2^23 bytes, so that the packet count
    fits an int).  A bulk transfer that succeeds returns its byte
    count, the packet loop takes it for an error, and the upload stops: at
    most one bulk frame is sent, the first packet of the payload. *)
Theorem recovery_upload_never_succeeds (buffer : list byte) (length options : Z)
    (s : State) :
  let entry_mode := mode (client (snd (irecovery_client_is_usable true s))) in
  entry_mode <> IRECOVERY_K_DFU_MODE -> entry_mode <> IRECOVERY_K_WTF_MODE ->
  0 < length < 2 ^ 23 ->
  let run := irecovery_send_buffer buffer length options s in
  fst run <> IRECOVERY_E_SUCCESS
  /\ (bulk_frames (trace (snd run)) = bulk_frames (trace s)
      \/ bulk_frames (trace (snd run))
         = (bulk_frames (trace s)
            ++ [firstn (Z.to_nat (Z.min length 0x8000)) buffer])%list).
Proof.
  intros entry_mode Hdfu Hwtf Hlen run.
  destruct run as [r s'] eqn:Hrun. unfold run in Hrun. cbn [fst snd].
  unfold irecovery_send_buffer in Hrun.
  apply bind_inv in Hrun as (u & s0 & Hu & Hrun).
  assert (Hm : mode (client s0) = entry_mode) by (unfold entry_mode; now rewrite Hu).
  apply (bulk_stable _ _ _ _ (fun B => bulk_is_usable B true)) in Hu.
  destruct u; cbn [negb] in Hrun.
  2:{ injection Hrun as <- <-. split; [discriminate|now left]. }
  apply bind_inv in Hrun as (c & s0' & Hc & Hrun). injection Hc as <- <-.
  rewrite Hm in Hrun.
  assert (Hrec : negb (entry_mode =? IRECOVERY_K_DFU_MODE)
                 && negb (entry_mode =? IRECOVERY_K_WTF_MODE) = true).
  { apply Z.eqb_neq in Hdfu, Hwtf. now rewrite Hdfu, Hwtf. }
  rewrite Hrec in Hrun. cbv zeta iota in Hrun.
  apply bind_inv in Hrun as (started & s1 & Hstart & Hrun).
  unfold initiate_transfer in Hstart.
  apply bind_inv in Hstart as ([e rec] & s1' & Hinit & Hstart).
  injection Hstart as <- <-.
  apply (bulk_stable _ _ _ _ (fun B => bulk_control B _ _ _ _ _ _)) in Hinit.
  destruct (negb (e =? IRECOVERY_E_SUCCESS)) eqn:He.
  { injection Hrun as <- <-. split; [|left; congruence].
    intros ->. discriminate He. }
  apply bind_inv in Hrun as (sent & s2 & Hloop & Hrun).
  destruct (packets_of_length length 0x8000) as (Hlast & Hpackets & Htotal);
    [lia..|].
  cbv zeta in Hlast, Hpackets, Htotal.
  set (last := if negb (length mod 0x8000 =? 0) then length mod 0x8000 else 0x8000) in *.
  set (packets := if negb (length mod 0x8000 =? 0)
                  then length / 0x8000 + 1 else length / 0x8000) in *.
  destruct (Z.to_nat packets) as [|rounds] eqn:Hrounds; [lia|].
  cbn [send_packets] in Hloop.
  apply bind_inv in Hloop as (first & s3 & Hfirst & Hloop).
  apply send_packet_recovery in Hfirst;
    [|destruct (0 + 1 <? packets); lia|reflexivity].
  destruct Hfirst as [(e1 & -> & He1) Hframes].
  injection Hloop as <- <-. injection Hrun as <- <-.
  split; [exact He1|].
  rewrite Hinit, Hu in Hframes.
  destruct Hframes as [Hframes|Hframes]; [now left|right].
  rewrite Hframes. do 2 f_equal.
  assert (Hsize : (if 0 + 1 <? packets then 0x8000 else last) = Z.min length 0x8000).
  { destruct (0 + 1 <? packets) eqn:E; [apply Z.ltb_lt in E|apply Z.ltb_ge in E]; nia. }
  rewrite Hsize. unfold slice. change (Z.to_nat (0 * 0x8000)) with 0%nat.
  cbn [skipn]. rewrite firstn_firstn. now rewrite Nat.min_id.
Qed.

End BulkFacts.

Lemma recovery_upload_never_succeeds_witness :
  fst (irecovery_send_buffer (repeat x00 512) 512 0 Inputs.recovery_client)
  <> IRECOVERY_E_SUCCESS.
Proof.
  apply (recovery_upload_never_succeeds (repeat x00 512) 512 0 Inputs.recovery_client);
    [intros H; vm_compute in H; discriminate H
    |intros H; vm_compute in H; discriminate H
    |lia].
Defined.

Section StreamFacts.
Context {W : Type} {USB : UsbStack W} {SCAN : Nsscanf}.

Local Abbreviation State := (@State W).

Lemma trailer_length (h : Z) : List.length (trailer h) = 16%nat.
Proof. reflexivity. Qed.

(** The CRC is never computed in this section. *)
Local Opaque Crc.crc32_steps Crc.le32.

Lemma last_frames_stream (ps : Z) (chunk : list byte) (h : Z) :
  16 <= ps -> 0 < Z.of_nat (List.length chunk) <= ps ->
  List.concat (last_frames ps chunk h)
  = (chunk ++ trailer (Crc.crc32_steps (Crc.crc32_steps h chunk) dfu_xbuf))%list
  /\ Forall (fun f => 0 < Z.of_nat (List.length f) <= ps) (last_frames ps chunk h).
Proof.
  intros Hps Hchunk. unfold last_frames. cbv zeta.
  destruct (_ >? ps) eqn:E; cbn [List.concat]; rewrite app_nil_r.
  - split; [reflexivity|].
    repeat constructor; rewrite ?trailer_length; lia.
  - split; [reflexivity|].
    repeat constructor; rewrite length_app, trailer_length; lia.
Qed.

(** The DFU loop, when it runs to its end: the chunks it sent hold
    everything from packet [i] on and the trailer. *)
Lemma send_packets_dfu_stream (buffer : list byte) (length ps last packets : Z) :
  0 < last <= ps -> 16 <= ps -> ps + 16 < 2 ^ 16 ->
  (packets - 1) * ps + last = Z.of_nat (List.length buffer) ->
  forall (rounds : nat) (i : Z) (v v' : upload_vars) (s s' : State),
    (1 <= rounds)%nat -> 0 <= i -> i + Z.of_nat rounds = packets ->
    send_packets false buffer length ps last packets rounds i v s = (inr v', s') ->
    exists frames,
      download_frames (trace s') = (download_frames (trace s) ++ frames)%list
      /\ List.concat frames
         = (skipn (Z.to_nat (i * ps)) buffer
            ++ trailer (Crc.crc32_steps (h1 v)
                          (skipn (Z.to_nat (i * ps)) buffer ++ dfu_xbuf)))%list
      /\ Forall (fun f => 0 < Z.of_nat (List.length f) <= ps) frames.
Proof.
  intros Hlast Hps16 Hps Htotal rounds.
  induction rounds as [|rounds IH]; intros i v v' s s' Hr Hi Hsum Hrun; [lia|].
  cbn [send_packets] in Hrun.
  apply bind_inv in Hrun as (sent & s1 & Hsent & Hrun).
  destruct sent as [e|v1]; [discriminate Hrun|].
  apply send_packet_dfu in Hsent; cycle 1.
  - destruct (i + 1 <? packets) eqn:Hnext.
    + apply slice_length; nia.
    + apply slice_length; nia.
  - destruct (i + 1 <? packets); lia.
  - exact Hps.
  - destruct Hsent as [Hframes Hcrc].
    destruct rounds as [|rounds].
    + (* the last packet *)
      cbn [send_packets] in Hrun. injection Hrun as <- <-.
      assert (Hi1 : i + 1 = packets) by lia.
      destruct (i + 1 =? packets) eqn:E; [|lia].
      destruct (i + 1 <? packets) eqn:E'; [lia|].
      rewrite slice_rest in Hframes by nia.
      destruct (last_frames_stream ps (skipn (Z.to_nat (i * ps)) buffer) (h1 v))
        as [Hcat Hall]; [lia|rewrite length_skipn; nia|].
      eexists. split; [exact Hframes|]. split; [|exact Hall].
      rewrite Hcat, <- CrcFacts.crc32_steps_app. reflexivity.
    + (* a full packet, and the rest of the loop *)
      destruct (i + 1 =? packets) eqn:E; [lia|].
      destruct (i + 1 <? packets) eqn:E'; [|lia].
      apply IH in Hrun; [|lia..].
      destruct Hrun as (frames & Hrest & Hcat & Hall).
      exists (slice buffer (i * ps) ps :: frames).
      split; [|split].
      * rewrite Hrest, Hframes, <- app_assoc. reflexivity.
      * cbn [List.concat]. rewrite Hcat, Hcrc, <- CrcFacts.crc32_steps_app.
        rewrite (slice_next buffer (i * ps) ps) by nia.
        replace (i * ps + ps) with ((i + 1) * ps) by lia.
        rewrite <- !app_assoc. reflexivity.
      * constructor; [|exact Hall].
        rewrite slice_length; nia.
Qed.

(** X19: what a DFU or WTF upload puts on the wire.  For a payload of
    length 0 < L < 2^23, when the upload succeeds, the download chunks it sent,
    taken in order and put end to end, are the payload, the 12 bytes of the
    magic and the 4 bytes of the CRC, nothing more; and no chunk is empty
    or longer than the packet size 0x800. *)
Theorem dfu_upload_stream (buffer : list byte) (options : Z) (s s' : State) :
  0 < Z.of_nat (List.length buffer) < 2 ^ 23 ->
  let entry_mode := mode (client (snd (irecovery_client_is_usable true s))) in
  entry_mode = IRECOVERY_K_DFU_MODE \/ entry_mode = IRECOVERY_K_WTF_MODE ->
  irecovery_send_buffer buffer (Z.of_nat (List.length buffer)) options s
    = (IRECOVERY_E_SUCCESS, s') ->
  exists frames,
    download_frames (trace s') = (download_frames (trace s) ++ frames)%list
    /\ List.concat frames
       = (buffer ++ dfu_xbuf
          ++ Crc.le32 (Crc.crc32_reference 0xEDB88320 0xFFFFFFFF
                         (buffer ++ dfu_xbuf)))%list
    /\ Forall (fun f => 0 < Z.of_nat (List.length f) <= 0x800) frames.
Proof.
  intros Hlen entry_mode Hmode Hrun.
  destruct (send_buffer_dfu_loop _ _ _ _ _ Hmode Hrun)
    as (v & v' & s1 & s2 & Hh & H1 & Hloop & H2).
  destruct (packets_of_length (Z.of_nat (List.length buffer)) 0x800)
    as (Hlast & Hpackets & Htotal); [lia..|].
  eapply send_packets_dfu_stream in Hloop; try eassumption; try lia.
  destruct Hloop as (frames & Hframes & Hcat & Hall).
  exists frames. split; [|split; [|exact Hall]].
  - rewrite H2, Hframes, H1. reflexivity.
  - rewrite Hcat, Hh. change (Z.to_nat (0 * 0x800)) with 0%nat.
    cbn [skipn]. unfold trailer. rewrite CrcFacts.crc32_steps_reference.
    reflexivity.
Qed.

Lemma bulk_initiate_dfu (B : list (list byte)) :
  preserves (W:=W) (bulk_are B) (initiate_transfer false).
Proof.
  pose proof (bulk_control B).
  unfold initiate_transfer. repeat preserves_step.
Qed.

(** X20: a DFU or WTF upload starts by asking the device for its state, and
    goes on only when the answer is one byte that says idle (2).  When the
    request fails, or transfers another count than 1, or answers another
    state, the upload returns upload-failed and no download chunk and no
    bulk frame is sent. *)
Theorem dfu_upload_needs_idle (buffer : list byte) (length options : Z) (s : State)
    (e : usb_error_t) (t : N) (received : list byte) (w' : W) :
  quiet s -> usable s = true ->
  mode (client s) = IRECOVERY_K_DFU_MODE \/ mode (client s) = IRECOVERY_K_WTF_MODE ->
  usb_ControlTransfer (handle (client s))
    {| bmRequestType := 0xA1; bRequest := 5; wValue := 0; wIndex := 0; wLength := 1 |}
    [x00] (world s) = (e, t, received, w') ->
  (e =? USB_SUCCESS) && (t =? 1)%N && (Crc.byte_val (nth 0 received x00) =? 2) = false ->
  let run := irecovery_send_buffer buffer length options s in
  fst run = IRECOVERY_E_USB_UPLOAD_FAILED
  /\ download_frames (trace (snd run)) = download_frames (trace s)
  /\ bulk_frames (trace (snd run)) = bulk_frames (trace s).
Proof.
  intros Hq Hu Hmode Htransfer Hnot run.
  destruct run as [r s'] eqn:Hrun. unfold run in Hrun. cbn [fst snd].
  unfold irecovery_send_buffer in Hrun.
  apply bind_inv in Hrun as (u & s0 & Husable & Hrun).
  rewrite is_usable_quiet in Husable by assumption.
  injection Husable as <- <-. rewrite Hu in Hrun. cbn [negb] in Hrun.
  apply bind_inv in Hrun as (c & s0' & Hc & Hrun). injection Hc as <- <-.
  assert (Hrec : negb (mode (client s) =? IRECOVERY_K_DFU_MODE)
                 && negb (mode (client s) =? IRECOVERY_K_WTF_MODE) = false)
    by (destruct Hmode as [-> | ->]; reflexivity).
  rewrite Hrec in Hrun. cbv zeta iota in Hrun.
  apply bind_inv in Hrun as (started & s1 & Hstart & Hrun).
  pose proof (frames_stable _ _ _ _ frames_initiate_dfu Hstart) as Hframes.
  pose proof (bulk_stable _ _ _ _ bulk_initiate_dfu Hstart) as Hbulk.
  assert (Hfailed : started = inl IRECOVERY_E_USB_UPLOAD_FAILED
                    \/ started = inr IRECOVERY_E_USB_UPLOAD_FAILED).
  { unfold initiate_transfer in Hstart.
    apply bind_inv in Hstart as ([r0 state] & s2 & Hstate & Hstart).
    unfold irecovery_usb_control_transfer in Hstate. revert Hstate. mred.
    rewrite is_usable_quiet by assumption. rewrite Hu. mred.
    change (firstn (Z.to_nat (1 mod 2 ^ 16)) (zeros 1)) with [x00].
    change (0xa1 mod 2 ^ 8) with 0xA1. change (5 mod 2 ^ 8) with 5.
    change (0 mod 2 ^ 16) with 0. change (1 mod 2 ^ 16) with 1.
    rewrite Htransfer.
    destruct (e =? USB_SUCCESS); mred; intros [= <- <- <-].
    - cbn [andb] in Hnot. revert Hstart.
      destruct (t =? 1)%N eqn:Ht.
      + apply N.eqb_eq in Ht. subst t. cbn [andb] in Hnot.
        change (negb (Z.of_N 1 =? 1)) with false. cbv iota zeta.
        destruct received as [|b rest]; cbn [nth] in Hnot |- *; rewrite Hnot;
          destruct (_ =? 10); intros H;
          apply bind_inv in H as (x & s3 & _ & H); injection H as <- _; now right.
      + apply N.eqb_neq in Ht.
        destruct (negb (Z.of_N t =? 1)) eqn:E.
        * intros [= <- _]. now left.
        * apply negb_false_iff, Z.eqb_eq in E. lia.
    - revert Hstart.
      change (negb (IRECOVERY_E_USB_UPLOAD_FAILED =? 1)) with true.
      intros [= <- _]. now left. }
  destruct Hfailed as [-> | ->].
  - injection Hrun as <- <-. now repeat split.
  - change (negb (IRECOVERY_E_USB_UPLOAD_FAILED =? IRECOVERY_E_SUCCESS)) with true in Hrun.
    injection Hrun as <- <-. now repeat split.
Qed.

End StreamFacts.

Lemma dfu_upload_stream_witness :
  exists frames,
    download_frames (trace (snd (irecovery_send_buffer [x00] 1 0 Inputs.dfu_client)))
    = frames
    /\ List.concat frames
       = ([x00] ++ dfu_xbuf
          ++ Crc.le32 (Crc.crc32_reference 0xEDB88320 0xFFFFFFFF ([x00] ++ dfu_xbuf)))%list
    /\ Forall (fun f => 0 < Z.of_nat (List.length f) <= 0x800) frames.
Proof.
  destruct (irecovery_send_buffer [x00] 1 0 Inputs.dfu_client) as [r s'] eqn:Hrun.
  assert (Hr : r = IRECOVERY_E_SUCCESS).
  { change r with (fst (r, s')). rewrite <- Hrun. vm_compute. reflexivity. }
  subst r.
  assert (Hlen : 0 < Z.of_nat (List.length [x00]) < 2 ^ 23) by (simpl; lia).
  assert (Hmode : mode (client (snd (irecovery_client_is_usable true Inputs.dfu_client)))
                  = IRECOVERY_K_DFU_MODE) by reflexivity.
  exact (dfu_upload_stream [x00] 0 Inputs.dfu_client s' Hlen (or_introl Hmode) Hrun).
Defined.

Lemma dfu_upload_needs_idle_witness :
  let run := irecovery_send_buffer [x00] 1 0 Inputs.dfu_error_client in
  fst run = IRECOVERY_E_USB_UPLOAD_FAILED
  /\ download_frames (trace (snd run)) = []
  /\ bulk_frames (trace (snd run)) = [].
Proof.
  assert (Hq : quiet Inputs.dfu_error_client) by reflexivity.
  assert (Hu : usable Inputs.dfu_error_client = true) by reflexivity.
  assert (Hmode : mode (client Inputs.dfu_error_client) = IRECOVERY_K_DFU_MODE)
    by reflexivity.
  exact (dfu_upload_needs_idle [x00] 1 0 Inputs.dfu_error_client USB_SUCCESS 1%N
           [x0a] (world Inputs.dfu_error_client) Hq Hu (or_introl Hmode)
           eq_refl eq_refl).
Defined.

(** ** Nonces, finalization and error messages *)

Section NonceFacts.
Context {W : Type} {USB : UsbStack W} {SCAN : Nsscanf}.

Local Abbreviation State := (@State W).

Lemma strchr_bound (c : ascii) (str : string) : forall n,
  strchr str c = Some n -> (n < String.length str)%nat.
Proof.
  induction str as [|a str IH]; intros n; cbn [strchr String.length].
  - discriminate.
  - destruct (Ascii.eqb a c).
    + intros [= <-]. lia.
    + destruct (strchr str c) as [m|]; [|discriminate].
      intros [= <-]. specialize (IH m eq_refl). lia.
Qed.

Lemma string_drop_length (n : nat) : forall str,
  String.length (string_drop n str) = (String.length str - n)%nat.
Proof.
  induction n as [|n IH]; intros [|a str]; cbn [string_drop String.length];
    try reflexivity.
  apply IH.
Qed.

(** The nonce string the tag loop yields lies in the buffer, and its [nlen]
    pairs of characters do too. *)
Lemma find_nonce_string_bound (tag : string) (rounds : nat) :
  forall (p nonce_string : string) (nlen : Z),
    find_nonce_string rounds tag p = Some (nonce_string, nlen) ->
    (String.length nonce_string <= String.length p)%nat
    /\ 0 <= nlen /\ 2 * nlen <= Z.of_nat (String.length nonce_string).
Proof.
  induction rounds as [|rounds IH]; intros p nonce_string nlen;
    cbn [find_nonce_string]; [discriminate|].
  cbv zeta.
  destruct (strchr p ":") as [colon|] eqn:Hcolon; [|discriminate].
  destruct (colon <? String.length tag)%nat; [discriminate|].
  pose proof (strchr_bound _ _ _ Hcolon) as Hc.
  destruct (String.eqb _ tag).
  - set (p' := string_drop (S colon) p).
    assert (Hp' : String.length p' = (String.length p - S colon)%nat)
      by apply string_drop_length.
    clearbody p'. intros [= <- <-]. rewrite Hp'. split; [lia|].
    destruct (strchr (string_drop colon p) " ") as [sp|] eqn:Hsp.
    + apply strchr_bound in Hsp. rewrite string_drop_length in Hsp.
      destruct (Z.eq_dec (Z.of_nat sp) 0) as [E|E].
      * rewrite E. change (Z.quot (0 - 1) 2) with 0. lia.
      * pose proof (Z.quot_pos (Z.of_nat sp - 1) 2 ltac:(lia) ltac:(lia)).
        pose proof (Z.mul_quot_le (Z.of_nat sp - 1) 2 ltac:(lia) ltac:(lia)).
        lia.
    + pose proof (Z.quot_pos (Z.of_nat (String.length p - S colon)) 2
                    ltac:(lia) ltac:(lia)).
      pose proof (Z.mul_quot_le (Z.of_nat (String.length p - S colon)) 2
                    ltac:(lia) ltac:(lia)).
      lia.
  - destruct (strchr (string_drop colon p) " ") as [sp|]; [|discriminate].
    intros H. apply IH in H. rewrite string_drop_length in H. lia.
Qed.

Lemma scan_nonce_bytes_length (nlen : nat) : forall (nonce_string : string) nn,
  scan_nonce_bytes nlen nonce_string = Some nn -> List.length nn = nlen.
Proof.
  induction nlen as [|n IH]; intros nonce_string nn; cbn [scan_nonce_bytes].
  - now intros [= <-].
  - destruct (nsscanf_2x nonce_string); [|discriminate].
    destruct (scan_nonce_bytes n _) as [rest|] eqn:E; [|discriminate].
    intros [= <-]. cbn [List.length]. f_equal. now apply (IH _ _ E).
Qed.

(** X21: when [irecovery_copy_nonce_with_tag_from_buffer] stores a nonce,
    the size it stores is the number of bytes of the nonce, it is not 0,
    and the pairs of hex characters the nonce was read from lie within the
    buffer: twice the size is at most the length of the buffer. *)
Theorem nonce_size_is_length (tag buf : string) (s s' : State)
    (nn : list byte) (nlen : Z) :
  irecovery_copy_nonce_with_tag_from_buffer tag buf s = (Some (nn, nlen), s') ->
  nlen = Z.of_nat (List.length nn)
  /\ 0 < nlen
  /\ 2 * nlen <= Z.of_nat (String.length buf).
Proof.
  unfold irecovery_copy_nonce_with_tag_from_buffer.
  destruct (find_nonce_string _ tag buf) as [[nonce_string n]|] eqn:Hfind;
    [|discriminate].
  apply find_nonce_string_bound in Hfind. destruct Hfind as (Hin & Hpos & Htwice).
  destruct (n =? 0) eqn:E; [discriminate|]. apply Z.eqb_neq in E.
  mred. destruct (malloc (world s)) as [allocated w]. mred.
  destruct allocated; mred; [|discriminate].
  destruct (scan_nonce_bytes (Z.to_nat n) nonce_string) as [bytes|] eqn:Hscan;
    [|discriminate].
  intros [= <- <- _]. apply scan_nonce_bytes_length in Hscan. lia.
Qed.

(** The returns of [irecovery_finalize_client] before the nonces. *)
Lemma finalize_until_configured_success (s s' : State) :
  finalize_until_configured s = (Some IRECOVERY_E_SUCCESS, s') ->
  0 < finalized (client s').
Proof.
  unfold finalize_until_configured. intros H.
  apply bind_inv in H as (u & s0 & Hu & H). rewrite is_usable_false in Hu.
  injection Hu as <- <-.
  destruct (usable s); cbn [negb] in H; [|discriminate H].
  apply bind_inv in H as (c & s0 & Hc & H). injection Hc as <- <-.
  destruct (finalized (client s) >? 0) eqn:Hf.
  { injection H as <-. lia. }
  destruct (finalized (client s) <? 0); [discriminate H|].
  apply bind_inv in H as ([r serial] & s1 & _ & H).
  destruct (r <? 0) eqn:Hr.
  { injection H as -> _. discriminate Hr. }
  apply bind_inv in H as ([] & s2 & _ & H).
  apply bind_inv in H as (c2 & s3 & _ & H).
  destruct (_ && _).
  { apply bind_inv in H as ([] & s4 & _ & H). discriminate H. }
  apply bind_inv in H as (error & s4 & _ & H).
  destruct (negb (error =? IRECOVERY_E_SUCCESS)) eqn:He.
  - apply bind_inv in H as ([] & s5 & _ & H). injection H as -> _. discriminate He.
  - discriminate H.
Qed.

(** X22: [irecovery_finalize_client] returns success only for a client that
    is marked finalized when it returns, whatever the events and the device
    did in between: the success is either that of a client that was
    finalized before, or the one that follows the write of the mark. *)
Theorem finalize_success_marks (s : State) :
  let run := irecovery_finalize_client s in
  fst run = IRECOVERY_E_SUCCESS -> 0 < finalized (client (snd run)).
Proof.
  intros run. destruct run as [r s'] eqn:Hrun. unfold run in Hrun. cbn [fst snd].
  intros ->. unfold irecovery_finalize_client in Hrun.
  apply bind_inv in Hrun as (returned & s1 & Hfirst & Hrun).
  destruct returned as [e|].
  - injection Hrun as -> <-. now apply finalize_until_configured_success in Hfirst.
  - unfold finalize_nonces in Hrun.
    apply bind_inv in Hrun as ([] & s2 & _ & Hrun).
    apply bind_inv in Hrun as ([] & s3 & _ & Hrun).
    injection Hrun as <-. cbn. lia.
Qed.

End NonceFacts.

Lemma nonce_size_is_length_witness :
  let run := irecovery_copy_nonce_with_tag_from_buffer "NONC" "NONC:0a1b SNON:ff"
               Inputs.dfu_client in
  match fst run with
  | Some (nn, nlen) =>
      nlen = Z.of_nat (List.length nn) /\ 0 < nlen
      /\ 2 * nlen <= Z.of_nat (String.length "NONC:0a1b SNON:ff")
  | None => False
  end.
Proof.
  intros run. destruct run as [[[nn nlen]|] s'] eqn:Hrun; unfold run in Hrun.
  - exact (nonce_size_is_length _ _ _ _ _ _ Hrun).
  - vm_compute in Hrun. discriminate Hrun.
Defined.

Lemma finalize_success_marks_witness :
  0 < finalized (client (snd (irecovery_finalize_client Inputs.no_nonce_client))).
Proof.
  apply (finalize_success_marks Inputs.no_nonce_client). reflexivity.
Defined.

Section MessageFacts.

Lemma error_code_index (e : Z) :
  IRECOVERY_E_UNKNOWN_EVENT_TYPE <= e <= IRECOVERY_E_SUCCESS ->
  In (Z.to_nat (- e)) (seq 0 19) /\ e = - Z.of_nat (Z.to_nat (- e)).
Proof.
  unfold IRECOVERY_E_UNKNOWN_EVENT_TYPE, IRECOVERY_E_SUCCESS. intros He.
  split; [apply in_seq|]; lia.
Qed.

(** X23: [irecovery_strerror] gives each of the 19 error codes a message of
    its own, and the message for a foreign error to every other value and
    to no error code. *)
Theorem strerror_messages :
  (forall e, irecovery_strerror e = "Foreign error."
             <-> (e < IRECOVERY_E_UNKNOWN_EVENT_TYPE \/ IRECOVERY_E_SUCCESS < e))
  /\ (forall e1 e2,
        IRECOVERY_E_UNKNOWN_EVENT_TYPE <= e1 <= IRECOVERY_E_SUCCESS ->
        IRECOVERY_E_UNKNOWN_EVENT_TYPE <= e2 <= IRECOVERY_E_SUCCESS ->
        irecovery_strerror e1 = irecovery_strerror e2 -> e1 = e2).
Proof.
  split.
  - intros e. split.
    + intros Hmsg.
      destruct (Z_lt_dec e IRECOVERY_E_UNKNOWN_EVENT_TYPE) as [|Hlow]; [now left|].
      destruct (Z_lt_dec IRECOVERY_E_SUCCESS e) as [|Hhigh]; [now right|].
      exfalso.
      destruct (error_code_index e ltac:(lia)) as [Hin He].
      assert (Hall : forallb (fun k => negb (String.eqb
                        (irecovery_strerror (- Z.of_nat k)) "Foreign error."))
                       (seq 0 19) = true) by (vm_compute; reflexivity).
      rewrite forallb_forall in Hall. specialize (Hall _ Hin).
      rewrite <- He, Hmsg in Hall. discriminate Hall.
    + intros Hout. unfold irecovery_strerror.
      repeat match goal with
             | |- context [e =? ?c] =>
                 destruct (Z.eqb_spec e c) as [E|_];
                 [exfalso; subst e; cbv in Hout; destruct Hout; discriminate|]
             end.
      reflexivity.
  - intros e1 e2 H1 H2 Hmsg.
    destruct (error_code_index e1 H1) as [Hin1 He1].
    destruct (error_code_index e2 H2) as [Hin2 He2].
    assert (Hall : forallb (fun k1 => forallb (fun k2 =>
                      implb (String.eqb (irecovery_strerror (- Z.of_nat k1))
                                        (irecovery_strerror (- Z.of_nat k2)))
                            (Nat.eqb k1 k2)) (seq 0 19)) (seq 0 19) = true)
      by (vm_compute; reflexivity).
    rewrite forallb_forall in Hall. specialize (Hall _ Hin1).
    rewrite forallb_forall in Hall. specialize (Hall _ Hin2).
    rewrite <- He1, <- He2, Hmsg, String.eqb_refl in Hall.
    apply Nat.eqb_eq in Hall. lia.
Qed.

End MessageFacts.
